(** * iplib3.address: validators, text/integer codec and address objects

    A shallow embedding of [src/iplib3/address.py] and the properties of its
    validators ([_port_validator], [_ipv4_validator], [_ipv6_validator]),
    of the numeric codec ([_ipv4_to_num], [_num_to_ipv4], [_ipv6_to_num],
    [_num_to_ipv6]) and of the address classes ([PureAddress], [IPAddress],
    [IPv4], [IPv6]).

    Layout: the Python builtins the module relies on ([Py]), the imported
    constants, the functions of the module in source order, then lemmas and
    the theorems. *)

From Stdlib Require Import ZArith String Ascii List Bool Lia.
From Stdlib Require Import DecimalString HexadecimalString.
From Stdlib Require Import DecimalPos HexadecimalPos HexadecimalN.
Import ListNotations.

Local Open Scope string_scope.
Local Open Scope list_scope.
Local Open Scope Z_scope.

(** ** Exceptions and fallible computations *)

Inductive exn : Set := ValueError | TypeError | AttributeError.

Inductive result (A : Type) : Type :=
| Ok (a : A)
| Raise (e : exn).

Arguments Ok {A} a.
Arguments Raise {A} e.

Definition bind {A B : Type} (m : result A) (k : A -> result B) : result B :=
  match m with
  | Ok a => k a
  | Raise e => Raise e
  end.

Notation "x <- m ;; k" := (bind m (fun x => k))
  (at level 61, m at next level, right associativity).
Notation "' pat <- m ;; k" := (bind m (fun x => match x with pat => k end))
  (at level 61, pat pattern, m at next level, right associativity).

(** [try: x = m / except ValueError: handler / (rest) k x]: only the
    evaluation of [m] is protected, the continuation is not. *)
Definition try_ValueError {A B : Type}
    (m : result A) (handler : result B) (k : A -> result B) : result B :=
  match m with
  | Ok a => k a
  | Raise ValueError => handler
  | Raise e => Raise e
  end.

(** A list comprehension whose element expression may raise: the first
    failure, left to right, aborts the whole list. *)
Fixpoint map_result {A B : Type} (f : A -> result B) (l : list A) : result (list B) :=
  match l with
  | [] => Ok []
  | x :: r => y <- f x ;; ys <- map_result f r ;; Ok (y :: ys)
  end.

(** ** Python values *)

(** [bool] is a subclass of [int]: [isinstance(True, int)] holds and [True]
    counts as 1 in arithmetic and comparisons. *)
Inductive pyint : Set := PInt (z : Z) | PBool (b : bool).

Definition int_val (i : pyint) : Z :=
  match i with
  | PInt z => z
  | PBool b => if b then 1 else 0
  end.

(** The values a caller can pass: [None], an [int] (or [bool]), a [str], or
    an object of any other type, of which only the text [str()] gives for it
    is kept. Strings are sequences of 8-bit code points. *)
Inductive pyval : Type :=
| VNone
| VNum (i : pyint)
| VStr (s : string)
| VOther (text : string).

Module Py.

(** *** Strings *)

Definition nonempty (s : string) : bool :=
  match s with EmptyString => false | String _ _ => true end.

(** [sub in s] *)
Fixpoint contains (sub s : string) : bool :=
  prefix sub s ||
  match s with
  | EmptyString => false
  | String _ s' => contains sub s'
  end.

(** [s.split(sep)] for a non-empty [sep] (every call in the module passes a
    literal): separators are found left to right and do not overlap.
    [skip] counts the characters of a matched separator still to pass. *)
Fixpoint split_from (sep : string) (skip : nat) (s : string) : list string :=
  match s with
  | EmptyString => [EmptyString]
  | String c s' =>
      match skip with
      | S k => split_from sep k s'
      | O =>
          if prefix sep s
          then EmptyString :: split_from sep (String.length sep - 1) s'
          else match split_from sep 0 s' with
               | piece :: rest => String c piece :: rest
               | [] => [String c EmptyString]
               end
      end
  end.

Definition split (s sep : string) : list string := split_from sep 0 s.

(** [sep.join(l)] *)
Definition join (sep : string) (l : list string) : string := String.concat sep l.

(** [s[1:]] *)
Definition drop_first (s : string) : string :=
  match s with EmptyString => EmptyString | String _ s' => s' end.

Definition upper_char (c : ascii) : ascii :=
  let n := N_of_ascii c in
  if (97 <=? n)%N && (n <=? 122)%N then ascii_of_N (n - 32) else c.

(** [s.upper()], on the ASCII letters (the module applies it to the digits
    of [hex()] only). *)
Fixpoint upper (s : string) : string :=
  match s with
  | EmptyString => EmptyString
  | String c s' => String (upper_char c) (upper s')
  end.

Fixpoint zeros (n : nat) : string :=
  match n with O => EmptyString | S k => String "0" (zeros k) end.

(** [s.zfill(width)]: zeros go after a leading sign. *)
Definition zfill (s : string) (width : nat) : string :=
  let pad := zeros (width - String.length s) in
  match s with
  | String c r =>
      if Ascii.eqb c "+" || Ascii.eqb c "-" then String c (pad ++ r) else (pad ++ s)%string
  | EmptyString => pad
  end.

(** *** Integers and text *)

(** [str(n)] *)
Definition str_int (n : Z) : string := DecimalString.NilZero.string_of_int (Z.to_int n).

(** [str(v)] and [f"{v}"]. *)
Definition str (v : pyval) : string :=
  match v with
  | VNone => "None"
  | VNum (PInt n) => str_int n
  | VNum (PBool b) => if b then "True" else "False"
  | VStr s => s
  | VOther text => text
  end.

(** [hex(n)] *)
Definition hex (n : Z) : string :=
  ((if (n <? 0)%Z then "-0x" else "0x")
     ++ HexadecimalString.NilZero.string_of_uint (N.to_hex_uint (Z.abs_N n)))%string.

(** White space for [int()]: tab to carriage return, space, and among the
    code points above 127 NEL and the no-break space. *)
Definition is_space (c : ascii) : bool :=
  let n := N_of_ascii c in
  ((9 <=? n) && (n <=? 13) || (n =? 32) || (n =? 133) || (n =? 160))%N.

Fixpoint lstrip (s : string) : string :=
  match s with
  | String c s' => if is_space c then lstrip s' else s
  | EmptyString => EmptyString
  end.

Fixpoint all_space (s : string) : bool :=
  match s with
  | String c s' => is_space c && all_space s'
  | EmptyString => true
  end.

(** Value of a digit character: 0-9, then a-z and A-Z as 10-35; any other
    character gets 37, above every base. *)
Definition digit_value (c : ascii) : Z :=
  let n := Z.of_N (N_of_ascii c) in
  if (48 <=? n) && (n <=? 57) then n - 48
  else if (97 <=? n) && (n <=? 122) then n - 87
  else if (65 <=? n) && (n <=? 90) then n - 55
  else 37.

(** The digit loop of [int()]: digits below [base] with single underscores
    between them; [None] on a doubled or trailing underscore. Returns the
    value read and the text left. *)
Fixpoint scan_digits (base : Z) (prev_underscore : bool) (acc : Z) (s : string)
  : option (Z * string) :=
  match s with
  | String c s' =>
      if Ascii.eqb c "_" then
        if prev_underscore then None else scan_digits base true acc s'
      else if digit_value c <? base then
        scan_digits base false (acc * base + digit_value c) s'
      else if prev_underscore then None else Some (acc, s)
  | EmptyString => if prev_underscore then None else Some (acc, s)
  end.

(** An optional sign in front of the digits. *)
Definition split_sign (s : string) : Z * string :=
  match s with
  | String c r =>
      if Ascii.eqb c "+" then (1, r)
      else if Ascii.eqb c "-" then (-1, r)
      else (1, s)
  | EmptyString => (1, s)
  end.

(** In base 16, an optional [0x] or [0X], and one underscore after it. *)
Definition skip_radix_prefix (base : Z) (s : string) : string :=
  match s with
  | String c0 (String c1 r) =>
      if (base =? 16) && Ascii.eqb c0 "0" && (Ascii.eqb c1 "x" || Ascii.eqb c1 "X")
      then match r with
           | String c2 r' => if Ascii.eqb c2 "_" then r' else r
           | EmptyString => r
           end
      else s
  | _ => s
  end.

(** [int(s, base)] for base 10 and base 16, the two the module uses:
    surrounding white space, an optional sign, for base 16 an optional
    radix prefix, then at least one digit. The interpreter's cap on the
    length of decimal literals (a run-time setting, 4300 digits by default
    since Python 3.11, beyond which [int()] raises [ValueError]) is not
    modelled: where a property below has [int()] return on a decimal
    numeral, the numeral is within that cap ([within_digit_limit]) or the
    return is a hypothesis. *)
Definition int (s : string) (base : Z) : result Z :=
  let '(sign, s2) := split_sign (lstrip s) in
  let s3 := skip_radix_prefix base s2 in
  match s3 with
  | String c _ =>
      if digit_value c <? base then
        match scan_digits base false 0 s3 with
        | Some (v, rest) => if all_space rest then Ok (sign * v) else Raise ValueError
        | None => Raise ValueError
        end
      else Raise ValueError
  | EmptyString => Raise ValueError
  end.

(** [max(l)] and [min(l)] of a list: [ValueError] on an empty one. *)
Definition max (l : list Z) : result Z :=
  match l with
  | [] => Raise ValueError
  | x :: r => Ok (fold_left (fun m y => if m <? y then y else m) r x)
  end.

Definition min (l : list Z) : result Z :=
  match l with
  | [] => Raise ValueError
  | x :: r => Ok (fold_left (fun m y => if y <? m then y else m) r x)
  end.

(** [max(a, b)] and [min(a, b)] keep the first argument unless the second
    is strictly beyond it, so [max(0, True)] is [True] but [max(0, False)]
    is [0]. *)
Definition max2 (a b : pyint) : pyint := if int_val a <? int_val b then b else a.
Definition min2 (a b : pyint) : pyint := if int_val b <? int_val a then b else a.

(** [lo <= v <= hi] with integer bounds: a [TypeError] unless [v] is a
    number. *)
Definition between (lo : Z) (v : pyval) (hi : Z) : result bool :=
  match v with
  | VNum i => Ok ((lo <=? int_val i) && (int_val i <=? hi))
  | _ => Raise TypeError
  end.

Definition isinstance_int (v : pyval) : bool :=
  match v with VNum _ => true | _ => false end.

(** Truth value of a list: non-empty. *)
Definition nonempty_list {A : Type} (l : list A) : bool :=
  match l with [] => false | _ :: _ => true end.

End Py.

(** ** Constants

    [address.py] imports its constants from [iplib3.constants]. *)

(** Modelled from the spec: [constants.port] ("Port bounds: 0..=65535
    inclusive"). *)
Definition PORT_NUMBER_MIN_VALUE : Z := 0.
(** Modelled from the spec: [constants.port], upper port bound 65535. *)
Definition PORT_NUMBER_MAX_VALUE : Z := 65535.

(** Modelled from the spec: [constants.ipv4] ("4 dotted decimal segments"). *)
Definition IPV4_MAX_SEGMENT_COUNT : Z := 4.
(** Modelled from the spec: [constants.ipv4] (segments "each in [0,255]"). *)
Definition IPV4_MIN_SEGMENT_VALUE : Z := 0.
(** Modelled from the spec: [constants.ipv4] (segments "each in [0,255]"). *)
Definition IPV4_MAX_SEGMENT_VALUE : Z := 255.
(** Modelled from the spec: [constants.ipv4] (integers "within [0, 2^32-1]"). *)
Definition IPV4_MIN_VALUE : Z := 0.
(** Modelled from the spec: [constants.ipv4] (integers "within [0, 2^32-1]"). *)
Definition IPV4_MAX_VALUE : Z := 2 ^ 32 - 1.

(** Modelled from the spec: [constants.ipv6]; the width of a hexadecimal
    digit, so that a hextet is "zero-padded on the left to exactly 4 hex
    digits" ([IPV6_SEGMENT_BIT_COUNT // IPV6_NUMBER_BIT_COUNT]). *)
Definition IPV6_NUMBER_BIT_COUNT : Z := 4.
(** Modelled from the spec: [constants.ipv6] ("16-bit hextets"; also the
    base in which "each hextet parses as base-16"). *)
Definition IPV6_SEGMENT_BIT_COUNT : Z := 16.
(** Modelled from the spec: [constants.ipv6] (a run that "starts at the very
    first segment" is the edge case, index 0). *)
Definition IPV6_MIN_SEGMENT_COUNT : Z := 0.
(** Modelled from the spec: [constants.ipv6] ("exactly 8 hextets"). *)
Definition IPV6_MAX_SEGMENT_COUNT : Z := 8.
(** Modelled from the spec: [constants.ipv6] (hextets "each in [0, 0xFFFF]"). *)
Definition IPV6_MIN_SEGMENT_VALUE : Z := 0.
(** Modelled from the spec: [constants.ipv6] (hextets "each in [0, 0xFFFF]"). *)
Definition IPV6_MAX_SEGMENT_VALUE : Z := 65535.
(** Modelled from the spec: [constants.ipv6] (integers in [0, 2^128 - 1]). *)
Definition IPV6_MIN_VALUE : Z := 0.
(** Modelled from the spec: [constants.ipv6] (integers in [0, 2^128 - 1]). *)
Definition IPV6_MAX_VALUE : Z := 2 ^ 128 - 1.

(** Modelled from the spec: [constants.address], "an IPv4 loopback integer"
    (127.0.0.1). *)
Definition IPV4_LOCALHOST : Z := 2130706433.
(** Modelled from the spec: [constants.address], "an IPv6 loopback integer"
    (::1). *)
Definition IPV6_LOCALHOST : Z := 1.

(** ** Validators *)

Definition port_in_range (port_num : Z) : bool :=
  (PORT_NUMBER_MIN_VALUE <=? port_num) && (port_num <=? PORT_NUMBER_MAX_VALUE).

(** [_port_validator(port_num)]; [and] evaluates the comparison only for an
    [int]. *)
Definition _port_validator (port_num : pyval) : result bool :=
  match port_num with
  | VNone => Ok true
  | _ =>
      if Py.isinstance_int port_num
      then Py.between PORT_NUMBER_MIN_VALUE port_num PORT_NUMBER_MAX_VALUE
      else Ok false
  end.

(** The port part of both string validators: [port] is what follows the
    first piece of the split; [rest] is the remainder of the validator. *)
Definition validate_port_part (port : list string) (strict : bool)
    (rest : result bool) : result bool :=
  match port with
  | [] => rest
  | p0 :: _ =>
      try_ValueError (Py.int p0 10)
        (Ok false)
        (fun port_num =>
           if strict && negb (port_in_range port_num) then Ok false else rest)
  end.

Definition ipv4_segment_in_range (seg : Z) : bool :=
  (IPV4_MIN_SEGMENT_VALUE <=? seg) && (seg <=? IPV4_MAX_SEGMENT_VALUE).

Definition _ipv4_validator (address : pyval) (strict : bool) : result bool :=
  match address with
  | VStr address =>
      if negb (Py.contains "." address) then Ok false
      else
        match Py.split address ":" with
        | [] => Raise ValueError
        | address :: port =>
            validate_port_part port strict
              (try_ValueError
                 (map_result (fun seg => Py.int seg 10) (Py.split address "."))
                 (Ok false)
                 (fun segments =>
                    if negb (Z.of_nat (length segments) =? IPV4_MAX_SEGMENT_COUNT)
                    then Ok false
                    else if strict && negb (forallb ipv4_segment_in_range segments)
                    then Ok false
                    else Ok true))
        end
  | VNum i => Ok ((IPV4_MIN_VALUE <=? int_val i) && (int_val i <=? IPV4_MAX_VALUE))
  | _ => Ok false
  end.

(** The block that [_ipv6_validator] and [_ipv6_to_num] both open with:
    split on the zero-skip and build the list of segments. [None] stands for
    the [else] branch (more than one zero-skip), where the two functions
    differ. *)
Definition zero_skip_segments (address : string) : option (list string) :=
  let halves := Py.split address "::" in
  match halves with
  | [half0; half1] =>
      let left := Py.split half0 ":" in
      let right := Py.split half1 ":" in
      let total_length := (length left + length right)%nat in
      let segments := if Py.nonempty half0 then left else ["0000"] in
      let segments :=
        segments ++ repeat "0000" (Z.to_nat (IPV6_MAX_SEGMENT_COUNT - Z.of_nat total_length)) in
      let segments := segments ++ (if Py.nonempty half1 then right else ["0000"]) in
      Some segments
  | [half0] => Some (Py.split half0 ":")
  | _ => None
  end.

(** [int(segment, IPV6_SEGMENT_BIT_COUNT) if segment else 0] *)
Definition parse_hextet (segment : string) : result Z :=
  if Py.nonempty segment then Py.int segment IPV6_SEGMENT_BIT_COUNT else Ok 0.

Definition ipv6_segment_in_range (seg : Z) : bool :=
  (IPV6_MIN_SEGMENT_VALUE <=? seg) && (seg <=? IPV6_MAX_SEGMENT_VALUE).

Definition _ipv6_validator (address : pyval) (strict : bool) : result bool :=
  match address with
  | VStr address =>
      match Py.split address "]:" with
      | [] => Raise ValueError
      | address0 :: port =>
          let address := if Py.nonempty_list port then Py.drop_first address0 else address0 in
          validate_port_part port strict
            (match zero_skip_segments address with
             | None => Ok false
             | Some segments =>
                 try_ValueError (map_result parse_hextet segments)
                   (Ok false)
                   (fun processed_segments =>
                      if negb (Z.of_nat (length processed_segments) =? IPV6_MAX_SEGMENT_COUNT)
                      then Ok false
                      else if strict && negb (forallb ipv6_segment_in_range processed_segments)
                      then Ok false
                      else Ok true)
             end)
      end
  | VNum i => Ok ((IPV6_MIN_VALUE <=? int_val i) && (int_val i <=? IPV6_MAX_VALUE))
  | _ => Ok false
  end.

Definition _ip_validator (address : pyval) (strict : bool) : result bool :=
  ok4 <- _ipv4_validator address strict ;;
  if ok4 then Ok true else _ipv6_validator address strict.

(** ** Numeric codec: integer to text (static methods of [PureAddress]) *)

(** [for _ in range(count): num, segment = divmod(num, base);
    segments.append(segment)] *)
Fixpoint divmod_segments (count : nat) (base num : Z) : list Z :=
  match count with
  | O => []
  | S k => (num mod base) :: divmod_segments k base (num / base)
  end.

Definition _num_to_ipv4 (num : Z) : string :=
  let segments :=
    divmod_segments (Z.to_nat IPV4_MAX_SEGMENT_COUNT) (IPV4_MAX_SEGMENT_VALUE + 1) num in
  Py.join "." (map Py.str_int (rev segments)).

(** [hex(segment).split('x')[1].upper()] *)
Definition hextet_text (segment : Z) : string :=
  Py.upper (nth 1 (Py.split (Py.hex segment) "x") "").

(** The four counters of the zero-run scan. *)
Record zero_scan : Set := mkScan {
  longest : nat;
  longest_idx : nat;
  current : nat;
  current_idx : nat
}.

(** One turn of [for idx, seg in enumerate(segments)]. *)
Definition zero_scan_step (st : zero_scan) (idx : nat) (seg : string) : zero_scan :=
  let '(current, current_idx) :=
    if String.eqb seg "0"
    then (S (current st), if Nat.eqb (current st) 0 then idx else current_idx st)
    else (O, current_idx st) in
  if (longest st <? current)%nat
  then mkScan current current_idx current current_idx
  else mkScan (longest st) (longest_idx st) current current_idx.

Fixpoint zero_scan_loop (st : zero_scan) (idx : nat) (segments : list string) : zero_scan :=
  match segments with
  | [] => st
  | seg :: rest => zero_scan_loop (zero_scan_step st idx seg) (S idx) rest
  end.

(** The body of [if remove_zeroes and '0' in segments]. *)
Definition remove_zero_run (segments : list string) : list string :=
  let st := zero_scan_loop (mkScan 0 0 0 0) 0 segments in
  let longest := longest st in
  let longest_idx := longest_idx st in
  (if (IPV6_MIN_SEGMENT_COUNT <? Z.of_nat longest_idx)
      && (Z.of_nat longest_idx <? IPV6_MAX_SEGMENT_COUNT - 1)
   then firstn longest_idx segments
   else [""])
  ++ [""]
  ++ (if (IPV6_MIN_SEGMENT_COUNT <? Z.of_nat (longest_idx + longest))
         && (Z.of_nat (longest_idx + longest) <? IPV6_MAX_SEGMENT_COUNT)
      then skipn (longest_idx + longest) segments
      else [""]).

Definition _num_to_ipv6 (num : Z) (shorten remove_zeroes : bool) : string :=
  let segments :=
    map hextet_text
      (divmod_segments (Z.to_nat IPV6_MAX_SEGMENT_COUNT) (IPV6_MAX_SEGMENT_VALUE + 1) num) in
  let segments :=
    if remove_zeroes && existsb (String.eqb "0") segments
    then remove_zero_run segments
    else segments in
  let segments :=
    if negb shorten
    then map (fun seg =>
                if Py.nonempty seg
                then Py.zfill seg (Z.to_nat (IPV6_SEGMENT_BIT_COUNT / IPV6_NUMBER_BIT_COUNT))
                else "")
             segments
    else segments in
  Py.join ":" (rev segments).

(** ** Numeric codec: text to integer *)

(** [for idx, num in enumerate(segments): total += num * 2**(idx * bits)] *)
Fixpoint weighted_total (bits : Z) (idx : Z) (segments : list Z) (total : Z) : Z :=
  match segments with
  | [] => total
  | num :: rest => weighted_total bits (idx + 1) rest (total + num * 2 ^ (idx * bits))
  end.

(** [IPv4._ipv4_to_num], on the text held in [self._address]. *)
Definition _ipv4_to_num (_address : string) : result Z :=
  segments <- map_result (fun seg => Py.int seg 10) (Py.split _address ".") ;;
  Ok (weighted_total 8 0 (rev segments) 0).

(** [IPv6._ipv6_to_num], on the text held in [self._address]. *)
Definition _ipv6_to_num (_address : string) : result Z :=
  match zero_skip_segments _address with
  | None => Raise ValueError
  | Some segments =>
      try_ValueError (map_result parse_hextet (rev segments))
        (Raise ValueError)
        (fun processed_segments =>
           let segment_count := Z.of_nat (length processed_segments) in
           if IPV6_MAX_SEGMENT_COUNT <? segment_count then Raise ValueError
           else
             highest <- Py.max processed_segments ;;
             if IPV6_MAX_SEGMENT_VALUE <? highest then Raise ValueError
             else
               lowest <- Py.min processed_segments ;;
               if lowest <? IPV6_MIN_SEGMENT_VALUE then Raise ValueError
               else Ok (weighted_total 16 0 processed_segments 0))
  end.

(** ** Address objects *)

(** An instance of [IPv4] or of [IPv6]: the slots [_address], [_num] and
    [_port]. The slots [_ipv4] and [_ipv6] it inherits are set to [None] by
    [__init__] and never written again, since both classes have a [__str__]
    of their own. *)
Record family_instance : Set := mkFamily {
  fam_address : string;
  fam_num : Z;
  fam_port : option pyint
}.

(** An address object: a plain [IPAddress] with its two cache slots (typed
    [Optional[IPv4]] and [Optional[IPv6]] in the source), or an instance of
    one of the two family classes. [PureAddress] is abstract. *)
Inductive object : Set :=
| Generic (num : Z) (port : option pyint) (ipv4 ipv6 : option family_instance)
| V4 (f : family_instance)
| V6 (f : family_instance).

Definition _num (self : object) : Z :=
  match self with
  | Generic n _ _ _ => n
  | V4 f | V6 f => fam_num f
  end.

Definition _port (self : object) : option pyint :=
  match self with
  | Generic _ p _ _ => p
  | V4 f | V6 f => fam_port f
  end.

Definition set_port (self : object) (p : option pyint) : object :=
  match self with
  | Generic n _ c4 c6 => Generic n p c4 c6
  | V4 f => V4 (mkFamily (fam_address f) (fam_num f) p)
  | V6 f => V6 (mkFamily (fam_address f) (fam_num f) p)
  end.

(** *** [PureAddress] *)

(** Property [num]: [max(0, self._num)]. *)
Definition num (self : object) : Z := Z.max 0 (_num self).

Definition clamp_port (p : option pyint) : option pyint :=
  match p with
  | None => None
  | Some p =>
      Some (Py.min2 (Py.max2 (PInt PORT_NUMBER_MIN_VALUE) p) (PInt PORT_NUMBER_MAX_VALUE))
  end.

(** Property [port] (getter). *)
Definition port (self : object) : option pyint := clamp_port (_port self).

(** Property [port] (setter): the outcome and the object afterwards. *)
Definition port_setter (self : object) (value : pyval) : result unit * object :=
  match value with
  | VNone => (Ok tt, set_port self None)
  | VNum i =>
      if negb (port_in_range (int_val i)) then (Raise ValueError, self)
      else (Ok tt, set_port self (Some i))
  | _ => (Raise TypeError, self)
  end.

(** An [Optional[int]] as an argument value. *)
Definition optional_int (p : option pyint) : pyval :=
  match p with None => VNone | Some i => VNum i end.

(** *** [IPAddress.__init__] *)

(** [port_num if _port_validator(port_num) else None]: what [__init__]
    stores in [_port]. *)
Definition checked_port (port_num : pyval) : result (option pyint) :=
  valid <- _port_validator port_num ;;
  Ok (if valid then match port_num with VNum i => Some i | _ => None end else None).

(** The values [IPAddress.__init__] gives to [_num] and [_port]; the cache
    slots become [None]. *)
Definition IPAddress_init_slots (address : option Z) (port_num : pyval)
  : result (Z * option pyint) :=
  p <- checked_port port_num ;;
  Ok (match address with Some n => n | None => 0 end, p).

Definition IPAddress_init (address : option Z) (port_num : pyval) : result object :=
  '(n, p) <- IPAddress_init_slots address port_num ;;
  Ok (Generic n p None None).

(** *** [IPv4] *)

Definition IPv4_init (address : option string) (port_num : pyval) : result family_instance :=
  let address := match address with Some a => a | None => _num_to_ipv4 IPV4_LOCALHOST end in
  match Py.split address ":" with
  | [] => Raise ValueError
  | _address :: _port =>
      port_num <-
        match _port, port_num with
        | p0 :: _, VNone => n <- Py.int p0 10 ;; Ok (VNum (PInt n))
        | _, _ => Ok port_num
        end ;;
      let address := if Py.nonempty_list _port then _address else address in
      n <- _ipv4_to_num address ;;
      '(n, p) <- IPAddress_init_slots (Some n) port_num ;;
      Ok (mkFamily address n p)
  end.

Definition IPv4_str (self : family_instance) : string :=
  match clamp_port (fam_port self) with
  | Some p => (fam_address self ++ ":" ++ Py.str (VNum p))%string
  | None => fam_address self
  end.

(** *** [IPv6] *)

Definition IPv6_init (address : option string) (port_num : pyval) : result family_instance :=
  let address :=
    match address with Some a => a | None => _num_to_ipv6 IPV6_LOCALHOST true false end in
  match Py.split address "]:" with
  | [] => Raise ValueError
  | _address :: _port =>
      port_num <-
        match _port, port_num with
        | p0 :: _, VNone => n <- Py.int p0 10 ;; Ok (VNum (PInt n))
        | _, _ => Ok port_num
        end ;;
      let address := if Py.nonempty_list _port then Py.drop_first _address else address in
      n <- _ipv6_to_num address ;;
      '(n, p) <- IPAddress_init_slots (Some n) port_num ;;
      Ok (mkFamily address n p)
  end.

Definition IPv6_str (self : family_instance) : string :=
  match clamp_port (fam_port self) with
  | Some p => ("[" ++ fam_address self ++ "]:" ++ Py.str (VNum p))%string
  | None => fam_address self
  end.

(** *** [IPAddress.__new__]

    Calling a class runs [__new__], which picks the family class for a
    string and runs [__init__], and then runs [__init__] once more, with the
    same arguments, when the object is an instance of the class called; the
    second run stores the same values again. *)

Inductive class : Set := CIPAddress | CIPv4 | CIPv6.

Inductive address_arg : Set :=
| ANone
| AInt (n : Z)
| AStr (s : string).

Definition IPAddress_new (cls : class) (address : address_arg) (port_num : pyval)
  : result object :=
  let cls :=
    match address with
    | AStr s => if Py.contains "." s then CIPv4 else CIPv6
    | _ => cls
    end in
  match cls, address with
  | CIPAddress, ANone => IPAddress_init None port_num
  | CIPAddress, AInt n => IPAddress_init (Some n) port_num
  | CIPAddress, AStr _ => Raise TypeError
  | CIPv4, ANone => f <- IPv4_init None port_num ;; Ok (V4 f)
  | CIPv4, AStr s => f <- IPv4_init (Some s) port_num ;; Ok (V4 f)
  | CIPv6, ANone => f <- IPv6_init None port_num ;; Ok (V6 f)
  | CIPv6, AStr s => f <- IPv6_init (Some s) port_num ;; Ok (V6 f)
  | _, AInt _ => Raise AttributeError
  end.

(** *** [IPAddress.as_ipv4], [as_ipv6] and [__str__] *)

Definition as_ipv4 (self : object) : result family_instance :=
  IPv4_init (Some (_num_to_ipv4 (num self))) (optional_int (port self)).

Definition as_ipv6 (self : object) : result family_instance :=
  IPv6_init (Some (_num_to_ipv6 (num self) true false)) (optional_int (port self)).

Definition set_ipv4 (self : object) (c : family_instance) : object :=
  match self with
  | Generic n p _ c6 => Generic n p (Some c) c6
  | _ => self
  end.

Definition set_ipv6 (self : object) (c : family_instance) : object :=
  match self with
  | Generic n p c4 _ => Generic n p c4 (Some c)
  | _ => self
  end.

(** [IPAddress.__str__]: the text and the object afterwards (the first call
    fills the cache slot, later calls read it). *)
Definition IPAddress_str (self : object) (ipv4 ipv6 : option family_instance)
  : result string * object :=
  if (IPV4_MIN_VALUE <=? num self) && (num self <=? IPV4_MAX_VALUE) then
    match ipv4 with
    | Some c => (Ok (IPv4_str c), self)
    | None =>
        match as_ipv4 self with
        | Ok c => (Ok (IPv4_str c), set_ipv4 self c)
        | Raise e => (Raise e, self)
        end
    end
  else if (IPV4_MAX_VALUE <? num self) && (num self <=? IPV6_MAX_VALUE) then
    match ipv6 with
    | Some c => (Ok (IPv6_str c), self)
    | None =>
        match as_ipv6 self with
        | Ok c => (Ok (IPv6_str c), set_ipv6 self c)
        | Raise e => (Raise e, self)
        end
    end
  else (Raise ValueError, self).

(** [str(self)], by the class of [self]. *)
Definition object_str (self : object) : result string * object :=
  match self with
  | Generic _ _ ipv4 ipv6 => IPAddress_str self ipv4 ipv6
  | V4 f => (Ok (IPv4_str f), self)
  | V6 f => (Ok (IPv6_str f), self)
  end.

(** *** [PureAddress.__eq__] *)

(** The right-hand side of [==]: any value, or an address object. *)
Inductive operand : Type :=
| OVal (v : pyval)
| OObj (o : object).

Definition operand_str (other : operand) : result string * operand :=
  match other with
  | OVal v => (Ok (Py.str v), other)
  | OObj o => let '(r, o') := object_str o in (r, OObj o')
  end.

(** [a == b] on two [Optional[int]]. *)
Definition port_eqb (a b : option pyint) : bool :=
  match a, b with
  | None, None => true
  | Some x, Some y => int_val x =? int_val y
  | _, _ => false
  end.

(** [self == other]: the outcome and both objects afterwards. *)
Definition PureAddress_eq (self : object) (other : operand)
  : result bool * object * operand :=
  let '(r1, self') := object_str self in
  match r1 with
  | Raise e => (Raise e, self', other)
  | Ok s1 =>
      let '(r2, other') := operand_str other in
      match r2 with
      | Raise e => (Raise e, self', other')
      | Ok s2 =>
          if String.eqb s1 s2 then (Ok true, self', other')
          else
            match other' with
            | OObj o => (Ok ((num self' =? num o) && port_eqb (port self') (port o)), self', other')
            | OVal _ => (Ok false, self', other')
            end
      end
  end.

(** *** The other methods of [PureAddress] and [IPAddress] *)

(** [PureAddress.__ne__]: [not self == other]. *)
Definition PureAddress_ne (self : object) (other : operand)
  : result bool * object * operand :=
  let '(r, self', other') := PureAddress_eq self other in
  (b <- r ;; Ok (negb b), self', other').

(** [format(n, "0X")]: the upper-case hexadecimal digits of [n] after its
    sign; without a width the zero flag pads nothing. *)
Definition format_X (n : Z) : string :=
  ((if (n <? 0)%Z then "-" else "")
     ++ Py.upper (HexadecimalString.NilZero.string_of_uint (N.to_hex_uint (Z.abs_N n))))%string.

(** Property [as_hex]. *)
Definition as_hex (self : object) : string := ("0x" ++ format_X (num self))%string.

(** The wrappers [num_to_ipv4] and [num_to_ipv6]. *)
Definition num_to_ipv4 (self : object) : string := _num_to_ipv4 (num self).

Definition num_to_ipv6 (self : object) (shorten remove_zeroes : bool) : string :=
  _num_to_ipv6 (num self) shorten remove_zeroes.

(** [self.__class__.__name__] *)
Definition class_name (self : object) : string :=
  match self with
  | Generic _ _ _ _ => "IPAddress"
  | V4 _ => "IPv4"
  | V6 _ => "IPv6"
  end.

(** [IPAddress.__repr__] *)
Definition IPAddress_repr (self : object) : result string * object :=
  let '(r, self') := object_str self in
  (text <- r ;; Ok ("iplib3." ++ class_name self ++ "('" ++ text ++ "')")%string, self').

(** ** Vocabulary of the properties *)

(** The text a port is read from when the address text carries one: the
    piece after the first separator. *)
Definition embedded_port (sep text : string) : option string :=
  match Py.split text sep with
  | _ :: p0 :: _ => Some p0
  | _ => None
  end.

(** A port argument as [__init__] keeps it: itself when it is an integer
    within the port bounds, [None] otherwise. *)
Definition valid_port_or_none (port_num : pyval) : option pyint :=
  match port_num with
  | VNum i => if port_in_range (int_val i) then Some i else None
  | _ => None
  end.

(** An invalid port argument: of a wrong type, or an integer outside the
    port bounds. *)
Definition invalid_port (port_num : pyval) : Prop :=
  match port_num with
  | VNone => False
  | VNum i => ~ (PORT_NUMBER_MIN_VALUE <= int_val i <= PORT_NUMBER_MAX_VALUE)
  | VStr _ | VOther _ => True
  end.

(** The outcome of [self == other]. *)
Definition eq_outcome (self : object) (other : operand) : result bool :=
  fst (fst (PureAddress_eq self other)).

(** [c] occurs in [s]. *)
Fixpoint has_char (c : ascii) (s : string) : bool :=
  match s with
  | EmptyString => false
  | String d s' => Ascii.eqb c d || has_char c s'
  end.

(** A character that no integer literal may hold: neither white space, nor
    a sign or an underscore, nor a digit of any base up to 36. *)
Definition foreign (c : ascii) : bool :=
  negb (Py.is_space c) && negb (Ascii.eqb c "+") && negb (Ascii.eqb c "-")
  && negb (Ascii.eqb c "_") && (36 <? Py.digit_value c).

(** A text the IPv4 validator cannot read as four integers: no dot at all,
    a port that is no integer, a segment that is no integer, or a number of
    segments other than four. *)
Inductive unparsable_ipv4 (s : string) : Prop :=
| ipv4_no_dot :
    Py.contains "." s = false -> unparsable_ipv4 s
| ipv4_bad_port (address p0 : string) (rest : list string) :
    Py.split s ":" = address :: p0 :: rest ->
    Py.int p0 10 = Raise ValueError -> unparsable_ipv4 s
| ipv4_bad_segment (address : string) (port : list string) :
    Py.split s ":" = address :: port ->
    map_result (fun seg => Py.int seg 10) (Py.split address ".") = Raise ValueError ->
    unparsable_ipv4 s
| ipv4_bad_count (address : string) (port : list string) (segments : list Z) :
    Py.split s ":" = address :: port ->
    map_result (fun seg => Py.int seg 10) (Py.split address ".") = Ok segments ->
    length segments <> 4%nat -> unparsable_ipv4 s.

(** The address part of a text given to the IPv6 validator: what is inside
    the brackets when a port follows, the whole text otherwise. *)
Definition ipv6_address_part (s : string) : string :=
  match Py.split s "]:" with
  | address :: port => if Py.nonempty_list port then Py.drop_first address else address
  | [] => s
  end.

(** A text the IPv6 validator cannot read as eight hextets: a port that is
    no integer, more than one zero-skip, a segment that is no hexadecimal
    number, or a number of segments other than eight. *)
Inductive unparsable_ipv6 (s : string) : Prop :=
| ipv6_bad_port (address p0 : string) (rest : list string) :
    Py.split s "]:" = address :: p0 :: rest ->
    Py.int p0 10 = Raise ValueError -> unparsable_ipv6 s
| ipv6_several_skips :
    zero_skip_segments (ipv6_address_part s) = None -> unparsable_ipv6 s
| ipv6_bad_segment (segments : list string) :
    zero_skip_segments (ipv6_address_part s) = Some segments ->
    map_result parse_hextet segments = Raise ValueError -> unparsable_ipv6 s
| ipv6_bad_count (segments : list string) (hextets : list Z) :
    zero_skip_segments (ipv6_address_part s) = Some segments ->
    map_result parse_hextet segments = Ok hextets ->
    length hextets <> 8%nat -> unparsable_ipv6 s.

(** A value of a type no port can have, and one of a type no address can
    have. *)
Definition not_a_port_type (value : pyval) : Prop :=
  match value with
  | VStr _ | VOther _ => True
  | VNone | VNum _ => False
  end.

Definition not_an_address_type (value : pyval) : Prop :=
  match value with
  | VNone | VOther _ => True
  | VNum _ | VStr _ => False
  end.

(** The hextets an address text denotes, in reading order: the segments
    after the zero-skip is filled in, each read as a hexadecimal number.
    [None] when there is more than one zero-skip or a segment is no
    number. *)
Definition hextets (address : string) : option (list Z) :=
  match zero_skip_segments address with
  | Some segments =>
      match map_result parse_hextet segments with
      | Ok hs => Some hs
      | Raise _ => None
      end
  | None => None
  end.

(** The malformed address texts: more than one zero-skip, more than eight
    hextets, a hextet that is no hexadecimal numeral, a hextet above 0xFFFF,
    or a hextet below 0. Nothing is asked of the other hextets of the text:
    they need not even parse. *)
Inductive malformed_ipv6 (address : string) : Prop :=
| several_zero_skips :
    (2 < length (Py.split address "::"))%nat -> malformed_ipv6 address
| too_many_hextets (segments : list string) :
    zero_skip_segments address = Some segments ->
    (8 < length segments)%nat -> malformed_ipv6 address
| hextet_unparsable (segments : list string) (segment : string) (e : exn) :
    zero_skip_segments address = Some segments -> In segment segments ->
    parse_hextet segment = Raise e -> malformed_ipv6 address
| hextet_too_high (segments : list string) (segment : string) (h : Z) :
    zero_skip_segments address = Some segments -> In segment segments ->
    parse_hextet segment = Ok h -> 65535 < h -> malformed_ipv6 address
| hextet_negative (segments : list string) (segment : string) (h : Z) :
    zero_skip_segments address = Some segments -> In segment segments ->
    parse_hextet segment = Ok h -> h < 0 -> malformed_ipv6 address.

(** The integers of one IPv4 segment, and the check run on each of them:
    the decimal numeral [str()] writes is read back by [int()] as the same
    integer, and holds neither a dot nor a colon. *)
Fixpoint range_from (count : nat) (start : Z) : list Z :=
  match count with
  | O => []
  | S k => start :: range_from k (start + 1)
  end.

Definition octets : list Z := range_from 256 0.

Definition octet_text_ok (z : Z) : bool :=
  match Py.int (Py.str_int z) 10 with
  | Ok z' => z' =? z
  | Raise _ => false
  end
  && negb (has_char "." (Py.str_int z))
  && negb (has_char ":" (Py.str_int z)).

(** An upper-case hexadecimal digit, and a hextet written in full: exactly
    four of them. *)
Definition is_upper_hex_digit (c : ascii) : bool :=
  let n := N_of_ascii c in
  ((48 <=? n) && (n <=? 57) || (65 <=? n) && (n <=? 70))%N.

Fixpoint all_chars (p : ascii -> bool) (s : string) : bool :=
  match s with
  | EmptyString => true
  | String c s' => p c && all_chars p s'
  end.

Definition padded_hextet (g : string) : bool :=
  (String.length g =? 4)%nat && all_chars is_upper_hex_digit g.

(** The number a run of digits stands for in base 16. *)
Fixpoint hex_value (acc : Z) (g : string) : Z :=
  match g with
  | EmptyString => acc
  | String c g' => hex_value (acc * 16 + Py.digit_value c) g'
  end.

(** The upper-case digit of a value below 16, and the four digits of a
    value below 65536. *)
Definition upper_hex_char (v : Z) : ascii :=
  ascii_of_N (Z.to_N (if v <? 10 then 48 + v else 55 + v)).

Definition four_digits (v : Z) : string :=
  String (upper_hex_char (v / 4096))
    (String (upper_hex_char ((v / 256) mod 16))
       (String (upper_hex_char ((v / 16) mod 16))
          (String (upper_hex_char (v mod 16)) EmptyString))).

(** The values of one hextet, and the check run on each of them: its text
    is not empty, is its four digits once filled to four characters, is
    read back by [int()] as the same value, and holds neither a colon nor a
    closing bracket. *)
Definition hextet_values : list Z := range_from (256 * 256) 0.

Definition hextet_render_ok (v : Z) : bool :=
  let text := hextet_text v in
  Py.nonempty text
  && String.eqb (Py.zfill text 4) (four_digits v)
  && match Py.int text 16 with
     | Ok v' => v' =? v
     | Raise _ => false
     end
  && negb (has_char ":" text)
  && negb (has_char "]" text).

(** Whether a computation returned. *)
Definition succeeded {A : Type} (r : result A) : bool :=
  match r with Ok _ => true | Raise _ => false end.

(** The stored port, if any, is within the port bounds. *)
Definition port_ok (self : object) : Prop :=
  match _port self with
  | None => True
  | Some i => PORT_NUMBER_MIN_VALUE <= int_val i <= PORT_NUMBER_MAX_VALUE
  end.

(** The outcome of [self != other]. *)
Definition ne_outcome (self : object) (other : operand) : result bool :=
  fst (fst (PureAddress_ne self other)).

(** A piece of an address text: not empty and without a colon. *)
Definition plain_piece (g : string) : Prop :=
  has_char ":" g = false /\ Py.nonempty g = true.

(** The segments a zero-skip between [left] and [right] stands for: the
    pieces on the left (one "0000" when there are none), "0000" as many
    times as it takes to reach eight, and the pieces on the right (one
    "0000" when there are none). *)
Definition expanded (left right : list string) : list string :=
  (if Py.nonempty_list left then left else ["0000"])
  ++ repeat "0000" (8 - Nat.max 1 (length left) - Nat.max 1 (length right))
  ++ (if Py.nonempty_list right then right else ["0000"]).

(** The eight hextets of an integer, least significant first. *)
Definition hextets_of_num (num : Z) : list Z := divmod_segments 8 65536 num.

(** The first hextet is zero and it is the only one: the other seven are
    not. *)
Definition lone_first_zero (num : Z) : Prop :=
  exists low, hextets_of_num num = low ++ [0] /\ Forall (fun v => v <> 0) low.

(** The segments [start .. start + len - 1] of [l] are all "0". *)
Definition zero_run (l : list string) (start len : nat) : Prop :=
  forall j, (start <= j < start + len)%nat -> nth_error l j = Some "0".

(** What the scan knows after the segments [l]: the current run is the
    longest run that ends at the end of [l]; the recorded run lies inside
    [l], no run of [l] is longer, and no run as long starts before it. *)
Definition scan_inv (l : list string) (st : zero_scan) : Prop :=
  (0 < current st -> current_idx st + current st = length l)%nat /\
  zero_run l (current_idx st) (current st) /\
  (forall j, j <= length l -> zero_run l j (length l - j) ->
             length l - j <= current st)%nat /\
  (longest_idx st + longest st <= length l)%nat /\
  zero_run l (longest_idx st) (longest st) /\
  (forall j k, j + k <= length l -> zero_run l j k ->
               k <= longest st /\ (k = longest st -> 0 < k -> longest_idx st <= j))%nat.

(** The segments on one side of the removed run, as the renderer keeps them:
    one empty text when the side has no segment. *)
Definition or_blank (side : list string) : list string :=
  if Py.nonempty_list side then side else [""].

(** An integer whose decimal numeral has at most 4300 digits, the default
    value of the interpreter's limit on decimal literals: [int()] reads the
    numeral of such an integer, and raises on longer ones. *)
Definition within_digit_limit (z : Z) : Prop := Z.abs z < 10 ^ 4300.

(** The scan over the hextets of an integer, as [_num_to_ipv6] runs it. *)
Definition zero_scan_of (num : Z) : zero_scan :=
  zero_scan_loop (mkScan 0 0 0 0) 0 (map hextet_text (hextets_of_num num)).

(** * Properties *)

(** ** The builtins and the codec on sample inputs *)

Example split_examples :
  Py.split ":::" "::" = [""; ":"] /\
  Py.split "::::" "::" = [""; ""; ""] /\
  Py.split "a::::b" "::" = ["a"; ""; "b"] /\
  Py.split "" ":" = [""] /\
  Py.split "X::1]:5]:::::" "::" = ["X"; "1]:5]"; ""; ":"] /\
  Py.split "X::1]:5]:::::" "]:" = ["X::1"; "5"; "::::"].
Proof. repeat split. Qed.

Example int_examples :
  Py.int "0x_1" 16 = Ok 1 /\ Py.int "0X1f" 16 = Ok 31 /\ Py.int "_1" 16 = Raise ValueError /\
  Py.int "1_" 10 = Raise ValueError /\ Py.int "1__2" 10 = Raise ValueError /\
  Py.int "1_2" 16 = Ok 18 /\ Py.int "+1" 10 = Ok 1 /\ Py.int "-1" 16 = Ok (-1) /\
  Py.int "- 1" 10 = Raise ValueError /\ Py.int " 0x1 " 16 = Ok 1 /\
  Py.int " 0x1 " 10 = Raise ValueError /\ Py.int "0x" 16 = Raise ValueError /\
  Py.int "" 10 = Raise ValueError /\ Py.int " " 16 = Raise ValueError /\
  Py.int "+" 10 = Raise ValueError /\ Py.int "0x 1" 16 = Raise ValueError /\
  Py.int "0b1" 16 = Ok 177 /\ Py.int "00" 10 = Ok 0 /\ Py.int "-0" 10 = Ok 0 /\
  Py.int "0_x1" 16 = Raise ValueError /\ Py.int "-0x1" 16 = Ok (-1).
Proof. repeat split. Qed.

Example text_examples :
  Py.hex 0 = "0x0" /\ Py.hex 255 = "0xff" /\ Py.hex (-255) = "-0xff" /\
  Py.upper (nth 1 (Py.split (Py.hex 65535) "x") "") = "FFFF" /\
  Py.zfill "-1" 4 = "-001" /\ Py.zfill "+a" 4 = "+00a" /\ Py.zfill "" 4 = "0000" /\
  Py.zfill "abcde" 4 = "abcde" /\ Py.zfill "a" 4 = "000a" /\
  Py.str_int (-5) = "-5" /\ Py.str_int 0 = "0".
Proof. repeat split. Qed.

Example codec_examples :
  _num_to_ipv4 2130706433 = "127.0.0.1" /\
  _ipv4_to_num "127.0.0.1" = Ok 2130706433 /\
  _num_to_ipv6 1 true false = "0:0:0:0:0:0:0:1" /\
  _num_to_ipv6 1 false false = "0000:0000:0000:0000:0000:0000:0000:0001" /\
  _num_to_ipv6 1 true true = "::1" /\
  _ipv6_to_num "::1" = Ok 1 /\
  _ipv6_to_num "2001:db8::ff00:42:8329" = Ok 42540766411282592856904265327123268393 /\
  _num_to_ipv6 42540766411282592856904265327123268393 true true = "2001:DB8::FF00:42:8329".
Proof. repeat split. Qed.

Example object_examples :
  IPv4_init (Some "192.168.0.1:8080") VNone = Ok (mkFamily "192.168.0.1" 3232235521 (Some (PInt 8080))) /\
  IPv4_str (mkFamily "192.168.0.1" 3232235521 (Some (PInt 8080))) = "192.168.0.1:8080" /\
  IPv6_init (Some "[::1]:443") VNone = Ok (mkFamily "::1" 1 (Some (PInt 443))) /\
  IPv6_str (mkFamily "::1" 1 (Some (PInt 443))) = "[::1]:443" /\
  IPAddress_new CIPAddress (AStr "10.0.0.1") VNone = Ok (V4 (mkFamily "10.0.0.1" 167772161 None)) /\
  IPAddress_new CIPAddress (AStr "::1") VNone = Ok (V6 (mkFamily "::1" 1 None)) /\
  IPAddress_new CIPAddress (AInt (2 ^ 32)) VNone = Ok (Generic (2 ^ 32) None None None) /\
  fst (object_str (Generic (2 ^ 32) None None None)) = Ok "0:0:0:0:0:1:0:0".
Proof. repeat split. Qed.

(** ** Ports *)

Lemma port_in_range_iff (n : Z) :
  port_in_range n = true <-> PORT_NUMBER_MIN_VALUE <= n <= PORT_NUMBER_MAX_VALUE.
Proof. unfold port_in_range. rewrite andb_true_iff, !Z.leb_le. tauto. Qed.

Lemma checked_port_spec (port_num : pyval) :
  checked_port port_num = Ok (valid_port_or_none port_num).
Proof.
  destruct port_num as [|i|s|t]; reflexivity.
Qed.

Lemma port_set_port (self : object) (p : option pyint) : _port (set_port self p) = p.
Proof. now destruct self. Qed.

(** C9. The port setter rejects 65536 and -1 with a [ValueError] and any
    value that is neither [None] nor an integer with a [TypeError];
    assigning [None] clears the port, which then reads as [None]; whenever
    the setter raises, the object is left as it was. *)
Theorem C9_port_setter (self : object) :
  port_setter self (VNum (PInt 65536)) = (Raise ValueError, self) /\
  port_setter self (VNum (PInt (-1))) = (Raise ValueError, self) /\
  (forall value, value <> VNone -> Py.isinstance_int value = false ->
                 port_setter self value = (Raise TypeError, self)) /\
  (fst (port_setter self VNone) = Ok tt /\
   port (snd (port_setter self VNone)) = None) /\
  (forall value e self', port_setter self value = (Raise e, self') ->
                         self' = self /\ _port self' = _port self).
Proof.
  assert (Hkeep : forall value e self',
             port_setter self value = (Raise e, self') -> self' = self).
  { intros [|i|s|t] e self' H; simpl in H; try congruence.
    destruct (port_in_range (int_val i)); simpl in H; congruence. }
  split; [reflexivity|]. split; [reflexivity|]. split; [|split; [split|]].
  - intros [|i|s|t] Hnone Hint; try reflexivity; [congruence | discriminate].
  - reflexivity.
  - simpl. unfold port. now rewrite port_set_port.
  - intros value e self' H. apply Hkeep in H. now subst.
Qed.

Lemma C9_port_setter_witness :
  port_setter (Generic 1 (Some (PInt 80)) None None) (VStr "80")
    = (Raise TypeError, Generic 1 (Some (PInt 80)) None None) /\
  _port (Generic 1 (Some (PInt 80)) None None) = Some (PInt 80).
Proof.
  pose proof (C9_port_setter (Generic 1 (Some (PInt 80)) None None)) as (_ & _ & Hty & _ & Hkeep).
  split.
  - apply Hty; [discriminate | reflexivity].
  - apply (Hkeep (VNum (PInt 70000)) ValueError). reflexivity.
Defined.

(** C10. Built from an integer and an invalid port argument, a generic
    address is constructed without an error and reads its port as [None];
    the port setter raises on the same argument. *)
Theorem C10_init_drops_invalid_port (n : Z) (port_num : pyval) :
  invalid_port port_num ->
  _port_validator port_num = Ok false /\
  exists self,
    IPAddress_new CIPAddress (AInt n) port_num = Ok self /\
    _num self = n /\ _port self = None /\ port self = None /\
    exists e, port_setter self port_num = (Raise e, self).
Proof.
  intros Hbad.
  assert (Hv : valid_port_or_none port_num = None).
  { destruct port_num as [|i|s|t]; simpl in *; try reflexivity.
    destruct (port_in_range (int_val i)) eqn:E; [|reflexivity].
    apply port_in_range_iff in E. contradiction. }
  assert (Hr : forall i, port_num = VNum i -> port_in_range (int_val i) = false).
  { intros i ->. simpl in Hv. now destruct (port_in_range (int_val i)). }
  split.
  - destruct port_num as [|i|s|t]; simpl in *; try reflexivity; [contradiction|].
    fold (port_in_range (int_val i)). now rewrite (Hr i eq_refl).
  - exists (Generic n None None None).
    unfold IPAddress_new, IPAddress_init, IPAddress_init_slots.
    rewrite checked_port_spec, Hv. simpl.
    do 4 (split; [reflexivity|]).
    destruct port_num as [|i|s|t]; simpl in *.
    + contradiction.
    + rewrite (Hr i eq_refl). simpl. now exists ValueError.
    + now exists TypeError.
    + now exists TypeError.
Qed.

Lemma C10_init_drops_invalid_port_witness :
  _port_validator (VNum (PInt 70000)) = Ok false /\
  exists self,
    IPAddress_new CIPAddress (AInt 2130706433) (VNum (PInt 70000)) = Ok self /\
    _num self = 2130706433 /\ _port self = None /\ port self = None /\
    exists e, port_setter self (VNum (PInt 70000)) = (Raise e, self).
Proof.
  apply (C10_init_drops_invalid_port 2130706433 (VNum (PInt 70000))).
  simpl. unfold PORT_NUMBER_MIN_VALUE, PORT_NUMBER_MAX_VALUE. lia.
Defined.

(** ** Constructors of the family classes *)

Lemma IPAddress_init_slots_spec (address : option Z) (port_num : pyval) :
  IPAddress_init_slots address port_num
  = Ok (match address with Some n => n | None => 0 end, valid_port_or_none port_num).
Proof. unfold IPAddress_init_slots. now rewrite checked_port_spec. Qed.

Ltac step_bind H :=
  match type of H with
  | bind ?m _ = _ =>
      let E := fresh "E" in
      destruct m eqn:E; cbn [bind] in H; [|discriminate H]
  end.

Lemma IPv4_init_explicit (text : string) (port_num : pyval) (f : family_instance) :
  port_num <> VNone ->
  IPv4_init (Some text) port_num = Ok f ->
  fam_port f = valid_port_or_none port_num.
Proof.
  intros Hnn H. unfold IPv4_init in H.
  destruct (Py.split text ":") as [|a [|p0 p]]; [discriminate| |];
    destruct port_num as [|i|s|t]; try congruence;
    cbn [bind Py.nonempty_list] in H; step_bind H;
    rewrite IPAddress_init_slots_spec in H; cbn [bind] in H;
    injection H as <-; reflexivity.
Qed.

Lemma IPv6_init_explicit (text : string) (port_num : pyval) (f : family_instance) :
  port_num <> VNone ->
  IPv6_init (Some text) port_num = Ok f ->
  fam_port f = valid_port_or_none port_num.
Proof.
  intros Hnn H. unfold IPv6_init in H.
  destruct (Py.split text "]:") as [|a [|p0 p]]; [discriminate| |];
    destruct port_num as [|i|s|t]; try congruence;
    cbn [bind Py.nonempty_list] in H; step_bind H;
    rewrite IPAddress_init_slots_spec in H; cbn [bind] in H;
    injection H as <-; reflexivity.
Qed.

Lemma IPv4_init_embedded (text : string) (f : family_instance) :
  IPv4_init (Some text) VNone = Ok f ->
  match embedded_port ":" text with
  | Some tok =>
      exists n, Py.int tok 10 = Ok n /\ fam_port f = valid_port_or_none (VNum (PInt n))
  | None => fam_port f = None
  end.
Proof.
  intros H. unfold IPv4_init in H. unfold embedded_port.
  destruct (Py.split text ":") as [|a [|p0 p]]; [discriminate| |];
    cbn [bind Py.nonempty_list] in H.
  - step_bind H. rewrite IPAddress_init_slots_spec in H. cbn [bind] in H.
    injection H as <-. reflexivity.
  - destruct (Py.int p0 10) as [n|e] eqn:En; cbn [bind] in H; [|discriminate].
    step_bind H. rewrite IPAddress_init_slots_spec in H. cbn [bind] in H.
    injection H as <-. exists n. split; reflexivity.
Qed.

Lemma IPv6_init_embedded (text : string) (f : family_instance) :
  IPv6_init (Some text) VNone = Ok f ->
  match embedded_port "]:" text with
  | Some tok =>
      exists n, Py.int tok 10 = Ok n /\ fam_port f = valid_port_or_none (VNum (PInt n))
  | None => fam_port f = None
  end.
Proof.
  intros H. unfold IPv6_init in H. unfold embedded_port.
  destruct (Py.split text "]:") as [|a [|p0 p]]; [discriminate| |];
    cbn [bind Py.nonempty_list] in H.
  - step_bind H. rewrite IPAddress_init_slots_spec in H. cbn [bind] in H.
    injection H as <-. reflexivity.
  - destruct (Py.int p0 10) as [n|e] eqn:En; cbn [bind] in H; [|discriminate].
    step_bind H. rewrite IPAddress_init_slots_spec in H. cbn [bind] in H.
    injection H as <-. exists n. split; reflexivity.
Qed.

(** C2, as stated, fails: with the port 80 in the text and the explicit
    port 8080, both family constructors keep 8080. *)
Lemma C2_embedded_port_does_not_win :
  embedded_port ":" "1.2.3.4:80" = Some "80" /\
  IPv4_init (Some "1.2.3.4:80") (VNum (PInt 8080))
    = Ok (mkFamily "1.2.3.4" 16909060 (Some (PInt 8080))) /\
  port (V4 (mkFamily "1.2.3.4" 16909060 (Some (PInt 8080)))) <> Some (PInt 80) /\
  embedded_port "]:" "[::1]:80" = Some "80" /\
  IPv6_init (Some "[::1]:80") (VNum (PInt 8080))
    = Ok (mkFamily "::1" 1 (Some (PInt 8080))) /\
  port (V6 (mkFamily "::1" 1 (Some (PInt 8080)))) <> Some (PInt 80).
Proof. repeat split; discriminate. Qed.

(** C2 (amended). When a family-specific address is built from a text and
    an explicit port argument other than [None], the stored port is the
    explicit argument, or [None] if that argument is not a valid port,
    whatever port the text carries; a port in the text is read only when the
    explicit argument is [None], and without either the port is [None]. *)
Theorem C2_explicit_port_precedence :
  (forall text port_num f,
      port_num <> VNone ->
      IPv4_init (Some text) port_num = Ok f \/ IPv6_init (Some text) port_num = Ok f ->
      fam_port f = valid_port_or_none port_num) /\
  (forall text f,
      IPv4_init (Some text) VNone = Ok f ->
      match embedded_port ":" text with
      | Some tok =>
          exists n, Py.int tok 10 = Ok n /\ fam_port f = valid_port_or_none (VNum (PInt n))
      | None => fam_port f = None
      end) /\
  (forall text f,
      IPv6_init (Some text) VNone = Ok f ->
      match embedded_port "]:" text with
      | Some tok =>
          exists n, Py.int tok 10 = Ok n /\ fam_port f = valid_port_or_none (VNum (PInt n))
      | None => fam_port f = None
      end).
Proof.
  split; [|split].
  - intros text port_num f Hnn [H|H];
      [eapply IPv4_init_explicit | eapply IPv6_init_explicit]; eassumption.
  - apply IPv4_init_embedded.
  - apply IPv6_init_embedded.
Qed.

Lemma C2_explicit_port_precedence_witness :
  fam_port (mkFamily "1.2.3.4" 16909060 (Some (PInt 8080)))
    = valid_port_or_none (VNum (PInt 8080)) /\
  (exists n, Py.int "80" 10 = Ok n /\
             fam_port (mkFamily "1.2.3.4" 16909060 (Some (PInt 80)))
             = valid_port_or_none (VNum (PInt n))) /\
  (exists n, Py.int "443" 10 = Ok n /\
             fam_port (mkFamily "::1" 1 (Some (PInt 443)))
             = valid_port_or_none (VNum (PInt n))).
Proof.
  destruct C2_explicit_port_precedence as (Hexp & H4 & H6).
  split; [|split].
  - apply (Hexp "1.2.3.4:80" (VNum (PInt 8080))); [discriminate | left; reflexivity].
  - apply (H4 "1.2.3.4:80"). reflexivity.
  - apply (H6 "[::1]:443"). reflexivity.
Defined.

(** ** Equality *)

(** [__str__] writes to the cache slots only. *)
Lemma object_str_keeps_slots (self : object) :
  _num (snd (object_str self)) = _num self /\ _port (snd (object_str self)) = _port self.
Proof.
  destruct self as [n p c4 c6|f|f]; simpl; auto.
  unfold IPAddress_str.
  destruct (_ && _).
  - destruct c4; simpl; auto. destruct (as_ipv4 _); simpl; auto.
  - destruct (_ && _).
    + destruct c6; simpl; auto. destruct (as_ipv6 _); simpl; auto.
    + simpl; auto.
Qed.

Lemma object_str_keeps_num (self : object) : num (snd (object_str self)) = num self.
Proof. unfold num. now rewrite (proj1 (object_str_keeps_slots self)). Qed.

Lemma object_str_keeps_port (self : object) : port (snd (object_str self)) = port self.
Proof. unfold port. now rewrite (proj2 (object_str_keeps_slots self)). Qed.

Lemma eq_outcome_objects (a b : object) (sa sb : string) :
  fst (object_str a) = Ok sa ->
  fst (object_str b) = Ok sb ->
  eq_outcome a (OObj b)
  = Ok (String.eqb sa sb || (num a =? num b) && port_eqb (port a) (port b)).
Proof.
  intros Ha Hb. unfold eq_outcome, PureAddress_eq, operand_str.
  pose proof (object_str_keeps_num a) as Hna. pose proof (object_str_keeps_port a) as Hpa.
  pose proof (object_str_keeps_num b) as Hnb. pose proof (object_str_keeps_port b) as Hpb.
  destruct (object_str a) as [ra a']. destruct (object_str b) as [rb b'].
  simpl in *. subst ra rb.
  destruct (String.eqb sa sb); simpl; [reflexivity|].
  now rewrite Hna, Hpa, Hnb, Hpb.
Qed.

Lemma eq_outcome_value (a : object) (v : pyval) (sa : string) :
  fst (object_str a) = Ok sa ->
  eq_outcome a (OVal v) = Ok (String.eqb sa (Py.str v)).
Proof.
  intros Ha. unfold eq_outcome, PureAddress_eq, operand_str.
  destruct (object_str a) as [ra a']. simpl in *. subst ra.
  now destruct (String.eqb sa (Py.str v)).
Qed.

(** ** Splitting and joining text *)

Lemma split_from_not_nil (sep : string) (s : string) :
  forall skip, Py.split_from sep skip s <> [].
Proof.
  induction s as [|c s IH]; intros skip; cbn [Py.split_from]; [discriminate|].
  destruct skip as [|k]; [|apply IH].
  destruct (prefix sep (String c s)); [discriminate|].
  destruct (Py.split_from sep 0 s); discriminate.
Qed.

Lemma split_not_nil (s sep : string) : Py.split s sep <> [].
Proof. apply split_from_not_nil. Qed.

(** Without an occurrence of the separator the text is the only piece. *)
Lemma split_no_sep (sep s : string) :
  Py.contains sep s = false -> Py.split s sep = [s].
Proof.
  unfold Py.split. induction s as [|c s IH]; intros H; [reflexivity|].
  cbn [Py.contains] in H. apply orb_false_iff in H as [Hp Hc].
  cbn [Py.split_from]. rewrite Hp, (IH Hc). reflexivity.
Qed.

Lemma prefix_char (c d : ascii) (s : string) :
  prefix (String c EmptyString) (String d s) = Ascii.eqb c d.
Proof.
  simpl. destruct (ascii_dec c d) as [->|Hne].
  - rewrite Ascii.eqb_refl. now destruct s.
  - symmetry. now apply Ascii.eqb_neq.
Qed.

Lemma contains_char (c : ascii) (s : string) :
  Py.contains (String c EmptyString) s = has_char c s.
Proof.
  induction s as [|d s IH]; [reflexivity|].
  cbn [Py.contains has_char]. now rewrite prefix_char, IH.
Qed.

(** A piece in front of a one-character separator. *)
Lemma split_char_app (sep : ascii) (g t : string) :
  has_char sep g = false ->
  Py.split (g ++ String sep t) (String sep EmptyString)
  = g :: Py.split t (String sep EmptyString).
Proof.
  unfold Py.split. induction g as [|c g IH]; intros H.
  - cbn [append Py.split_from]. rewrite prefix_char, Ascii.eqb_refl. reflexivity.
  - simpl in H. apply orb_false_iff in H as [Hc Hg].
    change (String c g ++ String sep t)%string with (String c (g ++ String sep t)).
    cbn [Py.split_from]. rewrite prefix_char, Hc, (IH Hg). reflexivity.
Qed.

(** Splitting undoes joining when no piece holds the separator. *)
Lemma split_join_char (sep : ascii) (pieces : list string) :
  pieces <> [] ->
  Forall (fun g => has_char sep g = false) pieces ->
  Py.split (Py.join (String sep EmptyString) pieces) (String sep EmptyString) = pieces.
Proof.
  induction pieces as [|g [|g2 r] IH]; intros Hne Hall; [congruence| |].
  - simpl. apply split_no_sep. rewrite contains_char. now inversion Hall.
  - inversion Hall as [|? ? Hg Hr]; subst.
    change (Py.join (String sep EmptyString) (g :: g2 :: r))
      with (g ++ String sep (Py.join (String sep EmptyString) (g2 :: r)))%string.
    rewrite (split_char_app sep g _ Hg). f_equal. apply IH; [discriminate | exact Hr].
Qed.

(** A character other than the separator sits in one of the pieces. *)
Lemma split_char_piece (sep c : ascii) (s : string) :
  Ascii.eqb c sep = false ->
  has_char c s = true ->
  exists piece, In piece (Py.split s (String sep EmptyString)) /\ has_char c piece = true.
Proof.
  intros Hne. unfold Py.split. induction s as [|d s IH]; intros H; [discriminate|].
  cbn [Py.split_from]. rewrite prefix_char.
  simpl in H.
  destruct (Ascii.eqb sep d) eqn:Ed.
  - apply Ascii.eqb_eq in Ed. subst d. rewrite Hne in H. simpl in H.
    destruct (IH H) as (piece & Hin & Hc). exists piece. split; [now right | exact Hc].
  - destruct (Py.split_from (String sep EmptyString) 0 s) as [|p0 rest] eqn:Es.
    + now apply split_from_not_nil in Es.
    + destruct (Ascii.eqb c d) eqn:Ecd.
      * exists (String d p0). split; [now left|]. simpl. now rewrite Ecd.
      * simpl in H. destruct (IH H) as (piece & [<-|Hin] & Hc).
        -- exists (String d p0). split; [now left|]. simpl. now rewrite Hc, orb_true_r.
        -- exists piece. split; [now right | exact Hc].
Qed.

(** ** Reading integers *)

(** [int()] raises nothing but [ValueError]. *)
Lemma int_raise (s : string) (base : Z) (e : exn) :
  Py.int s base = Raise e -> e = ValueError.
Proof.
  unfold Py.int. destruct (Py.split_sign (Py.lstrip s)) as [sign s2].
  destruct (Py.skip_radix_prefix base s2) as [|c r]; [congruence|].
  destruct (Py.digit_value c <? base); [|congruence].
  destruct (Py.scan_digits base false 0 (String c r)) as [[v rest]|]; [|congruence].
  destruct (Py.all_space rest); congruence.
Qed.

Lemma map_result_raise {A B : Type} (f : A -> result B) (l : list A) (e : exn) :
  (forall x e, f x = Raise e -> e = ValueError) ->
  map_result f l = Raise e -> e = ValueError.
Proof.
  intros Hf. induction l as [|x r IH]; simpl; [discriminate|].
  destruct (f x) as [y|e'] eqn:Ex; simpl.
  - destruct (map_result f r) as [ys|e'']; simpl; [discriminate|].
    intros H. injection H as <-. now apply IH.
  - intros H. injection H as <-. now apply (Hf x).
Qed.

Lemma parse_hextet_raise (segment : string) (e : exn) :
  parse_hextet segment = Raise e -> e = ValueError.
Proof.
  unfold parse_hextet. destruct (Py.nonempty segment); [apply int_raise | discriminate].
Qed.

Section Foreign.

Variable c : ascii.
Hypothesis Hforeign : foreign c = true.

Lemma foreign_not_space : Py.is_space c = false.
Proof.
  unfold foreign in Hforeign. rewrite !andb_true_iff, !negb_true_iff in Hforeign. tauto.
Qed.

Lemma foreign_not_sign (d : ascii) : d = "+"%char \/ d = "-"%char \/ d = "_"%char -> Ascii.eqb c d = false.
Proof.
  unfold foreign in Hforeign. rewrite !andb_true_iff, !negb_true_iff in Hforeign.
  intros [->|[->| ->]]; tauto.
Qed.

Lemma foreign_not_digit (d : ascii) : Py.digit_value d <= 36 -> Ascii.eqb c d = false.
Proof.
  intros Hd. apply Ascii.eqb_neq. intros <-.
  unfold foreign in Hforeign. rewrite !andb_true_iff, Z.ltb_lt in Hforeign. lia.
Qed.

Lemma lstrip_keeps (s : string) : has_char c s = true -> has_char c (Py.lstrip s) = true.
Proof.
  induction s as [|d s IH]; intros H; [discriminate|].
  cbn [Py.lstrip]. destruct (Py.is_space d) eqn:Ed; [|exact H].
  apply IH. simpl in H. apply orb_true_iff in H as [H|H]; [|exact H].
  apply Ascii.eqb_eq in H. subst d. pose proof foreign_not_space. congruence.
Qed.

Lemma split_sign_keeps (s : string) :
  has_char c s = true -> has_char c (snd (Py.split_sign s)) = true.
Proof.
  destruct s as [|d s]; intros H; [discriminate|].
  unfold Py.split_sign.
  destruct (Ascii.eqb d "+") eqn:E1; [|destruct (Ascii.eqb d "-") eqn:E2]; simpl;
    try exact H.
  - apply Ascii.eqb_eq in E1. subst d. simpl in H. now rewrite foreign_not_sign in H by auto.
  - apply Ascii.eqb_eq in E2. subst d. simpl in H. now rewrite foreign_not_sign in H by auto.
Qed.

Lemma skip_radix_prefix_keeps (base : Z) (s : string) :
  has_char c s = true -> has_char c (Py.skip_radix_prefix base s) = true.
Proof.
  destruct s as [|c0 [|c1 r]]; intros H; try exact H.
  unfold Py.skip_radix_prefix.
  destruct ((base =? 16) && Ascii.eqb c0 "0" && (Ascii.eqb c1 "x" || Ascii.eqb c1 "X"))
    eqn:E; [|exact H].
  rewrite !andb_true_iff, orb_true_iff, !Ascii.eqb_eq in E.
  destruct E as [[_ ->] Hx].
  assert (Hr : has_char c r = true).
  { simpl in H. rewrite (foreign_not_digit "0") in H by (vm_compute; discriminate).
    destruct Hx as [-> | ->];
      rewrite foreign_not_digit in H by (vm_compute; discriminate); exact H. }
  destruct r as [|c2 r']; [exact Hr|].
  destruct (Ascii.eqb c2 "_") eqn:E2; [|exact Hr].
  apply Ascii.eqb_eq in E2. subst c2. simpl in Hr. now rewrite foreign_not_sign in Hr by auto.
Qed.

Lemma scan_digits_keeps (base : Z) (s : string) :
  base <= 36 ->
  forall prev acc,
    has_char c s = true ->
    match Py.scan_digits base prev acc s with
    | Some (_, rest) => has_char c rest = true
    | None => True
    end.
Proof.
  intros Hb. induction s as [|d s IH]; intros prev acc H; [discriminate|].
  cbn [Py.scan_digits].
  destruct (Ascii.eqb d "_") eqn:Eu.
  - destruct prev; [exact I|]. apply IH.
    apply Ascii.eqb_eq in Eu. subst d. simpl in H. now rewrite foreign_not_sign in H by auto.
  - destruct (Py.digit_value d <? base) eqn:Ed.
    + apply IH. apply Z.ltb_lt in Ed. simpl in H.
      now rewrite foreign_not_digit in H by lia.
    + destruct prev; [exact I | exact H].
Qed.

Lemma all_space_foreign (s : string) : has_char c s = true -> Py.all_space s = false.
Proof.
  induction s as [|d s IH]; intros H; [discriminate|].
  simpl in *. apply orb_true_iff in H as [H|H].
  - apply Ascii.eqb_eq in H. subst d. now rewrite foreign_not_space.
  - rewrite (IH H). apply andb_false_r.
Qed.

(** A text that holds a foreign character is no integer literal. *)
Lemma int_foreign (s : string) (base : Z) :
  base <= 36 -> has_char c s = true -> Py.int s base = Raise ValueError.
Proof.
  intros Hb H. unfold Py.int.
  apply lstrip_keeps, split_sign_keeps in H.
  destruct (Py.split_sign (Py.lstrip s)) as [sign s2]. cbn [snd] in H.
  apply (skip_radix_prefix_keeps base) in H.
  destruct (Py.skip_radix_prefix base s2) as [|d r]; [reflexivity|].
  destruct (Py.digit_value d <? base); [|reflexivity].
  pose proof (scan_digits_keeps base (String d r) Hb false 0 H) as Hs.
  destruct (Py.scan_digits base false 0 (String d r)) as [[v rest]|]; [|reflexivity].
  now rewrite (all_space_foreign rest Hs).
Qed.

End Foreign.

(** ** Validators *)

Lemma validate_port_part_total (port : list string) (strict : bool) (rest : result bool) :
  (exists b, rest = Ok b) -> exists b, validate_port_part port strict rest = Ok b.
Proof.
  intros Hrest. destruct port as [|p0 port]; [exact Hrest|].
  unfold validate_port_part, try_ValueError.
  destruct (Py.int p0 10) as [n|e] eqn:E.
  - destruct (strict && negb (port_in_range n)); [now exists false | exact Hrest].
  - apply int_raise in E. subst e. now exists false.
Qed.

Lemma validate_port_part_false (port : list string) (strict : bool) :
  validate_port_part port strict (Ok false) = Ok false.
Proof.
  destruct port as [|p0 port]; [reflexivity|].
  unfold validate_port_part, try_ValueError.
  destruct (Py.int p0 10) as [n|e] eqn:E.
  - now destruct (strict && negb (port_in_range n)).
  - apply int_raise in E. now subst e.
Qed.

Lemma validate_port_part_true (port : list string) (strict : bool) (rest : result bool) :
  validate_port_part port strict rest = Ok true -> rest = Ok true.
Proof.
  destruct port as [|p0 port]; [trivial|].
  unfold validate_port_part, try_ValueError.
  destruct (Py.int p0 10) as [n|[]]; try discriminate.
  now destruct (strict && negb (port_in_range n)).
Qed.

Lemma port_validator_total (value : pyval) : exists b, _port_validator value = Ok b.
Proof. destruct value as [|i|s|t]; simpl; eauto. Qed.

Lemma ipv4_validator_total (value : pyval) (strict : bool) :
  exists b, _ipv4_validator value strict = Ok b.
Proof.
  destruct value as [|i|s|t]; simpl; eauto.
  destruct (negb (Py.contains "." s)); eauto.
  destruct (Py.split s ":") as [|address port] eqn:Es; [now apply split_not_nil in Es|].
  apply validate_port_part_total. unfold try_ValueError.
  destruct (map_result _ _) as [segments|e] eqn:E.
  - destruct (negb _); eauto. destruct (strict && _); eauto.
  - apply map_result_raise in E; [subst e; eauto|]. intros x e'. apply int_raise.
Qed.

Lemma ipv6_validator_total (value : pyval) (strict : bool) :
  exists b, _ipv6_validator value strict = Ok b.
Proof.
  destruct value as [|i|s|t]; simpl; eauto.
  destruct (Py.split s "]:") as [|address port] eqn:Es; [now apply split_not_nil in Es|].
  apply validate_port_part_total.
  destruct (zero_skip_segments _) as [segments|]; eauto.
  unfold try_ValueError.
  destruct (map_result _ _) as [hextets|e] eqn:E.
  - destruct (negb _); eauto. destruct (strict && _); eauto.
  - apply map_result_raise in E; [subst e; eauto|]. apply parse_hextet_raise.
Qed.

Lemma ip_validator_total (value : pyval) (strict : bool) :
  exists b, _ip_validator value strict = Ok b.
Proof.
  unfold _ip_validator.
  destruct (ipv4_validator_total value strict) as [[] ->]; simpl; eauto.
  apply ipv6_validator_total.
Qed.

Lemma ipv4_validator_unparsable (s : string) (strict : bool) :
  unparsable_ipv4 s -> _ipv4_validator (VStr s) strict = Ok false.
Proof.
  intros H. cbn [_ipv4_validator].
  destruct (negb (Py.contains "." s)) eqn:Ec; [reflexivity|].
  destruct H as [H|address p0 rest Hs Hp|address port Hs Hm|address port segments Hs Hm Hl].
  - now rewrite H in Ec.
  - rewrite Hs. cbn [validate_port_part]. now rewrite Hp.
  - rewrite Hs, Hm. cbn [try_ValueError]. apply validate_port_part_false.
  - rewrite Hs, Hm. cbn [try_ValueError].
    replace (Z.of_nat (length segments) =? IPV4_MAX_SEGMENT_COUNT) with false.
    + apply validate_port_part_false.
    + symmetry. apply Z.eqb_neq. unfold IPV4_MAX_SEGMENT_COUNT. lia.
Qed.

Lemma ipv6_validator_unparsable (s : string) (strict : bool) :
  unparsable_ipv6 s -> _ipv6_validator (VStr s) strict = Ok false.
Proof.
  intros H. cbn [_ipv6_validator].
  destruct H as [address p0 rest Hs Hp|H|segments H Hm|segments hextets H Hm Hl];
    unfold ipv6_address_part in *;
    destruct (Py.split s "]:") as [|address0 port] eqn:Es;
    try (now apply split_not_nil in Es).
  - injection Hs as -> ->. cbn [validate_port_part]. now rewrite Hp.
  - rewrite H. apply validate_port_part_false.
  - rewrite H, Hm. apply validate_port_part_false.
  - rewrite H, Hm. cbn [try_ValueError].
    replace (Z.of_nat (length hextets) =? IPV6_MAX_SEGMENT_COUNT) with false.
    + apply validate_port_part_false.
    + symmetry. apply Z.eqb_neq. unfold IPV6_MAX_SEGMENT_COUNT. lia.
Qed.

(** C6. Each of the four validators returns a boolean on every value, in
    strict and in lenient mode, and never raises; a value of a wrong type
    gives [False], and so does a text that cannot be read as an address. *)
Theorem C6_validators_total (value : pyval) (strict : bool) :
  (exists b, _port_validator value = Ok b) /\
  (exists b, _ipv4_validator value strict = Ok b) /\
  (exists b, _ipv6_validator value strict = Ok b) /\
  (exists b, _ip_validator value strict = Ok b) /\
  (not_a_port_type value -> _port_validator value = Ok false) /\
  (not_an_address_type value ->
   _ipv4_validator value strict = Ok false /\
   _ipv6_validator value strict = Ok false /\
   _ip_validator value strict = Ok false) /\
  (forall s, value = VStr s -> unparsable_ipv4 s ->
             _ipv4_validator value strict = Ok false) /\
  (forall s, value = VStr s -> unparsable_ipv6 s ->
             _ipv6_validator value strict = Ok false).
Proof.
  split; [apply port_validator_total|].
  split; [apply ipv4_validator_total|].
  split; [apply ipv6_validator_total|].
  split; [apply ip_validator_total|].
  split; [|split; [|split]].
  - destruct value; simpl; intros H; now try contradiction.
  - destruct value; simpl; intros H; try contradiction; repeat split.
  - intros s -> H. now apply ipv4_validator_unparsable.
  - intros s -> H. now apply ipv6_validator_unparsable.
Qed.

Lemma C6_validators_total_witness :
  _port_validator (VStr "80") = Ok false /\
  (_ipv4_validator (VOther "1.5") true = Ok false /\
   _ipv6_validator (VOther "1.5") true = Ok false /\
   _ip_validator (VOther "1.5") true = Ok false) /\
  _ipv4_validator (VStr "1.2.x.4") false = Ok false /\
  _ipv6_validator (VStr "1::2::3") false = Ok false.
Proof.
  split; [|split; [|split]].
  - destruct (C6_validators_total (VStr "80") true) as (_ & _ & _ & _ & H & _).
    apply H. exact I.
  - destruct (C6_validators_total (VOther "1.5") true) as (_ & _ & _ & _ & _ & H & _).
    apply H. exact I.
  - destruct (C6_validators_total (VStr "1.2.x.4") false) as (_ & _ & _ & _ & _ & _ & H & _).
    apply (H "1.2.x.4" eq_refl).
    apply (ipv4_bad_segment "1.2.x.4" "1.2.x.4" []); reflexivity.
  - destruct (C6_validators_total (VStr "1::2::3") false) as (_ & _ & _ & _ & _ & _ & _ & H).
    apply (H "1::2::3" eq_refl).
    apply ipv6_several_skips. reflexivity.
Defined.

(** ** Strict and lenient IPv4 validation *)

Lemma map_result_length {A B : Type} (f : A -> result B) (l : list A) (ys : list B) :
  map_result f l = Ok ys -> length ys = length l.
Proof.
  revert ys. induction l as [|x r IH]; intros ys; simpl.
  - intros H. injection H as <-. reflexivity.
  - destruct (f x) as [y|e]; simpl; [|discriminate].
    destruct (map_result f r) as [zs|e]; simpl; [|discriminate].
    intros H. injection H as <-. simpl. now rewrite (IH zs).
Qed.

Lemma map_result_In_ok {A B : Type} (f : A -> result B) (l : list A) (ys : list B) (x : A) :
  map_result f l = Ok ys -> In x l -> exists y, f x = Ok y.
Proof.
  revert ys. induction l as [|x0 r IH]; intros ys; simpl; [tauto|].
  destruct (f x0) as [y|e] eqn:E0; simpl; [|discriminate].
  destruct (map_result f r) as [zs|e]; simpl; [|discriminate].
  intros _ [->|Hin]; [eauto | now apply (IH zs)].
Qed.

(** What a [True] of the IPv4 validator on a text says about the text. *)
Lemma ipv4_validator_true (s : string) (strict : bool) :
  _ipv4_validator (VStr s) strict = Ok true ->
  exists address port segments,
    Py.split s ":" = address :: port /\
    map_result (fun seg => Py.int seg 10) (Py.split address ".") = Ok segments /\
    length segments = 4%nat /\
    (strict = true -> forallb ipv4_segment_in_range segments = true).
Proof.
  cbn [_ipv4_validator].
  destruct (negb (Py.contains "." s)); [discriminate|].
  destruct (Py.split s ":") as [|address port]; [discriminate|].
  intros H. apply validate_port_part_true in H. unfold try_ValueError in H.
  destruct (map_result _ _) as [segments|[]] eqn:Em; try discriminate.
  destruct (Z.of_nat (length segments) =? IPV4_MAX_SEGMENT_COUNT) eqn:El; [|discriminate].
  cbn [negb] in H. apply Z.eqb_eq in El. unfold IPV4_MAX_SEGMENT_COUNT in El.
  exists address, port, segments.
  split; [reflexivity|]. split; [exact Em|]. split; [lia|].
  intros ->. cbn [andb] in H.
  now destruct (forallb ipv4_segment_in_range segments).
Qed.

(** Four integer literals between dots hold no colon and at least one dot. *)
Lemma four_integers_shape (s : string) (segments : list Z) :
  map_result (fun seg => Py.int seg 10) (Py.split s ".") = Ok segments ->
  length segments = 4%nat ->
  Py.contains "." s = true /\ Py.split s ":" = [s].
Proof.
  intros Hm Hl. split.
  - destruct (Py.contains "." s) eqn:Ec; [reflexivity|].
    rewrite (split_no_sep "." s Ec) in Hm. apply map_result_length in Hm.
    simpl in Hm. lia.
  - apply split_no_sep. rewrite contains_char.
    destruct (has_char ":" s) eqn:Ec; [|reflexivity].
    destruct (split_char_piece "." ":" s eq_refl Ec) as (piece & Hin & Hp).
    destruct (map_result_In_ok _ _ _ piece Hm Hin) as [y Hy].
    rewrite (int_foreign ":" eq_refl piece 10) in Hy by (lia || exact Hp).
    discriminate.
Qed.

(** C7. "256.1.1.1" is rejected in strict mode and accepted in lenient
    mode. A text accepted in strict mode has, before its port, exactly four
    integer segments, each within 0..255; in lenient mode every text that
    splits on dots into exactly four integers is accepted, whatever their
    size. *)
Theorem C7_strict_versus_lenient_ipv4 :
  _ipv4_validator (VStr "256.1.1.1") true = Ok false /\
  _ipv4_validator (VStr "256.1.1.1") false = Ok true /\
  (forall s,
      _ipv4_validator (VStr s) true = Ok true ->
      exists address port segments,
        Py.split s ":" = address :: port /\
        map_result (fun seg => Py.int seg 10) (Py.split address ".") = Ok segments /\
        length segments = 4%nat /\
        Forall (fun seg => 0 <= seg <= 255) segments) /\
  (forall s segments,
      map_result (fun seg => Py.int seg 10) (Py.split s ".") = Ok segments ->
      length segments = 4%nat ->
      _ipv4_validator (VStr s) false = Ok true).
Proof.
  split; [reflexivity|]. split; [reflexivity|]. split.
  - intros s H.
    destruct (ipv4_validator_true s true H) as (address & port & segments & Hs & Hm & Hl & Hr).
    exists address, port, segments. repeat split; try assumption.
    specialize (Hr eq_refl). rewrite forallb_forall in Hr. apply Forall_forall.
    intros seg Hin. specialize (Hr seg Hin). unfold ipv4_segment_in_range in Hr.
    apply andb_true_iff in Hr as [H1 H2]. apply Z.leb_le in H1, H2.
    unfold IPV4_MIN_SEGMENT_VALUE, IPV4_MAX_SEGMENT_VALUE in *. lia.
  - intros s segments Hm Hl.
    destruct (four_integers_shape s segments Hm Hl) as [Hdot Hcolon].
    cbn [_ipv4_validator]. rewrite Hdot, Hcolon. cbn [negb validate_port_part].
    rewrite Hm. cbn [try_ValueError]. rewrite Hl. reflexivity.
Qed.

Lemma C7_strict_versus_lenient_ipv4_witness :
  (exists address port segments,
      Py.split "192.168.0.1:8080" ":" = address :: port /\
      map_result (fun seg => Py.int seg 10) (Py.split address ".") = Ok segments /\
      length segments = 4%nat /\
      Forall (fun seg => 0 <= seg <= 255) segments) /\
  _ipv4_validator (VStr "999.1000.-7.+65536") false = Ok true.
Proof.
  destruct C7_strict_versus_lenient_ipv4 as (_ & _ & Hstrict & Hlenient).
  split.
  - apply (Hstrict "192.168.0.1:8080"). reflexivity.
  - apply (Hlenient "999.1000.-7.+65536" [999; 1000; -7; 65536]); reflexivity.
Defined.

(** ** The IPv6 codec on malformed text *)

Lemma map_result_app {A B : Type} (f : A -> result B) (l1 l2 : list A) :
  map_result f (l1 ++ l2)
  = (ys1 <- map_result f l1 ;; ys2 <- map_result f l2 ;; Ok (ys1 ++ ys2)).
Proof.
  induction l1 as [|x r IH]; simpl.
  - now destruct (map_result f l2).
  - destruct (f x) as [y|e]; simpl; [|reflexivity]. rewrite IH.
    destruct (map_result f r) as [ys|e]; simpl; [|reflexivity].
    now destruct (map_result f l2).
Qed.

Lemma map_result_rev {A B : Type} (f : A -> result B) (l : list A) (ys : list B) :
  map_result f l = Ok ys -> map_result f (rev l) = Ok (rev ys).
Proof.
  revert ys. induction l as [|x r IH]; intros ys; simpl.
  - intros H. now injection H as <-.
  - destruct (f x) as [y|e] eqn:Ex; simpl; [|discriminate].
    destruct (map_result f r) as [zs|e]; simpl; [|discriminate].
    intros H. injection H as <-. rewrite map_result_app, (IH zs eq_refl). simpl.
    now rewrite Ex.
Qed.

Lemma fold_max_bounds (l : list Z) (m : Z) :
  m <= fold_left (fun m y => if m <? y then y else m) l m /\
  forall x, In x l -> x <= fold_left (fun m y => if m <? y then y else m) l m.
Proof.
  revert m. induction l as [|y r IH]; intros m; simpl; [split; [lia | tauto]|].
  destruct (IH (if m <? y then y else m)) as [H1 H2].
  destruct (Z.ltb_spec m y); split; try lia; intros x [<-|Hin]; auto; lia.
Qed.

Lemma fold_min_bounds (l : list Z) (m : Z) :
  fold_left (fun m y => if y <? m then y else m) l m <= m /\
  forall x, In x l -> fold_left (fun m y => if y <? m then y else m) l m <= x.
Proof.
  revert m. induction l as [|y r IH]; intros m; simpl; [split; [lia | tauto]|].
  destruct (IH (if y <? m then y else m)) as [H1 H2].
  destruct (Z.ltb_spec y m); split; try lia; intros x [<-|Hin]; auto; lia.
Qed.

Lemma max_bound (l : list Z) (x : Z) :
  In x l -> exists m, Py.max l = Ok m /\ x <= m.
Proof.
  destruct l as [|y r]; [contradiction|]. intros Hin. eexists. split; [reflexivity|].
  destruct (fold_max_bounds r y) as [H1 H2]. destruct Hin as [<-|Hin]; auto.
Qed.

Lemma min_bound (l : list Z) (x : Z) :
  In x l -> exists m, Py.min l = Ok m /\ m <= x.
Proof.
  destruct l as [|y r]; [contradiction|]. intros Hin. eexists. split; [reflexivity|].
  destruct (fold_min_bounds r y) as [H1 H2]. destruct Hin as [<-|Hin]; auto.
Qed.

Lemma zero_skip_segments_several (address : string) :
  (2 < length (Py.split address "::"))%nat -> zero_skip_segments address = None.
Proof.
  unfold zero_skip_segments.
  destruct (Py.split address "::") as [|h0 [|h1 [|h2 r]]]; simpl; intros H;
    try lia; reflexivity.
Qed.

Lemma hextets_some (address : string) (hs : list Z) :
  hextets address = Some hs ->
  exists segments,
    zero_skip_segments address = Some segments /\
    map_result parse_hextet segments = Ok hs.
Proof.
  unfold hextets. destruct (zero_skip_segments address) as [segments|]; [|discriminate].
  destruct (map_result parse_hextet segments) as [hs'|e] eqn:E; [|discriminate].
  intros H. injection H as <-. eauto.
Qed.

(** The codec, once the hextets are read. *)
Lemma ipv6_to_num_hextets (address : string) (hs : list Z) :
  hextets address = Some hs ->
  _ipv6_to_num address =
  if 8 <? Z.of_nat (length hs) then Raise ValueError
  else
    highest <- Py.max (rev hs) ;;
    if 65535 <? highest then Raise ValueError
    else
      lowest <- Py.min (rev hs) ;;
      if lowest <? 0 then Raise ValueError
      else Ok (weighted_total 16 0 (rev hs) 0).
Proof.
  intros H. apply hextets_some in H as (segments & Hz & Hm).
  unfold _ipv6_to_num. rewrite Hz, (map_result_rev _ _ _ Hm). cbn [try_ValueError].
  now rewrite length_rev.
Qed.

(** The validator on a text without the port delimiter. *)
Lemma ipv6_validator_plain (address : string) (strict : bool) :
  Py.contains "]:" address = false ->
  _ipv6_validator (VStr address) strict =
  match zero_skip_segments address with
  | None => Ok false
  | Some segments =>
      try_ValueError (map_result parse_hextet segments)
        (Ok false)
        (fun hs =>
           if negb (Z.of_nat (length hs) =? 8) then Ok false
           else if strict && negb (forallb ipv6_segment_in_range hs) then Ok false
           else Ok true)
  end.
Proof.
  intros H. cbn [_ipv6_validator]. now rewrite (split_no_sep "]:" address H).
Qed.

Lemma ipv6_out_of_range (hs : list Z) (h : Z) :
  In h hs -> 65535 < h \/ h < 0 -> forallb ipv6_segment_in_range hs = false.
Proof.
  intros Hin Hh. destruct (forallb ipv6_segment_in_range hs) eqn:E; [|reflexivity].
  rewrite forallb_forall in E. specialize (E h Hin).
  unfold ipv6_segment_in_range, IPV6_MIN_SEGMENT_VALUE, IPV6_MAX_SEGMENT_VALUE in E.
  apply andb_true_iff in E as [E1 E2]. apply Z.leb_le in E1, E2. lia.
Qed.

Lemma map_result_In_value {A B : Type} (f : A -> result B) (l : list A) (ys : list B)
    (x : A) (y : B) :
  map_result f l = Ok ys -> In x l -> f x = Ok y -> In y ys.
Proof.
  revert ys. induction l as [|x0 r IH]; intros ys; simpl; [tauto|].
  destruct (f x0) as [y0|e] eqn:E0; simpl; [|discriminate].
  destruct (map_result f r) as [zs|e]; simpl; [|discriminate].
  intros H [->|Hin] Hy; injection H as <-.
  - left. congruence.
  - right. now apply (IH zs).
Qed.

Lemma hextets_of_segments (address : string) (segments : list string) (hs : list Z) :
  zero_skip_segments address = Some segments ->
  map_result parse_hextet segments = Ok hs ->
  hextets address = Some hs.
Proof. intros Hz Hm. unfold hextets. now rewrite Hz, Hm. Qed.

(** A hextet out of range makes the codec raise. *)
Lemma ipv6_to_num_out_of_range (address : string) (hs : list Z) (h : Z) :
  hextets address = Some hs -> In h hs -> 65535 < h \/ h < 0 ->
  _ipv6_to_num address = Raise ValueError.
Proof.
  intros H Hin Hh. rewrite (ipv6_to_num_hextets address hs H).
  destruct (8 <? Z.of_nat (length hs)); [reflexivity|].
  assert (Hin' : In h (rev hs)) by now apply in_rev in Hin.
  destruct (max_bound (rev hs) h Hin') as (m & -> & Hm). cbn [bind].
  destruct (Z.ltb_spec 65535 m); [reflexivity|].
  destruct (min_bound (rev hs) h Hin') as (m' & -> & Hm'). cbn [bind].
  destruct (Z.ltb_spec m' 0); [reflexivity | lia].
Qed.

(** A hextet that does not parse makes the codec raise [ValueError],
    wherever it stands in the text. *)
Lemma ipv6_to_num_unparsed (address : string) (segments : list string) (e : exn) :
  zero_skip_segments address = Some segments ->
  map_result parse_hextet segments = Raise e ->
  _ipv6_to_num address = Raise ValueError.
Proof.
  intros Hz Hm. unfold _ipv6_to_num. rewrite Hz.
  destruct (map_result parse_hextet (rev segments)) as [ps|e'] eqn:Er.
  - apply map_result_rev in Er. rewrite rev_involutive in Er. congruence.
  - apply (map_result_raise parse_hextet _ _ parse_hextet_raise) in Er. now subst e'.
Qed.

Lemma ipv6_validator_unparsed (segments : list string) (e : exn)
    (k : list Z -> result bool) :
  map_result parse_hextet segments = Raise e ->
  try_ValueError (map_result parse_hextet segments) (Ok false) k = Ok false.
Proof.
  intros H. pose proof (map_result_raise parse_hextet _ _ parse_hextet_raise H) as ->.
  now rewrite H.
Qed.

Lemma ipv6_to_num_malformed (address : string) :
  malformed_ipv6 address -> _ipv6_to_num address = Raise ValueError.
Proof.
  intros [H|segments Hz Hl|segments seg e Hz Hin Hp
          |segments seg h Hz Hin Hp Hh|segments seg h Hz Hin Hp Hh].
  - unfold _ipv6_to_num. now rewrite (zero_skip_segments_several address H).
  - destruct (map_result parse_hextet segments) as [hs|e] eqn:Hm.
    + rewrite (ipv6_to_num_hextets address hs (hextets_of_segments _ _ _ Hz Hm)).
      rewrite (map_result_length _ _ _ Hm).
      destruct (Z.ltb_spec 8 (Z.of_nat (length segments))); [reflexivity | lia].
    + exact (ipv6_to_num_unparsed address segments e Hz Hm).
  - destruct (map_result parse_hextet segments) as [hs|e'] eqn:Hm.
    + destruct (map_result_In_ok _ _ _ seg Hm Hin) as [y Hy]. congruence.
    + exact (ipv6_to_num_unparsed address segments e' Hz Hm).
  - destruct (map_result parse_hextet segments) as [hs|e] eqn:Hm.
    + apply (ipv6_to_num_out_of_range address hs h);
        [exact (hextets_of_segments _ _ _ Hz Hm)
        |exact (map_result_In_value _ _ _ _ _ Hm Hin Hp) | now left].
    + exact (ipv6_to_num_unparsed address segments e Hz Hm).
  - destruct (map_result parse_hextet segments) as [hs|e] eqn:Hm.
    + apply (ipv6_to_num_out_of_range address hs h);
        [exact (hextets_of_segments _ _ _ Hz Hm)
        |exact (map_result_In_value _ _ _ _ _ Hm Hin Hp) | now right].
    + exact (ipv6_to_num_unparsed address segments e Hz Hm).
Qed.

Lemma ipv6_validator_malformed (address : string) :
  malformed_ipv6 address ->
  Py.contains "]:" address = false ->
  _ipv6_validator (VStr address) true = Ok false.
Proof.
  intros Hbad Hplain. rewrite (ipv6_validator_plain address true Hplain).
  destruct Hbad as [H|segments Hz Hl|segments seg e Hz Hin Hp
                    |segments seg h Hz Hin Hp Hh|segments seg h Hz Hin Hp Hh].
  - now rewrite (zero_skip_segments_several address H).
  - rewrite Hz. destruct (map_result parse_hextet segments) as [hs|e] eqn:Hm.
    + cbn [try_ValueError]. rewrite (map_result_length _ _ _ Hm).
      destruct (Z.eqb_spec (Z.of_nat (length segments)) 8); [lia | reflexivity].
    + rewrite <- Hm. now apply (ipv6_validator_unparsed segments e).
  - rewrite Hz. destruct (map_result parse_hextet segments) as [hs|e'] eqn:Hm.
    + destruct (map_result_In_ok _ _ _ seg Hm Hin) as [y Hy]. congruence.
    + rewrite <- Hm. now apply (ipv6_validator_unparsed segments e').
  - rewrite Hz. destruct (map_result parse_hextet segments) as [hs|e] eqn:Hm.
    + cbn [try_ValueError]. destruct (negb _); [reflexivity|].
      rewrite (ipv6_out_of_range hs h (map_result_In_value _ _ _ _ _ Hm Hin Hp)) by auto.
      reflexivity.
    + rewrite <- Hm. now apply (ipv6_validator_unparsed segments e).
  - rewrite Hz. destruct (map_result parse_hextet segments) as [hs|e] eqn:Hm.
    + cbn [try_ValueError]. destruct (negb _); [reflexivity|].
      rewrite (ipv6_out_of_range hs h (map_result_In_value _ _ _ _ _ Hm Hin Hp)) by auto.
      reflexivity.
    + rewrite <- Hm. now apply (ipv6_validator_unparsed segments e).
Qed.

(** C1 (the code at the failing input). "1:2:3" has three hextets and no
    zero-skip: the hextet count is not 8, so the claim has the conversion
    raise. [_ipv6_to_num] only checks [IPV6_MAX_SEGMENT_COUNT < segment_count]
    and returns a number for it, against its docstring ("Raises ValueError
    on invalid IPv6 format") and against [_ipv6_validator], which checks
    [len(processed_segments) != IPV6_MAX_SEGMENT_COUNT] and rejects the same
    text. *)
Lemma C1_short_address_is_converted :
  hextets "1:2:3" = Some [1; 2; 3] /\
  length [1; 2; 3] <> 8%nat /\
  _ipv6_to_num "1:2:3" = Ok 4295098371 /\
  _ipv6_to_num "1:2:3" <> Raise ValueError /\
  _ipv6_validator (VStr "1:2:3") true = Ok false.
Proof. repeat split; discriminate. Qed.

(** X25. The rest of what C1 asks does hold. The IPv6 text-to-integer
    conversion raises a [ValueError] when the text holds more than one
    zero-skip, when it has more than eight hextets, when a hextet is no
    hexadecimal numeral, when a hextet exceeds 0xFFFF, and when a hextet is
    below 0, whatever the other hextets are; on each such text that holds no
    port delimiter the strict IPv6 validator returns [False], without
    raising. *)
Theorem ipv6_codec_rejects_malformed (address : string) :
  malformed_ipv6 address ->
  _ipv6_to_num address = Raise ValueError /\
  (Py.contains "]:" address = false ->
   _ipv6_validator (VStr address) true = Ok false).
Proof.
  intros H. split.
  - now apply ipv6_to_num_malformed.
  - now apply ipv6_validator_malformed.
Qed.

Lemma ipv6_codec_rejects_malformed_witness :
  (_ipv6_to_num "1::2::3" = Raise ValueError /\
   _ipv6_validator (VStr "1::2::3") true = Ok false) /\
  (_ipv6_to_num "1:2:3:4:5:6:7:8:x" = Raise ValueError /\
   _ipv6_validator (VStr "1:2:3:4:5:6:7:8:x") true = Ok false) /\
  (_ipv6_to_num "1:g::" = Raise ValueError /\
   _ipv6_validator (VStr "1:g::") true = Ok false) /\
  (_ipv6_to_num "12345:g::" = Raise ValueError /\
   _ipv6_validator (VStr "12345:g::") true = Ok false) /\
  (_ipv6_to_num "-1:zz::" = Raise ValueError /\
   _ipv6_validator (VStr "-1:zz::") true = Ok false).
Proof.
  split; [|split; [|split; [|split]]].
  - destruct (ipv6_codec_rejects_malformed "1::2::3") as [Hc Hv].
    + apply several_zero_skips. simpl. lia.
    + split; [exact Hc | apply Hv; reflexivity].
  - destruct (ipv6_codec_rejects_malformed "1:2:3:4:5:6:7:8:x") as [Hc Hv].
    + apply (too_many_hextets _ ["1"; "2"; "3"; "4"; "5"; "6"; "7"; "8"; "x"]);
        [reflexivity | simpl; lia].
    + split; [exact Hc | apply Hv; reflexivity].
  - destruct (ipv6_codec_rejects_malformed "1:g::") as [Hc Hv].
    + apply (hextet_unparsable _ ["1"; "g"; "0000"; "0000"; "0000"; "0000"; "0000"; "0000"]
               "g" ValueError); [reflexivity | simpl; tauto | reflexivity].
    + split; [exact Hc | apply Hv; reflexivity].
  - destruct (ipv6_codec_rejects_malformed "12345:g::") as [Hc Hv].
    + apply (hextet_too_high _ ["12345"; "g"; "0000"; "0000"; "0000"; "0000"; "0000"; "0000"]
               "12345" 74565); [reflexivity | simpl; tauto | reflexivity | lia].
    + split; [exact Hc | apply Hv; reflexivity].
  - destruct (ipv6_codec_rejects_malformed "-1:zz::") as [Hc Hv].
    + apply (hextet_negative _ ["-1"; "zz"; "0000"; "0000"; "0000"; "0000"; "0000"; "0000"]
               "-1" (-1)); [reflexivity | simpl; tauto | reflexivity | lia].
    + split; [exact Hc | apply Hv; reflexivity].
Defined.

Example port_delimiter_example :
  _ipv6_to_num "X::1]:5]:::::" = Raise ValueError /\
  _ipv6_validator (VStr "X::1]:5]:::::") true = Ok true.
Proof. split; reflexivity. Qed.

(** ** Positional arithmetic of the codec *)

Lemma weighted_total_shift (bits : Z) (segments : list Z) :
  0 <= bits ->
  forall idx total,
    0 <= idx ->
    weighted_total bits idx segments total
    = total + 2 ^ (idx * bits) * weighted_total bits 0 segments 0.
Proof.
  intros Hb. induction segments as [|x r IH]; intros idx total Hi; cbn [weighted_total].
  - lia.
  - rewrite (IH (idx + 1)) by lia. rewrite (IH (0 + 1)) by lia.
    replace ((idx + 1) * bits) with (idx * bits + bits) by lia.
    rewrite Z.pow_add_r by nia.
    replace ((0 + 1) * bits) with bits by lia.
    replace (0 * bits) with 0 by lia. rewrite Z.pow_0_r. lia.
Qed.

Lemma weighted_total_cons (bits x : Z) (r : list Z) :
  0 <= bits ->
  weighted_total bits 0 (x :: r) 0 = x + 2 ^ bits * weighted_total bits 0 r 0.
Proof.
  intros Hb. cbn [weighted_total]. rewrite weighted_total_shift by lia.
  replace ((0 + 1) * bits) with bits by lia.
  replace (0 * bits) with 0 by lia. rewrite Z.pow_0_r. lia.
Qed.

Lemma weighted_total_bounds (bits : Z) (segments : list Z) :
  0 <= bits ->
  Forall (fun x => 0 <= x < 2 ^ bits) segments ->
  0 <= weighted_total bits 0 segments 0 < 2 ^ (bits * Z.of_nat (length segments)).
Proof.
  intros Hb. induction 1 as [|x r Hx Hr IH].
  - simpl. rewrite Z.mul_0_r. simpl. lia.
  - rewrite weighted_total_cons by lia.
    replace (bits * Z.of_nat (length (x :: r)))
      with (bits + bits * Z.of_nat (length r)) by (simpl length; lia).
    rewrite Z.pow_add_r by nia.
    assert (0 < 2 ^ bits) by (apply Z.pow_pos_nonneg; lia).
    nia.
Qed.

(** Taking the segments off again, least significant first. *)
Lemma divmod_weighted (bits : Z) (segments : list Z) :
  0 <= bits ->
  Forall (fun x => 0 <= x < 2 ^ bits) segments ->
  divmod_segments (length segments) (2 ^ bits) (weighted_total bits 0 segments 0)
  = segments.
Proof.
  intros Hb. induction 1 as [|x r Hx Hr IH]; [reflexivity|].
  rewrite weighted_total_cons by lia. cbn [length divmod_segments].
  assert (0 < 2 ^ bits) by (apply Z.pow_pos_nonneg; lia).
  rewrite (Z.mul_comm (2 ^ bits)), Z.mod_add, Z.div_add by lia.
  rewrite Z.mod_small, Z.div_small by lia. simpl. now rewrite IH.
Qed.

(** ** IPv4 round trip *)

Lemma range_from_complete (count : nat) (start z : Z) :
  start <= z < start + Z.of_nat count -> In z (range_from count start).
Proof.
  revert start. induction count as [|k IH]; intros start Hz; [lia|].
  cbn [range_from]. destruct (Z.eq_dec start z) as [->|Hne]; [now left|].
  right. apply IH. lia.
Qed.

Lemma octets_complete (z : Z) : 0 <= z <= 255 -> In z octets.
Proof. intros Hz. apply range_from_complete. lia. Qed.

Lemma octets_text_ok : forallb octet_text_ok octets = true.
Proof. vm_compute. reflexivity. Qed.

Lemma octet_text (z : Z) :
  0 <= z <= 255 ->
  Py.int (Py.str_int z) 10 = Ok z /\
  has_char "." (Py.str_int z) = false /\
  has_char ":" (Py.str_int z) = false.
Proof.
  intros Hz. pose proof octets_text_ok as H. rewrite forallb_forall in H.
  specialize (H z (octets_complete z Hz)). unfold octet_text_ok in H.
  rewrite !andb_true_iff, !negb_true_iff in H. destruct H as [[H1 H2] H3].
  split; [|split; assumption].
  destruct (Py.int (Py.str_int z) 10) as [z'|e]; [|discriminate].
  apply Z.eqb_eq in H1. now subst.
Qed.

(** C3, as stated, fails: "01.2.3.4" is a valid dotted-decimal text of four
    segments within 0..255, and it comes back as "1.2.3.4". *)
Lemma C3_leading_zero_is_lost :
  _ipv4_validator (VStr "01.2.3.4") true = Ok true /\
  _ipv4_to_num "01.2.3.4" = Ok 16909060 /\
  _num_to_ipv4 16909060 = "1.2.3.4" /\
  _num_to_ipv4 16909060 <> "01.2.3.4".
Proof. repeat split. discriminate. Qed.

(** C3 (amended). For every text of exactly four segments joined by dots,
    each segment the decimal numeral of an integer within 0..255 as
    [str()] writes it (no sign, white space, underscore or leading zero),
    the IPv4 conversion gives an integer within the 32-bit range and the
    conversion back gives the same text; the strict validator accepts the
    text. *)
Theorem C3_ipv4_round_trip (a b c d : Z) :
  0 <= a <= 255 -> 0 <= b <= 255 -> 0 <= c <= 255 -> 0 <= d <= 255 ->
  let s := Py.join "." (map Py.str_int [a; b; c; d]) in
  _ipv4_validator (VStr s) true = Ok true /\
  exists n,
    _ipv4_to_num s = Ok n /\
    IPV4_MIN_VALUE <= n <= IPV4_MAX_VALUE /\
    _num_to_ipv4 n = s.
Proof.
  intros Ha Hb Hc Hd s.
  destruct (octet_text a Ha) as (Ia & Da & _). destruct (octet_text b Hb) as (Ib & Db & _).
  destruct (octet_text c Hc) as (Ic & Dc & _). destruct (octet_text d Hd) as (Id & Dd & _).
  assert (Hsplit : Py.split s "." = map Py.str_int [a; b; c; d]).
  { apply split_join_char; [discriminate|]. repeat constructor; assumption. }
  assert (Hmap : map_result (fun seg => Py.int seg 10) (Py.split s ".") = Ok [a; b; c; d]).
  { rewrite Hsplit. cbn [map map_result]. rewrite Ia, Ib, Ic, Id. reflexivity. }
  assert (Hall : Forall (fun x => 0 <= x < 2 ^ 8) [d; c; b; a]).
  { change (2 ^ 8) with 256. repeat constructor; lia. }
  split.
  - destruct (four_integers_shape s [a; b; c; d] Hmap eq_refl) as [Hdot Hcolon].
    cbn [_ipv4_validator]. rewrite Hdot, Hcolon. cbn [negb validate_port_part].
    rewrite Hmap. cbn [try_ValueError length].
    replace (forallb ipv4_segment_in_range [a; b; c; d]) with true; [reflexivity|].
    symmetry. apply forallb_forall. intros x Hx.
    unfold ipv4_segment_in_range, IPV4_MIN_SEGMENT_VALUE, IPV4_MAX_SEGMENT_VALUE.
    apply andb_true_iff. rewrite !Z.leb_le.
    simpl in Hx. intuition (subst; lia).
  - exists (weighted_total 8 0 [d; c; b; a] 0).
    split; [|split].
    + unfold _ipv4_to_num. rewrite Hmap. reflexivity.
    + pose proof (weighted_total_bounds 8 [d; c; b; a] ltac:(lia) Hall) as Hbd.
      change (2 ^ (8 * Z.of_nat (length [d; c; b; a]))) with (2 ^ 32) in Hbd.
      unfold IPV4_MIN_VALUE, IPV4_MAX_VALUE. lia.
    + unfold _num_to_ipv4.
      change (Z.to_nat IPV4_MAX_SEGMENT_COUNT) with (length [d; c; b; a]).
      change (IPV4_MAX_SEGMENT_VALUE + 1) with (2 ^ 8).
      rewrite (divmod_weighted 8 [d; c; b; a]) by (lia || exact Hall).
      reflexivity.
Qed.

Lemma C3_ipv4_round_trip_witness :
  _ipv4_validator (VStr "192.168.0.1") true = Ok true /\
  exists n,
    _ipv4_to_num "192.168.0.1" = Ok n /\
    IPV4_MIN_VALUE <= n <= IPV4_MAX_VALUE /\
    _num_to_ipv4 n = "192.168.0.1".
Proof.
  apply (C3_ipv4_round_trip 192 168 0 1); lia.
Defined.

(** ** IPv6 round trip *)

Lemma upper_hex_digit_facts (c : ascii) :
  is_upper_hex_digit c = true ->
  Py.is_space c = false /\
  Ascii.eqb c "+" = false /\ Ascii.eqb c "-" = false /\ Ascii.eqb c "_" = false /\
  Ascii.eqb c "x" = false /\ Ascii.eqb c "X" = false /\ Ascii.eqb ":" c = false /\
  0 <= Py.digit_value c < 16 /\
  upper_hex_char (Py.digit_value c) = c.
Proof.
  destruct c as [[] [] [] [] [] [] [] []]; vm_compute; intros H; try discriminate H;
    repeat split; congruence.
Qed.

Lemma hextet_values_complete (v : Z) : 0 <= v < 65536 -> In v hextet_values.
Proof.
  intros Hv. apply range_from_complete. lia.
Qed.

Lemma hextet_values_render_ok : forallb hextet_render_ok hextet_values = true.
Proof. vm_compute. reflexivity. Qed.

Lemma hextet_render (v : Z) :
  0 <= v < 65536 ->
  Py.nonempty (hextet_text v) = true /\
  Py.zfill (hextet_text v) 4 = four_digits v /\
  Py.int (hextet_text v) 16 = Ok v /\
  has_char ":" (hextet_text v) = false /\
  has_char "]" (hextet_text v) = false.
Proof.
  intros Hv. pose proof hextet_values_render_ok as H. rewrite forallb_forall in H.
  specialize (H v (hextet_values_complete v Hv)). unfold hextet_render_ok in H.
  cbv zeta in H. rewrite !andb_true_iff, !negb_true_iff in H.
  destruct H as [[[[H1 H2] H3] H4] H5]. apply String.eqb_eq in H2.
  repeat split; try assumption.
  destruct (Py.int (hextet_text v) 16) as [v'|e]; [|discriminate].
  apply Z.eqb_eq in H3. now subst.
Qed.

Lemma padded_hextet_shape (g : string) :
  padded_hextet g = true ->
  exists c1 c2 c3 c4,
    g = String c1 (String c2 (String c3 (String c4 EmptyString))) /\
    is_upper_hex_digit c1 = true /\ is_upper_hex_digit c2 = true /\
    is_upper_hex_digit c3 = true /\ is_upper_hex_digit c4 = true.
Proof.
  unfold padded_hextet. intros H. apply andb_true_iff in H as [Hl Hc].
  destruct g as [|c1 [|c2 [|c3 [|c4 [|c5 g]]]]]; try discriminate Hl.
  cbn [all_chars] in Hc. rewrite !andb_true_iff in Hc.
  exists c1, c2, c3, c4. tauto.
Qed.

(** Reading a hextet written in full. *)
Lemma parse_padded_hextet (g : string) :
  padded_hextet g = true ->
  parse_hextet g = Ok (hex_value 0 g) /\
  0 <= hex_value 0 g < 65536 /\
  four_digits (hex_value 0 g) = g /\
  has_char ":" g = false.
Proof.
  intros H.
  destruct (padded_hextet_shape g H) as (c1 & c2 & c3 & c4 & -> & H1 & H2 & H3 & H4).
  destruct (upper_hex_digit_facts c1 H1) as (S1 & P1 & M1 & U1 & _ & _ & K1 & D1 & R1).
  destruct (upper_hex_digit_facts c2 H2) as (_ & _ & _ & U2 & X2 & Y2 & K2 & D2 & R2).
  destruct (upper_hex_digit_facts c3 H3) as (_ & _ & _ & U3 & _ & _ & K3 & D3 & R3).
  destruct (upper_hex_digit_facts c4 H4) as (_ & _ & _ & U4 & _ & _ & K4 & D4 & R4).
  assert (L1 : (Py.digit_value c1 <? 16) = true) by (apply Z.ltb_lt; lia).
  assert (L2 : (Py.digit_value c2 <? 16) = true) by (apply Z.ltb_lt; lia).
  assert (L3 : (Py.digit_value c3 <? 16) = true) by (apply Z.ltb_lt; lia).
  assert (L4 : (Py.digit_value c4 <? 16) = true) by (apply Z.ltb_lt; lia).
  split; [|split; [|split]].
  - unfold parse_hextet, Py.int, IPV6_SEGMENT_BIT_COUNT. cbn [Py.nonempty Py.lstrip].
    rewrite S1. unfold Py.split_sign. rewrite P1, M1.
    unfold Py.skip_radix_prefix. rewrite X2, Y2. cbn [orb]. rewrite andb_false_r.
    rewrite L1. cbn [Py.scan_digits]. rewrite U1, L1, U2, L2, U3, L3, U4, L4.
    cbn [Py.all_space hex_value]. f_equal. lia.
  - cbn [hex_value]. lia.
  - cbn [hex_value]. unfold four_digits.
    set (d1 := Py.digit_value c1) in *. set (d2 := Py.digit_value c2) in *.
    set (d3 := Py.digit_value c3) in *. set (d4 := Py.digit_value c4) in *.
    set (v := (((0 * 16 + d1) * 16 + d2) * 16 + d3) * 16 + d4).
    assert (E1 : v / 4096 = d1) by (subst v; Z.div_mod_to_equations; lia).
    assert (E2 : (v / 256) mod 16 = d2) by (subst v; Z.div_mod_to_equations; lia).
    assert (E3 : (v / 16) mod 16 = d3) by (subst v; Z.div_mod_to_equations; lia).
    assert (E4 : v mod 16 = d4) by (subst v; Z.div_mod_to_equations; lia).
    rewrite E1, E2, E3, E4. subst d1 d2 d3 d4. now rewrite R1, R2, R3, R4.
  - cbn [has_char]. now rewrite K1, K2, K3, K4.
Qed.

Lemma append_nil_r_string (s : string) : (s ++ "")%string = s.
Proof. induction s as [|c s IH]; simpl; [reflexivity | now rewrite IH]. Qed.

Lemma prefix_colons (c : ascii) (r : string) :
  prefix "::" (String c r) = Ascii.eqb ":" c && prefix ":" r.
Proof.
  cbn [prefix]. destruct (ascii_dec ":" c) as [<-|Hne]; [reflexivity|].
  apply Ascii.eqb_neq in Hne. now rewrite Hne.
Qed.

Lemma no_double_colon (g : string) :
  has_char ":" g = false -> Py.contains "::" g = false.
Proof.
  induction g as [|c g IH]; intros H; [reflexivity|].
  cbn [has_char] in H. apply orb_false_iff in H as [Hc Hg].
  cbn [Py.contains]. now rewrite prefix_colons, Hc, (IH Hg).
Qed.

Lemma no_double_colon_app (g t : string) :
  has_char ":" g = false ->
  Py.contains "::" t = false -> prefix ":" t = false ->
  Py.contains "::" (g ++ String ":" t) = false.
Proof.
  intros Hg Ht Hp. induction g as [|c g IH].
  - cbn [append Py.contains]. now rewrite prefix_colons, Hp, Ht, andb_false_r.
  - cbn [has_char] in Hg. apply orb_false_iff in Hg as [Hc Hg].
    change (String c g ++ String ":" t)%string with (String c (g ++ String ":" t)).
    cbn [Py.contains]. now rewrite prefix_colons, Hc, (IH Hg).
Qed.

Lemma prefix_colon_app (g t : string) :
  has_char ":" g = false -> Py.nonempty g = true -> prefix ":" (g ++ t) = false.
Proof.
  destruct g as [|c g]; [discriminate|]. intros H _.
  cbn [has_char] in H. apply orb_false_iff in H as [Hc _].
  change (String c g ++ t)%string with (String c (g ++ t)).
  now rewrite prefix_char.
Qed.

(** Non-empty pieces without a colon, joined by single colons, hold no
    zero-skip. *)
Lemma join_no_double_colon (pieces : list string) :
  pieces <> [] ->
  Forall (fun g => has_char ":" g = false /\ Py.nonempty g = true) pieces ->
  Py.contains "::" (Py.join ":" pieces) = false /\
  prefix ":" (Py.join ":" pieces) = false.
Proof.
  induction pieces as [|g [|g2 r] IH]; intros Hne Hall; [congruence| |].
  - inversion Hall as [|? ? [Hg Hn] _]; subst. cbn [Py.join String.concat]. split.
    + now apply no_double_colon.
    + rewrite <- (append_nil_r_string g). now apply prefix_colon_app.
  - inversion Hall as [|? ? [Hg Hn] Hr]; subst.
    destruct (IH ltac:(discriminate) Hr) as [IH1 IH2].
    change (Py.join ":" (g :: g2 :: r))
      with (g ++ String ":" (Py.join ":" (g2 :: r)))%string.
    split; [now apply no_double_colon_app | now apply prefix_colon_app].
Qed.

Lemma fold_max_in (l : list Z) (m : Z) :
  In (fold_left (fun m y => if m <? y then y else m) l m) (m :: l).
Proof.
  revert m. induction l as [|y r IH]; intros m; cbn [fold_left]; [now left|].
  destruct (IH (if m <? y then y else m)) as [H|H].
  - rewrite <- H. destruct (m <? y); [right; now left | now left].
  - right. now right.
Qed.

Lemma fold_min_in (l : list Z) (m : Z) :
  In (fold_left (fun m y => if y <? m then y else m) l m) (m :: l).
Proof.
  revert m. induction l as [|y r IH]; intros m; cbn [fold_left]; [now left|].
  destruct (IH (if y <? m then y else m)) as [H|H].
  - rewrite <- H. destruct (y <? m); [right; now left | now left].
  - right. now right.
Qed.

Lemma max_in (l : list Z) : l <> [] -> exists m, Py.max l = Ok m /\ In m l.
Proof.
  destruct l as [|x r]; [congruence|]. intros _. eexists. split; [reflexivity|].
  apply fold_max_in.
Qed.

Lemma min_in (l : list Z) : l <> [] -> exists m, Py.min l = Ok m /\ In m l.
Proof.
  destruct l as [|x r]; [congruence|]. intros _. eexists. split; [reflexivity|].
  apply fold_min_in.
Qed.

Lemma parse_padded_hextets (groups : list string) :
  Forall (fun g => padded_hextet g = true) groups ->
  map_result parse_hextet groups = Ok (map (hex_value 0) groups).
Proof.
  induction 1 as [|g r Hg Hr IH]; [reflexivity|].
  cbn [map_result map]. rewrite (proj1 (parse_padded_hextet g Hg)), IH. reflexivity.
Qed.

(** C4, as stated, fails: "1:2:3:4:5:6:7:8" is a fully explicit text of
    eight hextets within 0..0xFFFF (the strict validator accepts it), and it
    comes back as "0001:0002:0003:0004:0005:0006:0007:0008"; a hextet in
    lower case comes back in upper case. *)
Lemma C4_short_hextets_come_back_padded :
  _ipv6_validator (VStr "1:2:3:4:5:6:7:8") true = Ok true /\
  hextets "1:2:3:4:5:6:7:8" = Some [1; 2; 3; 4; 5; 6; 7; 8] /\
  _ipv6_to_num "1:2:3:4:5:6:7:8" = Ok 5192455318486707404433266433261576 /\
  _num_to_ipv6 5192455318486707404433266433261576 false false
  = "0001:0002:0003:0004:0005:0006:0007:0008" /\
  _num_to_ipv6 5192455318486707404433266433261576 false false <> "1:2:3:4:5:6:7:8" /\
  _ipv6_to_num "abcd:0000:0000:0000:0000:0000:0000:0000"
  = Ok 228362408135220253930399759055429042176 /\
  _num_to_ipv6 228362408135220253930399759055429042176 false false
  = "ABCD:0000:0000:0000:0000:0000:0000:0000".
Proof. repeat split. discriminate. Qed.

(** C4 (amended). For every text of eight hextets joined by colons, each hextet
    written as exactly four upper-case hexadecimal digits, the IPv6
    conversion gives an integer within the 128-bit range, and rendering that
    integer with [shorten] false gives the same text. *)
Theorem C4_ipv6_round_trip_expanded (groups : list string) :
  length groups = 8%nat ->
  Forall (fun g => padded_hextet g = true) groups ->
  let s := Py.join ":" groups in
  exists n,
    _ipv6_to_num s = Ok n /\
    IPV6_MIN_VALUE <= n <= IPV6_MAX_VALUE /\
    _num_to_ipv6 n false false = s.
Proof.
  intros Hlen Hall s.
  assert (Hne : groups <> []) by (destruct groups; [discriminate Hlen | discriminate]).
  assert (Hfacts : forall g, In g groups ->
            0 <= hex_value 0 g < 65536 /\ four_digits (hex_value 0 g) = g /\
            has_char ":" g = false /\ Py.nonempty g = true).
  { intros g Hin. rewrite Forall_forall in Hall.
    destruct (parse_padded_hextet g (Hall g Hin)) as (_ & Hv & Hd & Hc).
    destruct (padded_hextet_shape g (Hall g Hin)) as (c1 & c2 & c3 & c4 & -> & _).
    repeat split; try assumption; lia. }
  assert (Hskip : zero_skip_segments s = Some groups).
  { unfold zero_skip_segments.
    destruct (join_no_double_colon groups Hne) as [Hcc _].
    { apply Forall_forall. intros g Hin. split; now apply Hfacts. }
    fold s in Hcc. rewrite (split_no_sep "::" s Hcc). f_equal.
    apply (split_join_char ":" groups Hne).
    apply Forall_forall. intros g Hin. now apply Hfacts. }
  set (vs := map (hex_value 0) (rev groups)).
  assert (Hparse : map_result parse_hextet (rev groups) = Ok vs).
  { apply parse_padded_hextets. now apply Forall_rev. }
  assert (Hvlen : length vs = 8%nat).
  { unfold vs. now rewrite length_map, length_rev. }
  assert (Hvs : Forall (fun x => 0 <= x < 2 ^ 16) vs).
  { apply Forall_forall. intros x Hx. unfold vs in Hx. apply in_map_iff in Hx.
    destruct Hx as (g & <- & Hin). apply in_rev in Hin. change (2 ^ 16) with 65536.
    now apply Hfacts. }
  assert (Hvne : vs <> []) by (destruct vs; [discriminate Hvlen | discriminate]).
  exists (weighted_total 16 0 vs 0). split; [|split].
  - unfold _ipv6_to_num. rewrite Hskip, Hparse. cbn [try_ValueError]. rewrite Hvlen.
    change (IPV6_MAX_SEGMENT_COUNT <? Z.of_nat 8) with false. cbv iota.
    rewrite Forall_forall in Hvs.
    destruct (max_in vs Hvne) as (hi & -> & Hhi). cbn [bind].
    destruct (min_in vs Hvne) as (lo & -> & Hlo). cbn [bind].
    apply Hvs in Hhi, Hlo. change (2 ^ 16) with 65536 in Hhi, Hlo.
    unfold IPV6_MAX_SEGMENT_VALUE, IPV6_MIN_SEGMENT_VALUE.
    destruct (Z.ltb_spec 65535 hi); [lia|]. destruct (Z.ltb_spec lo 0); [lia|].
    reflexivity.
  - pose proof (weighted_total_bounds 16 vs ltac:(lia) Hvs) as Hb. rewrite Hvlen in Hb.
    change (2 ^ (16 * Z.of_nat 8)) with (2 ^ 128) in Hb.
    unfold IPV6_MIN_VALUE, IPV6_MAX_VALUE. lia.
  - unfold _num_to_ipv6.
    change (Z.to_nat IPV6_MAX_SEGMENT_COUNT) with 8%nat. rewrite <- Hvlen.
    change (IPV6_MAX_SEGMENT_VALUE + 1) with (2 ^ 16).
    rewrite (divmod_weighted 16 vs) by (lia || exact Hvs).
    cbn [andb negb]. cbv iota.
    change (Z.to_nat (IPV6_SEGMENT_BIT_COUNT / IPV6_NUMBER_BIT_COUNT)) with 4%nat.
    unfold vs. rewrite !map_map.
    rewrite (map_ext_in _ (fun g => g)).
    + rewrite map_id, rev_involutive. reflexivity.
    + intros g Hin. apply in_rev in Hin. destruct (Hfacts g Hin) as (Hv & Hd & _).
      destruct (hextet_render (hex_value 0 g) Hv) as (Hn & Hz & _).
      now rewrite Hn, Hz, Hd.
Qed.

Lemma C4_ipv6_round_trip_expanded_witness :
  exists n,
    _ipv6_to_num "2001:0DB8:0000:0000:0000:FF00:0042:8329" = Ok n /\
    IPV6_MIN_VALUE <= n <= IPV6_MAX_VALUE /\
    _num_to_ipv6 n false false = "2001:0DB8:0000:0000:0000:FF00:0042:8329".
Proof.
  apply (C4_ipv6_round_trip_expanded
           ["2001"; "0DB8"; "0000"; "0000"; "0000"; "FF00"; "0042"; "8329"]).
  - reflexivity.
  - repeat constructor.
Defined.

(** ** Zero-run removal *)

(** Where the removal works: the all-zero address, a run in the middle, a
    run at either end, and two runs of equal length (the one met first in
    the scan, which goes from the last hextet to the first, is removed). *)
Example zero_run_examples :
  _num_to_ipv6 0 true true = "::" /\
  _ipv6_to_num "2001:0:0:0:0:0:0:1" = Ok 42540488161975842760550356425300246529 /\
  _num_to_ipv6 42540488161975842760550356425300246529 true true = "2001::1" /\
  _num_to_ipv6 (2 ^ 16) true true = "::1:0" /\
  _num_to_ipv6 (2 ^ 112) true true = "1::" /\
  _ipv6_to_num "1:0:0:2:0:0:3:4" = Ok 5192296858534864522018643748519940 /\
  _num_to_ipv6 5192296858534864522018643748519940 true true = "1:0:0:2::3:4".
Proof. repeat split; vm_compute; reflexivity. Qed.

(** C5 (the code at the failing input). For the address 0:1:1:1:1:1:1:1 the
    only zero hextet is the first one; the scan finds that run (length 1 at
    index 7, counting from the last hextet), but the rendering with
    [remove_zeroes] drops the other seven hextets as well and gives "::",
    the text of the address 0. *)
Theorem C5_lone_first_zero_hextet_erases_address :
  _ipv6_to_num "0:1:1:1:1:1:1:1" = Ok 79229371458530977775699951617 /\
  _num_to_ipv6 79229371458530977775699951617 true false = "0:1:1:1:1:1:1:1" /\
  zero_scan_loop (mkScan 0 0 0 0) 0 ["1"; "1"; "1"; "1"; "1"; "1"; "1"; "0"]
    = mkScan 1 7 1 7 /\
  remove_zero_run ["1"; "1"; "1"; "1"; "1"; "1"; "1"; "0"] = [""; ""; ""] /\
  _num_to_ipv6 79229371458530977775699951617 true true = "::" /\
  _num_to_ipv6 79229371458530977775699951617 true true <> "::1:1:1:1:1:1:1" /\
  _num_to_ipv6 (2 ^ 112 - 1) true true = "::" /\
  _ipv6_to_num "::" = Ok 0.
Proof.
  repeat match goal with |- _ /\ _ => split end;
    try (vm_compute; reflexivity).
  vm_compute. discriminate.
Qed.

(** ** Rendering an address object *)

Lemma divmod_segments_range (count : nat) (base : Z) :
  0 < base ->
  forall num, Forall (fun x => 0 <= x < base) (divmod_segments count base num).
Proof.
  intros Hb. induction count as [|k IH]; intros num; cbn [divmod_segments]; constructor.
  - apply Z.mod_pos_bound. lia.
  - apply IH.
Qed.

Lemma divmod_segments_length (count : nat) (base num : Z) :
  length (divmod_segments count base num) = count.
Proof.
  revert num. induction count as [|k IH]; intros num; cbn [divmod_segments length];
    [reflexivity | now rewrite IH].
Qed.

Lemma has_char_app (c : ascii) (a b : string) :
  has_char c (a ++ b) = has_char c a || has_char c b.
Proof.
  induction a as [|d a IH]; [reflexivity|].
  change (String d a ++ b)%string with (String d (a ++ b)).
  cbn [has_char]. now rewrite IH, orb_assoc.
Qed.

Lemma has_char_join (c : ascii) (sep : string) (pieces : list string) :
  has_char c sep = false ->
  Forall (fun g => has_char c g = false) pieces ->
  has_char c (Py.join sep pieces) = false.
Proof.
  intros Hsep. induction pieces as [|g [|g2 r] IH]; intros Hall.
  - reflexivity.
  - now inversion Hall.
  - inversion Hall as [|? ? Hg Hr]; subst.
    change (Py.join sep (g :: g2 :: r)) with (g ++ sep ++ Py.join sep (g2 :: r))%string.
    now rewrite !has_char_app, Hg, Hsep, (IH Hr).
Qed.

Lemma contains_first_char (c : ascii) (r s : string) :
  has_char c s = false -> Py.contains (String c r) s = false.
Proof.
  induction s as [|d s IH]; intros H; [reflexivity|].
  cbn [has_char] in H. apply orb_false_iff in H as [Hc Hs].
  cbn [Py.contains prefix]. rewrite (IH Hs).
  destruct (ascii_dec c d) as [->|Hne]; [|reflexivity].
  now rewrite Ascii.eqb_refl in Hc.
Qed.

Lemma read_octets (segments : list Z) :
  Forall (fun x => 0 <= x < 256) segments ->
  map_result (fun seg => Py.int seg 10) (map Py.str_int segments) = Ok segments.
Proof.
  induction 1 as [|x r Hx Hr IH]; [reflexivity|].
  cbn [map map_result]. rewrite (proj1 (octet_text x ltac:(lia))), IH. reflexivity.
Qed.

Lemma read_hextets (segments : list Z) :
  Forall (fun x => 0 <= x < 65536) segments ->
  map_result parse_hextet (map hextet_text segments) = Ok segments.
Proof.
  induction 1 as [|x r Hx Hr IH]; [reflexivity|].
  cbn [map map_result]. unfold parse_hextet at 1.
  destruct (hextet_render x Hx) as (-> & _ & Hi & _).
  change IPV6_SEGMENT_BIT_COUNT with 16. rewrite Hi, IH. reflexivity.
Qed.

(** Pieces joined by single colons are the segments of the text. *)
Lemma zero_skip_segments_join (pieces : list string) :
  pieces <> [] ->
  Forall (fun g => has_char ":" g = false /\ Py.nonempty g = true) pieces ->
  zero_skip_segments (Py.join ":" pieces) = Some pieces.
Proof.
  intros Hne Hall. unfold zero_skip_segments.
  destruct (join_no_double_colon pieces Hne Hall) as [Hcc _].
  rewrite (split_no_sep "::" _ Hcc). f_equal.
  apply (split_join_char ":" pieces Hne).
  apply Forall_forall. intros g Hin. rewrite Forall_forall in Hall. now apply Hall.
Qed.

(** The IPv4 view can always be built. *)
Lemma as_ipv4_total (self : object) : exists f, as_ipv4 self = Ok f.
Proof.
  unfold as_ipv4, IPv4_init, _num_to_ipv4.
  change (Z.to_nat IPV4_MAX_SEGMENT_COUNT) with 4%nat.
  change (IPV4_MAX_SEGMENT_VALUE + 1) with 256.
  set (segments := rev (divmod_segments 4 256 (num self))).
  assert (Hall : Forall (fun x => 0 <= x < 256) segments).
  { apply Forall_rev, divmod_segments_range. lia. }
  assert (Hne : map Py.str_int segments <> []).
  { intros H. apply (f_equal (@length _)) in H. unfold segments in H.
    rewrite length_map, length_rev, divmod_segments_length in H. discriminate. }
  set (text := Py.join "." (map Py.str_int segments)).
  assert (Hcolon : Py.split text ":" = [text]).
  { apply split_no_sep. rewrite contains_char. apply has_char_join; [reflexivity|].
    apply Forall_forall. intros g Hg. apply in_map_iff in Hg as (x & <- & Hx).
    rewrite Forall_forall in Hall. apply octet_text. specialize (Hall x Hx). lia. }
  assert (Hdot : Py.split text "." = map Py.str_int segments).
  { apply split_join_char; [exact Hne|].
    apply Forall_forall. intros g Hg. apply in_map_iff in Hg as (x & <- & Hx).
    rewrite Forall_forall in Hall. apply octet_text. specialize (Hall x Hx). lia. }
  rewrite Hcolon. cbn [bind Py.nonempty_list].
  unfold _ipv4_to_num. rewrite Hdot, (read_octets segments Hall). cbn [bind].
  rewrite IPAddress_init_slots_spec. cbn [bind]. eauto.
Qed.

(** The IPv6 view can always be built. *)
Lemma as_ipv6_total (self : object) : exists f, as_ipv6 self = Ok f.
Proof.
  unfold as_ipv6, IPv6_init, _num_to_ipv6.
  change (Z.to_nat IPV6_MAX_SEGMENT_COUNT) with 8%nat.
  change (IPV6_MAX_SEGMENT_VALUE + 1) with 65536.
  cbn [andb negb]. cbv iota.
  set (vs := divmod_segments 8 65536 (num self)).
  assert (Hvs : Forall (fun x => 0 <= x < 65536) vs).
  { apply divmod_segments_range. lia. }
  assert (Hlen : length vs = 8%nat) by apply divmod_segments_length.
  assert (Hvne : vs <> []) by (destruct vs; [discriminate Hlen | discriminate]).
  set (pieces := rev (map hextet_text vs)).
  assert (Hpieces : forall g, In g pieces ->
            has_char ":" g = false /\ Py.nonempty g = true /\ has_char "]" g = false).
  { intros g Hg. unfold pieces in Hg. apply in_rev in Hg.
    apply in_map_iff in Hg as (x & <- & Hx). rewrite Forall_forall in Hvs.
    destruct (hextet_render x (Hvs x Hx)) as (H1 & _ & _ & H4 & H5). auto. }
  assert (Hpne : pieces <> []).
  { intros H. apply (f_equal (@length _)) in H. unfold pieces in H.
    rewrite length_rev, length_map, Hlen in H. discriminate. }
  set (text := Py.join ":" pieces).
  assert (Hbracket : Py.split text "]:" = [text]).
  { apply split_no_sep, contains_first_char, has_char_join; [reflexivity|].
    apply Forall_forall. intros g Hg. now apply Hpieces. }
  assert (Hskip : zero_skip_segments text = Some pieces).
  { apply zero_skip_segments_join; [exact Hpne|].
    apply Forall_forall. intros g Hg. split; now apply Hpieces. }
  rewrite Hbracket. cbn [bind Py.nonempty_list].
  unfold _ipv6_to_num. rewrite Hskip. unfold pieces. rewrite rev_involutive.
  rewrite (read_hextets vs Hvs). cbn [try_ValueError]. rewrite Hlen.
  change (IPV6_MAX_SEGMENT_COUNT <? Z.of_nat 8) with false. cbv iota.
  rewrite Forall_forall in Hvs.
  destruct (max_in vs Hvne) as (hi & -> & Hhi). cbn [bind].
  destruct (min_in vs Hvne) as (lo & -> & Hlo). cbn [bind].
  apply Hvs in Hhi, Hlo. unfold IPV6_MAX_SEGMENT_VALUE, IPV6_MIN_SEGMENT_VALUE.
  destruct (Z.ltb_spec 65535 hi); [lia|]. destruct (Z.ltb_spec lo 0); [lia|].
  cbn [bind]. rewrite IPAddress_init_slots_spec. cbn [bind]. eauto.
Qed.

(** [str()] of an address object gives a text whenever [num] is within the
    IPv6 range, and raises [ValueError] on a generic address beyond it. *)
Lemma object_str_total (self : object) :
  num self <= IPV6_MAX_VALUE -> exists text, fst (object_str self) = Ok text.
Proof.
  intros Hn. destruct self as [n p c4 c6|f|f]; cbn [object_str fst]; eauto.
  unfold IPAddress_str.
  destruct ((IPV4_MIN_VALUE <=? num (Generic n p c4 c6))
            && (num (Generic n p c4 c6) <=? IPV4_MAX_VALUE)) eqn:E4.
  - destruct c4 as [c|]; cbn [fst]; eauto.
    destruct (as_ipv4_total (Generic n p None c6)) as [f ->]. cbn [fst]. eauto.
  - destruct ((IPV4_MAX_VALUE <? num (Generic n p c4 c6))
              && (num (Generic n p c4 c6) <=? IPV6_MAX_VALUE)) eqn:E6.
    + destruct c6 as [c|]; cbn [fst]; eauto.
      destruct (as_ipv6_total (Generic n p c4 None)) as [f ->]. cbn [fst]. eauto.
    + exfalso. apply andb_false_iff in E4, E6.
      unfold num, IPV4_MIN_VALUE in *. rewrite Z.leb_gt, Z.ltb_ge in *. lia.
Qed.

Lemma object_str_out_of_range (n : Z) (p : option pyint) (c4 c6 : option family_instance) :
  IPV6_MAX_VALUE < n -> fst (object_str (Generic n p c4 c6)) = Raise ValueError.
Proof.
  intros Hn. cbn [object_str]. unfold IPAddress_str.
  assert (Hnum : num (Generic n p c4 c6) = n).
  { unfold num. cbn [_num]. unfold IPV6_MAX_VALUE in Hn. lia. }
  rewrite Hnum.
  destruct (Z.leb_spec n IPV4_MAX_VALUE);
    [unfold IPV4_MAX_VALUE, IPV6_MAX_VALUE in *; lia|].
  rewrite andb_false_r.
  destruct (Z.leb_spec n IPV6_MAX_VALUE); [lia|].
  now rewrite andb_false_r.
Qed.

(** C8. The generic address built from the integer 0x7F000001 equals the
    string "127.0.0.1". In general, for two address objects that have a
    text (as every object whose [num] is within the IPv6 range has), [==]
    holds when the two texts are equal and otherwise when [num] and [port]
    both match; against a plain string it holds exactly when the text of
    the address is that string. *)
Theorem C8_equality_across_representations :
  (exists self,
      IPAddress_new CIPAddress (AInt 2130706433) VNone = Ok self /\
      eq_outcome self (OVal (VStr "127.0.0.1")) = Ok true) /\
  (forall a, num a <= IPV6_MAX_VALUE -> exists sa, fst (object_str a) = Ok sa) /\
  (forall a b sa sb,
      fst (object_str a) = Ok sa ->
      fst (object_str b) = Ok sb ->
      (sa = sb -> eq_outcome a (OObj b) = Ok true) /\
      (num a = num b -> port_eqb (port a) (port b) = true ->
       eq_outcome a (OObj b) = Ok true) /\
      eq_outcome a (OObj b)
      = Ok (String.eqb sa sb || (num a =? num b) && port_eqb (port a) (port b))) /\
  (forall a s sa,
      fst (object_str a) = Ok sa ->
      eq_outcome a (OVal (VStr s)) = Ok (String.eqb sa s)).
Proof.
  split; [|split; [|split]].
  - eexists. split; reflexivity.
  - apply object_str_total.
  - intros a b sa sb Ha Hb.
    rewrite (eq_outcome_objects a b sa sb Ha Hb).
    split; [|split].
    + intros ->. now rewrite String.eqb_refl.
    + intros Hn Hp. rewrite Hn, Z.eqb_refl, Hp. now rewrite orb_true_r.
    + reflexivity.
  - intros a s sa Ha. now rewrite (eq_outcome_value a (VStr s) sa Ha).
Qed.

Lemma C8_equality_across_representations_witness :
  (exists sa, fst (object_str (Generic 2130706433 (Some (PInt 80)) None None)) = Ok sa) /\
  (("127.0.0.1" = "127.0.0.1" ->
    eq_outcome (Generic 2130706433 None None None)
               (OObj (V4 (mkFamily "127.0.0.1" 2130706433 None))) = Ok true) /\
   eq_outcome (V4 (mkFamily "127.000.0.1" 2130706433 None))
              (OObj (Generic 2130706433 None None None)) = Ok true) /\
  eq_outcome (V4 (mkFamily "10.0.0.1" 167772161 (Some (PInt 80)))) (OVal (VStr "10.0.0.1:80"))
  = Ok (String.eqb "10.0.0.1:80" "10.0.0.1:80").
Proof.
  destruct C8_equality_across_representations as (_ & Htext & Hobj & Hstr).
  split; [|split; [split|]].
  - apply Htext. unfold num, IPV6_MAX_VALUE. simpl. lia.
  - apply (Hobj (Generic 2130706433 None None None)
                (V4 (mkFamily "127.0.0.1" 2130706433 None)) "127.0.0.1" "127.0.0.1");
      reflexivity.
  - apply (Hobj (V4 (mkFamily "127.000.0.1" 2130706433 None))
                (Generic 2130706433 None None None) "127.000.0.1" "127.0.0.1");
      reflexivity.
  - apply (Hstr (V4 (mkFamily "10.0.0.1" 167772161 (Some (PInt 80)))) "10.0.0.1:80").
    reflexivity.
Defined.

(** * Further properties of the module *)

(** ** Ports: validator, setter and constructors *)

Lemma port_eqb_refl (p : option pyint) : port_eqb p p = true.
Proof. destruct p as [i|]; [apply Z.eqb_refl | reflexivity]. Qed.

Lemma clamp_port_in_range (i : pyint) :
  port_in_range (int_val i) = true -> port_eqb (clamp_port (Some i)) (Some i) = true.
Proof.
  intros H. apply port_in_range_iff in H.
  unfold PORT_NUMBER_MIN_VALUE, PORT_NUMBER_MAX_VALUE in H.
  unfold clamp_port, port_eqb, Py.max2, Py.min2, PORT_NUMBER_MIN_VALUE, PORT_NUMBER_MAX_VALUE.
  cbn [int_val].
  destruct (Z.ltb_spec 0 (int_val i)).
  - destruct (Z.ltb_spec 65535 (int_val i)); [lia | apply Z.eqb_refl].
  - cbn [int_val]. destruct (Z.ltb_spec 65535 0); [lia|]. cbn [int_val]. apply Z.eqb_eq. lia.
Qed.

(** X1. The setter returns exactly on the values the validator accepts; the
    port then reads as the value assigned, and as before when the setter
    raised. *)
Theorem port_setter_agrees_with_validator (self : object) (value : pyval) :
  _port_validator value = Ok (succeeded (fst (port_setter self value))) /\
  port_eqb (port (snd (port_setter self value)))
           (if succeeded (fst (port_setter self value))
            then valid_port_or_none value
            else port self) = true.
Proof.
  destruct value as [|i|s|t]; cbn [port_setter _port_validator Py.isinstance_int Py.between].
  - split; [reflexivity|]. cbn [fst snd succeeded valid_port_or_none].
    unfold port. now rewrite port_set_port.
  - fold (port_in_range (int_val i)). unfold valid_port_or_none.
    destruct (port_in_range (int_val i)) eqn:E; cbn [negb fst snd succeeded].
    + split; [reflexivity|]. unfold port. rewrite port_set_port.
      now apply clamp_port_in_range.
    + split; [reflexivity | apply port_eqb_refl].
  - split; [reflexivity | apply port_eqb_refl].
  - split; [reflexivity | apply port_eqb_refl].
Qed.

Lemma valid_port_or_none_ok (port_num : pyval) :
  match valid_port_or_none port_num with
  | None => True
  | Some i => PORT_NUMBER_MIN_VALUE <= int_val i <= PORT_NUMBER_MAX_VALUE
  end.
Proof.
  destruct port_num as [|i|s|t]; cbn [valid_port_or_none]; try exact I.
  destruct (port_in_range (int_val i)) eqn:E; [|exact I]. now apply port_in_range_iff.
Qed.

Lemma IPv4_init_port (address : option string) (port_num : pyval) (f : family_instance) :
  IPv4_init address port_num = Ok f -> exists p, fam_port f = valid_port_or_none p.
Proof.
  unfold IPv4_init. intros H.
  destruct (Py.split _ ":") as [|a rest]; [discriminate|].
  step_bind H. step_bind H. rewrite IPAddress_init_slots_spec in H. cbn [bind] in H.
  injection H as <-. eexists. reflexivity.
Qed.

Lemma IPv6_init_port (address : option string) (port_num : pyval) (f : family_instance) :
  IPv6_init address port_num = Ok f -> exists p, fam_port f = valid_port_or_none p.
Proof.
  unfold IPv6_init. intros H.
  destruct (Py.split _ "]:") as [|a rest]; [discriminate|].
  step_bind H. step_bind H. rewrite IPAddress_init_slots_spec in H. cbn [bind] in H.
  injection H as <-. eexists. reflexivity.
Qed.

Lemma IPAddress_new_port_ok (cls : class) (address : address_arg) (port_num : pyval)
    (self : object) :
  IPAddress_new cls address port_num = Ok self -> port_ok self.
Proof.
  unfold IPAddress_new, port_ok. intros H.
  assert (Hgen : forall a, IPAddress_init a port_num = Ok self ->
                           match _port self with
                           | Some i => PORT_NUMBER_MIN_VALUE <= int_val i <= PORT_NUMBER_MAX_VALUE
                           | None => True
                           end).
  { intros a Ha. unfold IPAddress_init in Ha. rewrite IPAddress_init_slots_spec in Ha.
    cbn [bind] in Ha. injection Ha as <-. cbn [_port]. apply valid_port_or_none_ok. }
  assert (H4 : forall a, (f <- IPv4_init a port_num ;; Ok (V4 f)) = Ok self ->
                         match _port self with
                         | Some i => PORT_NUMBER_MIN_VALUE <= int_val i <= PORT_NUMBER_MAX_VALUE
                         | None => True
                         end).
  { intros a Ha. destruct (IPv4_init a port_num) as [f|e] eqn:E; [|discriminate].
    cbn [bind] in Ha. injection Ha as <-. cbn [_port].
    destruct (IPv4_init_port _ _ _ E) as [p ->]. apply valid_port_or_none_ok. }
  assert (H6 : forall a, (f <- IPv6_init a port_num ;; Ok (V6 f)) = Ok self ->
                         match _port self with
                         | Some i => PORT_NUMBER_MIN_VALUE <= int_val i <= PORT_NUMBER_MAX_VALUE
                         | None => True
                         end).
  { intros a Ha. destruct (IPv6_init a port_num) as [f|e] eqn:E; [|discriminate].
    cbn [bind] in Ha. injection Ha as <-. cbn [_port].
    destruct (IPv6_init_port _ _ _ E) as [p ->]. apply valid_port_or_none_ok. }
  destruct address as [|n|s].
  - destruct cls; cbv beta iota zeta in H;
      [apply (Hgen None H) | apply (H4 None H) | apply (H6 None H)].
  - destruct cls; cbv beta iota zeta in H;
      [apply (Hgen (Some n) H) | discriminate H | discriminate H].
  - destruct (Py.contains "." s); cbv beta iota zeta in H;
      [apply (H4 (Some s) H) | apply (H6 (Some s) H)].
Qed.

(** X2. Every constructor leaves the stored port absent or within 0..65535,
    and the setter and [__str__] keep it so. On such an object the getter
    returns the stored port itself, with one exception: a stored [False]
    (a [bool] is an [int], and the validator accepts it) reads as the
    integer 0, because [max(0, False)] is 0; a stored [True] reads as
    [True]. So the getter always returns a value equal ([==]) to the stored
    port. *)
Theorem port_stays_within_bounds :
  (forall cls address port_num self,
      IPAddress_new cls address port_num = Ok self -> port_ok self) /\
  (forall self value, port_ok self -> port_ok (snd (port_setter self value))) /\
  (forall self, port_ok self -> port_ok (snd (object_str self))) /\
  (forall self, port_ok self ->
     port self = match _port self with
                 | Some (PBool false) => Some (PInt 0)
                 | stored => stored
                 end /\
     port_eqb (port self) (_port self) = true).
Proof.
  split; [|split; [|split]].
  - apply IPAddress_new_port_ok.
  - intros self value Hok. unfold port_ok in *.
    destruct value as [|i|s|t]; cbn [port_setter snd]; try exact Hok.
    + now rewrite port_set_port.
    + destruct (port_in_range (int_val i)) eqn:E; cbn [negb snd]; [|exact Hok].
      rewrite port_set_port. now apply port_in_range_iff.
  - intros self Hok. unfold port_ok in *.
    now rewrite (proj2 (object_str_keeps_slots self)).
  - intros self Hok. unfold port_ok, port in *.
    destruct (_port self) as [i|]; [|split; reflexivity]. split.
    + unfold clamp_port, Py.max2, Py.min2, PORT_NUMBER_MIN_VALUE, PORT_NUMBER_MAX_VALUE in *.
      cbn [int_val].
      destruct i as [z|[|]]; cbn [int_val] in *.
      * destruct (Z.ltb_spec 0 z); cbn [int_val].
        -- destruct (Z.ltb_spec 65535 z); [lia | reflexivity].
        -- replace z with 0 by lia. reflexivity.
      * reflexivity.
      * reflexivity.
    + apply clamp_port_in_range. now apply port_in_range_iff.
Qed.

Lemma port_stays_within_bounds_witness :
  port_ok (Generic 1 (Some (PInt 8080)) None None) /\
  port_ok (snd (port_setter (Generic 1 (Some (PInt 8080)) None None) (VNum (PInt 70000)))) /\
  port_ok (snd (object_str (Generic 1 (Some (PInt 8080)) None None))) /\
  port (Generic 1 (Some (PInt 8080)) None None) = Some (PInt 8080) /\
  IPAddress_new CIPAddress (AInt 1) (VNum (PBool false))
  = Ok (Generic 1 (Some (PBool false)) None None) /\
  port (Generic 1 (Some (PBool false)) None None) = Some (PInt 0).
Proof.
  destruct port_stays_within_bounds as (Hnew & Hset & Hstr & Hget).
  assert (Hok : port_ok (Generic 1 (Some (PInt 8080)) None None)).
  { apply (Hnew CIPAddress (AInt 1) (VNum (PInt 8080))). reflexivity. }
  assert (Hfalse : port_ok (Generic 1 (Some (PBool false)) None None)).
  { apply (Hnew CIPAddress (AInt 1) (VNum (PBool false))). reflexivity. }
  split; [exact Hok|]. split; [now apply Hset|]. split; [now apply Hstr|].
  split; [exact (proj1 (Hget _ Hok))|]. split; [reflexivity|].
  exact (proj1 (Hget _ Hfalse)).
Defined.

(** ** Validated text and the constructors *)

(** A single piece is the whole text. *)
Lemma split_single (s sep a : string) : Py.split s sep = [a] -> a = s.
Proof.
  unfold Py.split. revert a. induction s as [|c s IH]; intros a H.
  - simpl in H. now injection H as <-.
  - cbn [Py.split_from] in H. destruct (prefix sep (String c s)).
    + injection H as _ H. now apply split_from_not_nil in H.
    + destruct (Py.split_from sep 0 s) as [|piece rest] eqn:E;
        [now apply split_from_not_nil in E|].
      injection H as <- ->. now rewrite (IH piece eq_refl).
Qed.

Lemma validate_port_part_port (p0 : string) (port : list string) (strict : bool)
    (rest : result bool) :
  validate_port_part (p0 :: port) strict rest = Ok true ->
  exists n, Py.int p0 10 = Ok n /\ (strict = true -> port_in_range n = true).
Proof.
  unfold validate_port_part, try_ValueError.
  destruct (Py.int p0 10) as [n|[]]; try discriminate.
  intros H. exists n. split; [reflexivity|]. intros ->. cbn [andb] in H.
  now destruct (port_in_range n).
Qed.

Lemma in_range_total (bits : Z) (segments : list Z) (count : nat) :
  0 <= bits ->
  length segments = count ->
  Forall (fun x => 0 <= x < 2 ^ bits) segments ->
  0 <= weighted_total bits 0 (rev segments) 0 < 2 ^ (bits * Z.of_nat count).
Proof.
  intros Hb <- Hall. rewrite <- length_rev.
  apply weighted_total_bounds; [exact Hb | now apply Forall_rev].
Qed.

(** X3. A text the strict IPv4 validator accepts can be constructed, whatever
    class is called: the result is an [IPv4] whose [num] is within the
    32-bit range, with the port of the text if it has one. *)
Theorem strict_ipv4_text_constructs (s : string) :
  _ipv4_validator (VStr s) true = Ok true ->
  exists f,
    (forall cls, IPAddress_new cls (AStr s) VNone = Ok (V4 f)) /\
    IPV4_MIN_VALUE <= fam_num f <= IPV4_MAX_VALUE /\
    match embedded_port ":" s with
    | Some tok =>
        exists n, Py.int tok 10 = Ok n /\ fam_port f = Some (PInt n) /\
                  PORT_NUMBER_MIN_VALUE <= n <= PORT_NUMBER_MAX_VALUE
    | None => fam_port f = None /\ fam_address f = s
    end.
Proof.
  intros H.
  destruct (ipv4_validator_true s true H) as (address & port & segments & Hs & Hm & Hl & Hr).
  specialize (Hr eq_refl).
  assert (Hdot : Py.contains "." s = true).
  { cbn [_ipv4_validator] in H. now destruct (Py.contains "." s). }
  assert (Hall : Forall (fun x => 0 <= x < 2 ^ 8) segments).
  { apply Forall_forall. intros x Hx. rewrite forallb_forall in Hr. specialize (Hr x Hx).
    unfold ipv4_segment_in_range, IPV4_MIN_SEGMENT_VALUE, IPV4_MAX_SEGMENT_VALUE in Hr.
    apply andb_true_iff in Hr as [H1 H2]. apply Z.leb_le in H1, H2.
    change (2 ^ 8) with 256. lia. }
  pose proof (in_range_total 8 segments 4 ltac:(lia) Hl Hall) as Hbound.
  change (2 ^ (8 * Z.of_nat 4)) with (2 ^ 32) in Hbound.
  assert (Hnum : forall a, a = address -> _ipv4_to_num a = Ok (weighted_total 8 0 (rev segments) 0)).
  { intros a ->. unfold _ipv4_to_num. now rewrite Hm. }
  destruct port as [|p0 port].
  - pose proof (split_single s ":" address Hs) as ->.
    exists (mkFamily s (weighted_total 8 0 (rev segments) 0) None).
    split; [|split].
    + intros cls. unfold IPAddress_new. rewrite Hdot. unfold IPv4_init. rewrite Hs.
      cbn [bind Py.nonempty_list]. rewrite (Hnum s eq_refl). cbn [bind].
      rewrite IPAddress_init_slots_spec. reflexivity.
    + cbn [fam_num]. unfold IPV4_MIN_VALUE, IPV4_MAX_VALUE. lia.
    + unfold embedded_port. rewrite Hs. split; reflexivity.
  - cbn [_ipv4_validator] in H. rewrite Hdot, Hs in H. cbn [negb] in H.
    destruct (validate_port_part_port _ _ _ _ H) as (n & Hn & Hrange).
    specialize (Hrange eq_refl).
    exists (mkFamily address (weighted_total 8 0 (rev segments) 0) (Some (PInt n))).
    split; [|split].
    + intros cls. unfold IPAddress_new. rewrite Hdot. unfold IPv4_init. rewrite Hs, Hn.
      cbn [bind Py.nonempty_list]. rewrite (Hnum address eq_refl). cbn [bind].
      rewrite IPAddress_init_slots_spec. cbn [bind valid_port_or_none int_val].
      now rewrite Hrange.
    + cbn [fam_num]. unfold IPV4_MIN_VALUE, IPV4_MAX_VALUE. lia.
    + unfold embedded_port. rewrite Hs. exists n. repeat split; try assumption;
        apply port_in_range_iff in Hrange; tauto.
Qed.

Lemma strict_ipv4_text_constructs_witness :
  exists f,
    (forall cls, IPAddress_new cls (AStr "010.0.0.1:+80") VNone = Ok (V4 f)) /\
    IPV4_MIN_VALUE <= fam_num f <= IPV4_MAX_VALUE /\
    exists n, Py.int "+80" 10 = Ok n /\ fam_port f = Some (PInt n) /\
              PORT_NUMBER_MIN_VALUE <= n <= PORT_NUMBER_MAX_VALUE.
Proof.
  apply (strict_ipv4_text_constructs "010.0.0.1:+80"). reflexivity.
Defined.

(** What a [True] of the IPv6 validator on a text says about the text. *)
Lemma ipv6_validator_true (s : string) (strict : bool) :
  _ipv6_validator (VStr s) strict = Ok true ->
  exists address0 port hs,
    Py.split s "]:" = address0 :: port /\
    hextets (if Py.nonempty_list port then Py.drop_first address0 else address0) = Some hs /\
    length hs = 8%nat /\
    (strict = true -> forallb ipv6_segment_in_range hs = true) /\
    match port with
    | [] => True
    | p0 :: _ => exists n, Py.int p0 10 = Ok n /\ (strict = true -> port_in_range n = true)
    end.
Proof.
  cbn [_ipv6_validator].
  destruct (Py.split s "]:") as [|address0 port]; [discriminate|].
  intros H. exists address0, port.
  assert (Hport : match port with
                  | [] => True
                  | p0 :: _ =>
                      exists n, Py.int p0 10 = Ok n /\ (strict = true -> port_in_range n = true)
                  end).
  { destruct port as [|p0 port]; [exact I|]. eapply validate_port_part_port, H. }
  apply validate_port_part_true in H. unfold hextets.
  destruct (zero_skip_segments _) as [segments|]; [|discriminate].
  unfold try_ValueError in H.
  destruct (map_result parse_hextet segments) as [hs|[]]; try discriminate.
  destruct (Z.of_nat (length hs) =? IPV6_MAX_SEGMENT_COUNT) eqn:El; [|discriminate].
  cbn [negb] in H. apply Z.eqb_eq in El. unfold IPV6_MAX_SEGMENT_COUNT in El.
  exists hs. split; [reflexivity|]. split; [reflexivity|]. split; [lia|]. split; [|exact Hport].
  intros ->. cbn [andb] in H. now destruct (forallb ipv6_segment_in_range hs).
Qed.

Lemma hextets_in_range (hs : list Z) :
  forallb ipv6_segment_in_range hs = true -> Forall (fun x => 0 <= x < 2 ^ 16) hs.
Proof.
  intros H. apply Forall_forall. intros x Hx. rewrite forallb_forall in H.
  specialize (H x Hx).
  unfold ipv6_segment_in_range, IPV6_MIN_SEGMENT_VALUE, IPV6_MAX_SEGMENT_VALUE in H.
  apply andb_true_iff in H as [H1 H2]. apply Z.leb_le in H1, H2.
  change (2 ^ 16) with 65536. lia.
Qed.

(** The codec on eight hextets within range. *)
Lemma ipv6_to_num_eight (address : string) (hs : list Z) :
  hextets address = Some hs ->
  length hs = 8%nat ->
  Forall (fun x => 0 <= x < 2 ^ 16) hs ->
  _ipv6_to_num address = Ok (weighted_total 16 0 (rev hs) 0).
Proof.
  intros H Hl Hall. rewrite (ipv6_to_num_hextets address hs H), Hl.
  change (8 <? Z.of_nat 8) with false. cbv iota.
  assert (Hne : rev hs <> []).
  { intros E. apply (f_equal (@length _)) in E. rewrite length_rev, Hl in E. discriminate. }
  apply Forall_rev in Hall. rewrite Forall_forall in Hall. change (2 ^ 16) with 65536 in Hall.
  destruct (max_in (rev hs) Hne) as (hi & -> & Hhi). cbn [bind].
  destruct (min_in (rev hs) Hne) as (lo & -> & Hlo). cbn [bind].
  apply Hall in Hhi, Hlo.
  destruct (Z.ltb_spec 65535 hi); [lia|]. destruct (Z.ltb_spec lo 0); [lia|]. reflexivity.
Qed.

(** X4. A text without a dot that the strict IPv6 validator accepts can be
    constructed, whatever class is called: the result is an [IPv6] whose
    [num] is within the 128-bit range, with the port of the text if it has
    one. (A text with a dot is taken to the [IPv4] initialiser by [__new__],
    also when [IPv6] is called: see [ipv6_text_with_a_dot].) *)
Theorem strict_ipv6_text_constructs (s : string) :
  _ipv6_validator (VStr s) true = Ok true ->
  Py.contains "." s = false ->
  exists f,
    (forall cls, IPAddress_new cls (AStr s) VNone = Ok (V6 f)) /\
    IPV6_MIN_VALUE <= fam_num f <= IPV6_MAX_VALUE /\
    match embedded_port "]:" s with
    | Some tok =>
        exists n, Py.int tok 10 = Ok n /\ fam_port f = Some (PInt n) /\
                  PORT_NUMBER_MIN_VALUE <= n <= PORT_NUMBER_MAX_VALUE
    | None => fam_port f = None /\ fam_address f = s
    end.
Proof.
  intros H Hdot.
  destruct (ipv6_validator_true s true H) as (address0 & port & hs & Hs & Hh & Hl & Hr & Hp).
  specialize (Hr eq_refl). apply hextets_in_range in Hr.
  pose proof (in_range_total 16 hs 8 ltac:(lia) Hl Hr) as Hbound.
  change (2 ^ (16 * Z.of_nat 8)) with (2 ^ 128) in Hbound.
  pose proof (ipv6_to_num_eight _ hs Hh Hl Hr) as Hnum.
  assert (Hnew : forall f, IPv6_init (Some s) VNone = Ok f ->
            forall cls, IPAddress_new cls (AStr s) VNone = Ok (V6 f)).
  { intros f Hf cls. unfold IPAddress_new. now rewrite Hdot, Hf. }
  destruct port as [|p0 port]; cbn [Py.nonempty_list] in Hh, Hnum.
  - pose proof (split_single s "]:" address0 Hs) as ->.
    assert (Hinit : IPv6_init (Some s) VNone
                    = Ok (mkFamily s (weighted_total 16 0 (rev hs) 0) None)).
    { unfold IPv6_init. rewrite Hs. cbn [bind Py.nonempty_list]. rewrite Hnum. cbn [bind].
      rewrite IPAddress_init_slots_spec. reflexivity. }
    eexists. split; [exact (Hnew _ Hinit)|]. split.
    + cbn [fam_num]. unfold IPV6_MIN_VALUE, IPV6_MAX_VALUE. lia.
    + unfold embedded_port. rewrite Hs. split; reflexivity.
  - destruct Hp as (n & Hn & Hrange). specialize (Hrange eq_refl).
    assert (Hinit : IPv6_init (Some s) VNone
                    = Ok (mkFamily (Py.drop_first address0)
                                   (weighted_total 16 0 (rev hs) 0) (Some (PInt n)))).
    { unfold IPv6_init. rewrite Hs, Hn. cbn [bind Py.nonempty_list]. rewrite Hnum.
      cbn [bind]. rewrite IPAddress_init_slots_spec. cbn [bind valid_port_or_none int_val].
      now rewrite Hrange. }
    eexists. split; [exact (Hnew _ Hinit)|]. split.
    + cbn [fam_num]. unfold IPV6_MIN_VALUE, IPV6_MAX_VALUE. lia.
    + unfold embedded_port. rewrite Hs. exists n. repeat split; try assumption;
        apply port_in_range_iff in Hrange; tauto.
Qed.

Lemma strict_ipv6_text_constructs_witness :
  exists f,
    (forall cls, IPAddress_new cls (AStr "[2001:db8::1]:443") VNone = Ok (V6 f)) /\
    IPV6_MIN_VALUE <= fam_num f <= IPV6_MAX_VALUE /\
    exists n, Py.int "443" 10 = Ok n /\ fam_port f = Some (PInt n) /\
              PORT_NUMBER_MIN_VALUE <= n <= PORT_NUMBER_MAX_VALUE.
Proof.
  apply (strict_ipv6_text_constructs "[2001:db8::1]:443"); reflexivity.
Defined.

(** The validators read the first two pieces of a split on the port
    delimiter only, so a strictly valid IPv6 text may hold a dot further on;
    [__new__] then runs the [IPv4] initialiser, which raises. *)
Example ipv6_text_with_a_dot :
  _ipv6_validator (VStr "[::1]:80]:1.2.3") true = Ok true /\
  IPAddress_new CIPv6 (AStr "[::1]:80]:1.2.3") VNone = Raise ValueError.
Proof. split; reflexivity. Qed.

(** ** Strict and lenient mode; validator and codec *)

Lemma validate_port_part_lenient (port : list string) (rest rest' : result bool) :
  validate_port_part port true rest = Ok true ->
  (rest = Ok true -> rest' = Ok true) ->
  validate_port_part port false rest' = Ok true.
Proof.
  intros H Hrest. pose proof (validate_port_part_true _ _ _ H) as Hr.
  destruct port as [|p0 port]; [now apply Hrest|].
  destruct (validate_port_part_port _ _ _ _ H) as (n & Hn & _).
  unfold validate_port_part. rewrite Hn. cbn [try_ValueError andb]. now apply Hrest.
Qed.

(** X5. What strict mode accepts, lenient mode accepts: for each of the three
    address validators and every value. *)
Theorem strict_implies_lenient (value : pyval) :
  (_ipv4_validator value true = Ok true -> _ipv4_validator value false = Ok true) /\
  (_ipv6_validator value true = Ok true -> _ipv6_validator value false = Ok true) /\
  (_ip_validator value true = Ok true -> _ip_validator value false = Ok true).
Proof.
  assert (H4 : _ipv4_validator value true = Ok true -> _ipv4_validator value false = Ok true).
  { destruct value as [|i|s|t]; cbn [_ipv4_validator]; try (intros H; exact H).
    destruct (negb (Py.contains "." s)); [discriminate|].
    destruct (Py.split s ":") as [|address port]; [discriminate|].
    intros H. apply (validate_port_part_lenient _ _ _ H). unfold try_ValueError.
    destruct (map_result _ _) as [segments|[]]; try discriminate.
    destruct (negb _); [discriminate|]. cbn [andb]. reflexivity. }
  assert (H6 : _ipv6_validator value true = Ok true -> _ipv6_validator value false = Ok true).
  { destruct value as [|i|s|t]; cbn [_ipv6_validator]; try (intros H; exact H).
    destruct (Py.split s "]:") as [|address port]; [discriminate|].
    intros H. apply (validate_port_part_lenient _ _ _ H).
    destruct (zero_skip_segments _) as [segments|]; [|discriminate].
    unfold try_ValueError.
    destruct (map_result _ _) as [hs|[]]; try discriminate.
    destruct (negb _); [discriminate|]. cbn [andb]. reflexivity. }
  split; [exact H4|]. split; [exact H6|].
  unfold _ip_validator. intros H.
  destruct (ipv4_validator_total value true) as [b4 E4]. rewrite E4 in H. cbn [bind] in H.
  destruct b4.
  - rewrite (H4 E4). reflexivity.
  - destruct (ipv4_validator_total value false) as [b4' ->]. cbn [bind].
    destruct b4'; [reflexivity | now apply H6].
Qed.

Lemma strict_implies_lenient_witness :
  _ipv4_validator (VStr "10.0.0.1:80") false = Ok true /\
  _ipv6_validator (VStr "[::1]:80") false = Ok true /\
  _ip_validator (VNum (PInt (2 ^ 100))) false = Ok true.
Proof.
  split; [|split].
  - apply (strict_implies_lenient (VStr "10.0.0.1:80")). reflexivity.
  - apply (proj1 (proj2 (strict_implies_lenient (VStr "[::1]:80")))). reflexivity.
  - apply (proj2 (proj2 (strict_implies_lenient (VNum (PInt (2 ^ 100)))))). reflexivity.
Defined.

Lemma parse_hextet_list_rev (segments : list string) (ps : list Z) :
  map_result parse_hextet (rev segments) = Ok ps ->
  map_result parse_hextet segments = Ok (rev ps).
Proof.
  intros H. apply map_result_rev in H. now rewrite rev_involutive in H.
Qed.

(** X6. Whatever text it is given, the IPv6 conversion never returns an integer
    outside the 128-bit range. *)
Theorem ipv6_to_num_within_range (address : string) (n : Z) :
  _ipv6_to_num address = Ok n -> IPV6_MIN_VALUE <= n <= IPV6_MAX_VALUE.
Proof.
  unfold _ipv6_to_num.
  destruct (zero_skip_segments address) as [segments|]; [|discriminate].
  unfold try_ValueError.
  destruct (map_result parse_hextet (rev segments)) as [ps|[]]; try discriminate.
  destruct (Z.ltb_spec IPV6_MAX_SEGMENT_COUNT (Z.of_nat (length ps))) as [|Hc]; [discriminate|].
  destruct (Py.max ps) as [hi|] eqn:Ehi; [|discriminate]. cbn [bind].
  destruct (Z.ltb_spec IPV6_MAX_SEGMENT_VALUE hi) as [|Hhi]; [discriminate|].
  destruct (Py.min ps) as [lo|] eqn:Elo; [|discriminate]. cbn [bind].
  destruct (Z.ltb_spec lo IPV6_MIN_SEGMENT_VALUE) as [|Hlo]; [discriminate|].
  intros H. injection H as <-.
  assert (Hall : Forall (fun x => 0 <= x < 2 ^ 16) ps).
  { apply Forall_forall. intros x Hx.
    destruct (max_bound ps x Hx) as (m & Hm & Hxm). rewrite Ehi in Hm. injection Hm as <-.
    destruct (min_bound ps x Hx) as (m' & Hm' & Hxm'). rewrite Elo in Hm'. injection Hm' as <-.
    unfold IPV6_MAX_SEGMENT_VALUE, IPV6_MIN_SEGMENT_VALUE in *. change (2 ^ 16) with 65536. lia. }
  pose proof (weighted_total_bounds 16 ps ltac:(lia) Hall) as Hb.
  unfold IPV6_MAX_SEGMENT_COUNT in Hc.
  assert (2 ^ (16 * Z.of_nat (length ps)) <= 2 ^ 128) by (apply Z.pow_le_mono_r; lia).
  unfold IPV6_MIN_VALUE, IPV6_MAX_VALUE. lia.
Qed.

Lemma ipv6_to_num_within_range_witness :
  IPV6_MIN_VALUE <= 4295098371 <= IPV6_MAX_VALUE.
Proof. apply (ipv6_to_num_within_range "1:2:3" 4295098371). reflexivity. Defined.

(** Eight hextets that the conversion takes make a strictly valid text. *)
Lemma ipv6_validator_accepts_eight (address : string) (hs : list Z) (n : Z) :
  Py.contains "]:" address = false ->
  hextets address = Some hs -> length hs = 8%nat -> _ipv6_to_num address = Ok n ->
  _ipv6_validator (VStr address) true = Ok true.
Proof.
  intros Hplain Hh Hl Hn.
  rewrite (ipv6_validator_plain address true Hplain).
  pose proof Hh as Hh'. apply hextets_some in Hh' as (segments & -> & ->).
  cbn [try_ValueError]. rewrite Hl. cbn [Z.eqb negb andb].
  change (Z.of_nat 8 =? 8) with true. cbn [negb].
  destruct (forallb ipv6_segment_in_range hs) eqn:Er; [reflexivity|]. exfalso.
  assert (Hex : exists h, In h hs /\ (65535 < h \/ h < 0)).
  { clear - Er. induction hs as [|x r IH]; [discriminate|].
    cbn [forallb] in Er. apply andb_false_iff in Er as [Er|Er].
    - exists x. split; [now left|].
      unfold ipv6_segment_in_range, IPV6_MIN_SEGMENT_VALUE, IPV6_MAX_SEGMENT_VALUE in Er.
      apply andb_false_iff in Er as [Er|Er]; [apply Z.leb_gt in Er | apply Z.leb_gt in Er];
        lia.
    - destruct (IH Er) as (h & Hin & Hh). exists h. split; [now right | exact Hh]. }
  destruct Hex as (h & Hin & [Hhi|Hlo]).
  - now rewrite (ipv6_to_num_out_of_range address hs h Hh Hin (or_introl Hhi)) in Hn.
  - now rewrite (ipv6_to_num_out_of_range address hs h Hh Hin (or_intror Hlo)) in Hn.
Qed.

(** X7. On a text without a port delimiter the strict IPv6 validator accepts
    exactly when the conversion returns and the text has eight hextets. *)
Theorem ipv6_validator_agrees_with_codec (address : string) :
  Py.contains "]:" address = false ->
  (_ipv6_validator (VStr address) true = Ok true <->
   exists hs n,
     hextets address = Some hs /\ length hs = 8%nat /\ _ipv6_to_num address = Ok n).
Proof.
  intros Hplain. split.
  - intros H.
    destruct (ipv6_validator_true address true H) as (a0 & port & hs & Hs & Hh & Hl & Hr & _).
    rewrite (split_no_sep "]:" address Hplain) in Hs. injection Hs as <- <-.
    cbn [Py.nonempty_list] in Hh. specialize (Hr eq_refl). apply hextets_in_range in Hr.
    exists hs, (weighted_total 16 0 (rev hs) 0).
    split; [exact Hh|]. split; [exact Hl|]. now apply ipv6_to_num_eight.
  - intros (hs & n & Hh & Hl & Hn).
    now apply (ipv6_validator_accepts_eight address hs n).
Qed.

Lemma ipv6_validator_agrees_with_codec_witness :
  (_ipv6_validator (VStr "fe80::1") true = Ok true <->
   exists hs n,
     hextets "fe80::1" = Some hs /\ length hs = 8%nat /\ _ipv6_to_num "fe80::1" = Ok n).
Proof. apply (ipv6_validator_agrees_with_codec "fe80::1"). reflexivity. Defined.

(** ** From an integer to text and back *)

(** Putting back together what [divmod] took apart. *)
Lemma weighted_divmod (bits : Z) (count : nat) :
  0 <= bits ->
  forall num,
    weighted_total bits 0 (divmod_segments count (2 ^ bits) num) 0
    = num mod 2 ^ (bits * Z.of_nat count).
Proof.
  intros Hb. assert (HB : 0 < 2 ^ bits) by (apply Z.pow_pos_nonneg; lia).
  induction count as [|k IH]; intros num.
  - cbn [divmod_segments weighted_total]. rewrite Z.mul_0_r, Z.pow_0_r. now rewrite Z.mod_1_r.
  - cbn [divmod_segments]. rewrite weighted_total_cons, IH by lia.
    replace (bits * Z.of_nat (S k)) with (bits + bits * Z.of_nat k) by lia.
    rewrite Z.pow_add_r by nia.
    rewrite Z.rem_mul_r; [reflexivity | lia | apply Z.pow_pos_nonneg; nia].
Qed.

(** The text [_num_to_ipv4] writes, as four decimal numerals. *)
Lemma num_to_ipv4_text (num : Z) :
  let segments := rev (divmod_segments 4 256 num) in
  _num_to_ipv4 num = Py.join "." (map Py.str_int segments) /\
  Forall (fun x => 0 <= x < 256) segments /\
  length segments = 4%nat /\
  Py.split (_num_to_ipv4 num) "." = map Py.str_int segments.
Proof.
  intros segments.
  assert (Hall : Forall (fun x => 0 <= x < 256) segments).
  { apply Forall_rev, divmod_segments_range. lia. }
  assert (Hlen : length segments = 4%nat).
  { unfold segments. now rewrite length_rev, divmod_segments_length. }
  split; [reflexivity|]. split; [exact Hall|]. split; [exact Hlen|].
  change (_num_to_ipv4 num) with (Py.join "." (map Py.str_int segments)).
  apply split_join_char.
  - intros E. apply (f_equal (@length _)) in E. rewrite length_map, Hlen in E. discriminate.
  - apply Forall_forall. intros g Hg. apply in_map_iff in Hg as (x & <- & Hx).
    rewrite Forall_forall in Hall. apply octet_text. specialize (Hall x Hx). lia.
Qed.

Lemma ipv4_to_num_of_num (num : Z) :
  _ipv4_to_num (_num_to_ipv4 num) = Ok (num mod 2 ^ 32).
Proof.
  destruct (num_to_ipv4_text num) as (_ & Hall & _ & Hsplit).
  unfold _ipv4_to_num. rewrite Hsplit, (read_octets _ Hall). cbn [bind].
  rewrite rev_involutive. f_equal. apply (weighted_divmod 8 4). lia.
Qed.

Lemma ipv4_validator_of_num (num : Z) :
  _ipv4_validator (VStr (_num_to_ipv4 num)) true = Ok true.
Proof.
  destruct (num_to_ipv4_text num) as (_ & Hall & Hlen & Hsplit).
  set (segments := rev (divmod_segments 4 256 num)) in *.
  assert (Hmap : map_result (fun seg => Py.int seg 10) (Py.split (_num_to_ipv4 num) ".")
                 = Ok segments).
  { rewrite Hsplit. now apply read_octets. }
  destruct (four_integers_shape _ segments Hmap Hlen) as [Hdot Hcolon].
  cbn [_ipv4_validator]. rewrite Hdot, Hcolon. cbn [negb validate_port_part].
  rewrite Hmap. cbn [try_ValueError]. rewrite Hlen.
  change (negb (Z.of_nat 4 =? IPV4_MAX_SEGMENT_COUNT)) with false. cbv iota.
  replace (forallb ipv4_segment_in_range segments) with true; [reflexivity|].
  symmetry. apply forallb_forall. intros x Hx. rewrite Forall_forall in Hall.
  specialize (Hall x Hx).
  unfold ipv4_segment_in_range, IPV4_MIN_SEGMENT_VALUE, IPV4_MAX_SEGMENT_VALUE.
  apply andb_true_iff. rewrite !Z.leb_le. lia.
Qed.

(** X8. Every integer written by [_num_to_ipv4] is read back by [_ipv4_to_num]
    as its low 32 bits (as itself when it is within the IPv4 range), and
    the text is strictly valid whatever the integer. *)
Theorem ipv4_num_round_trip (num : Z) :
  _ipv4_to_num (_num_to_ipv4 num) = Ok (num mod 2 ^ 32) /\
  (IPV4_MIN_VALUE <= num <= IPV4_MAX_VALUE -> _ipv4_to_num (_num_to_ipv4 num) = Ok num) /\
  _ipv4_validator (VStr (_num_to_ipv4 num)) true = Ok true.
Proof.
  pose proof (ipv4_to_num_of_num num) as H.
  split; [exact H|]. split; [|apply ipv4_validator_of_num].
  intros Hr. rewrite H. f_equal. apply Z.mod_small.
  unfold IPV4_MIN_VALUE, IPV4_MAX_VALUE in Hr. lia.
Qed.

Lemma ipv4_num_round_trip_witness :
  _ipv4_to_num (_num_to_ipv4 3232235521) = Ok 3232235521.
Proof.
  destruct (ipv4_num_round_trip 3232235521) as (_ & H & _).
  apply H. unfold IPV4_MIN_VALUE, IPV4_MAX_VALUE. lia.
Defined.

Lemma upper_hex_digit_no_bracket (c : ascii) :
  is_upper_hex_digit c = true -> Ascii.eqb "]" c = false.
Proof.
  destruct c as [[] [] [] [] [] [] [] []]; vm_compute; intros H; congruence.
Qed.

Lemma upper_hex_char_digit (d : Z) :
  0 <= d < 16 ->
  is_upper_hex_digit (upper_hex_char d) = true /\ Py.digit_value (upper_hex_char d) = d.
Proof.
  intros Hd.
  assert (H : d = 0 \/ d = 1 \/ d = 2 \/ d = 3 \/ d = 4 \/ d = 5 \/ d = 6 \/ d = 7 \/
              d = 8 \/ d = 9 \/ d = 10 \/ d = 11 \/ d = 12 \/ d = 13 \/ d = 14 \/ d = 15)
    by lia.
  repeat (destruct H as [->|H]; [split; reflexivity|]). subst d. split; reflexivity.
Qed.

(** The four digits of a hextet are a hextet written in full, of the same
    value. *)
Lemma four_digits_padded (v : Z) :
  0 <= v < 65536 ->
  padded_hextet (four_digits v) = true /\ hex_value 0 (four_digits v) = v.
Proof.
  intros Hv.
  assert (H1 : 0 <= v / 4096 < 16) by (Z.div_mod_to_equations; lia).
  assert (H2 : 0 <= (v / 256) mod 16 < 16) by (apply Z.mod_pos_bound; lia).
  assert (H3 : 0 <= (v / 16) mod 16 < 16) by (apply Z.mod_pos_bound; lia).
  assert (H4 : 0 <= v mod 16 < 16) by (apply Z.mod_pos_bound; lia).
  destruct (upper_hex_char_digit _ H1) as [U1 D1].
  destruct (upper_hex_char_digit _ H2) as [U2 D2].
  destruct (upper_hex_char_digit _ H3) as [U3 D3].
  destruct (upper_hex_char_digit _ H4) as [U4 D4].
  unfold four_digits, padded_hextet. cbn [String.length Nat.eqb all_chars hex_value andb].
  rewrite U1, U2, U3, U4, D1, D2, D3, D4. split; [reflexivity|].
  Z.div_mod_to_equations. lia.
Qed.

Lemma four_digits_piece (v : Z) :
  0 <= v < 65536 ->
  plain_piece (four_digits v) /\ has_char "]" (four_digits v) = false /\
  parse_hextet (four_digits v) = Ok v.
Proof.
  intros Hv. destruct (four_digits_padded v Hv) as [Hp Hval].
  destruct (parse_padded_hextet _ Hp) as (Hparse & _ & _ & Hcolon).
  rewrite Hval in Hparse. split; [split; [exact Hcolon | reflexivity]|]. split; [|exact Hparse].
  destruct (padded_hextet_shape _ Hp) as (c1 & c2 & c3 & c4 & -> & U1 & U2 & U3 & U4).
  cbn [has_char].
  now rewrite !upper_hex_digit_no_bracket by assumption.
Qed.

Lemma hextet_text_piece (v : Z) :
  0 <= v < 65536 ->
  plain_piece (hextet_text v) /\ has_char "]" (hextet_text v) = false /\
  parse_hextet (hextet_text v) = Ok v.
Proof.
  intros Hv. destruct (hextet_render v Hv) as (H1 & _ & H3 & H4 & H5).
  split; [split; assumption|]. split; [assumption|].
  unfold parse_hextet. now rewrite H1.
Qed.

(** Eight hextets, each written so that it reads back as itself, joined by
    colons most significant first. *)
Lemma ipv6_to_num_rendered (render : Z -> string) (vs : list Z) :
  length vs = 8%nat ->
  Forall (fun v => 0 <= v < 65536) vs ->
  (forall v, 0 <= v < 65536 ->
             plain_piece (render v) /\ has_char "]" (render v) = false /\
             parse_hextet (render v) = Ok v) ->
  let text := Py.join ":" (rev (map render vs)) in
  hextets text = Some (rev vs) /\
  Py.contains "]:" text = false /\
  _ipv6_to_num text = Ok (weighted_total 16 0 vs 0).
Proof.
  intros Hlen Hvs Hrender text.
  set (pieces := rev (map render vs)).
  assert (Hpieces : forall g, In g pieces -> plain_piece g /\ has_char "]" g = false).
  { intros g Hg. unfold pieces in Hg. apply in_rev in Hg.
    apply in_map_iff in Hg as (x & <- & Hx). rewrite Forall_forall in Hvs.
    destruct (Hrender x (Hvs x Hx)) as (H1 & H2 & _). auto. }
  assert (Hpne : pieces <> []).
  { intros H. apply (f_equal (@length _)) in H. unfold pieces in H.
    rewrite length_rev, length_map, Hlen in H. discriminate. }
  assert (Hskip : zero_skip_segments text = Some pieces).
  { apply zero_skip_segments_join; [exact Hpne|].
    apply Forall_forall. intros g Hg. now apply Hpieces. }
  assert (Hread : forall l, Forall (fun v => 0 <= v < 65536) l ->
                            map_result parse_hextet (map render l) = Ok l).
  { induction 1 as [|x r Hx Hr IH]; [reflexivity|].
    cbn [map map_result]. destruct (Hrender x Hx) as (_ & _ & ->). now rewrite IH. }
  assert (Hparse : map_result parse_hextet pieces = Ok (rev vs)).
  { unfold pieces. apply map_result_rev. now apply Hread. }
  assert (Hh : hextets text = Some (rev vs)).
  { unfold hextets. now rewrite Hskip, Hparse. }
  split; [exact Hh|]. split.
  - apply contains_first_char, has_char_join; [reflexivity|].
    apply Forall_forall. intros g Hg. now apply Hpieces.
  - rewrite (ipv6_to_num_eight text (rev vs) Hh).
    + now rewrite rev_involutive.
    + now rewrite length_rev.
    + apply Forall_rev. change (2 ^ 16) with 65536. exact Hvs.
Qed.

(** The text [_num_to_ipv6] writes without zero removal. *)
Lemma num_to_ipv6_text (num : Z) (shorten : bool) :
  _num_to_ipv6 num shorten false
  = Py.join ":" (rev (map (if shorten then hextet_text else four_digits)
                          (hextets_of_num num))).
Proof.
  unfold _num_to_ipv6, hextets_of_num.
  change (Z.to_nat IPV6_MAX_SEGMENT_COUNT) with 8%nat.
  change (IPV6_MAX_SEGMENT_VALUE + 1) with 65536.
  cbn [andb]. cbv iota. destruct shorten; cbn [negb]; cbv iota; [reflexivity|].
  change (Z.to_nat (IPV6_SEGMENT_BIT_COUNT / IPV6_NUMBER_BIT_COUNT)) with 4%nat.
  rewrite map_map. do 2 f_equal. apply map_ext_in. intros v Hv.
  assert (Hr : 0 <= v < 65536).
  { pose proof (divmod_segments_range 8 65536 ltac:(lia) num) as Hall.
    rewrite Forall_forall in Hall. now apply Hall. }
  destruct (hextet_render v Hr) as (-> & -> & _). reflexivity.
Qed.

Lemma ipv6_of_num (num : Z) (shorten : bool) :
  _ipv6_to_num (_num_to_ipv6 num shorten false) = Ok (num mod 2 ^ 128) /\
  _ipv6_validator (VStr (_num_to_ipv6 num shorten false)) true = Ok true.
Proof.
  rewrite num_to_ipv6_text.
  assert (Hvs : Forall (fun v => 0 <= v < 65536) (hextets_of_num num)).
  { apply divmod_segments_range. lia. }
  assert (Hlen : length (hextets_of_num num) = 8%nat) by apply divmod_segments_length.
  destruct (ipv6_to_num_rendered (if shorten then hextet_text else four_digits)
              (hextets_of_num num) Hlen Hvs) as (Hh & Hplain & Hnum).
  { intros v Hv. destruct shorten; [now apply hextet_text_piece | now apply four_digits_piece]. }
  assert (Hval : weighted_total 16 0 (hextets_of_num num) 0 = num mod 2 ^ 128).
  { apply (weighted_divmod 16 8). lia. }
  split; [now rewrite Hnum, Hval|].
  eapply ipv6_validator_accepts_eight; [exact Hplain | exact Hh | now rewrite length_rev | exact Hnum].
Qed.

(** An integer within [0, 2^bits - 1] is its own low [bits] bits. *)
Lemma low_bits_in_range (n bits : Z) (r : result Z) :
  0 <= n <= 2 ^ bits - 1 -> r = Ok (n mod 2 ^ bits) -> r = Ok n.
Proof. intros Hr ->. f_equal. apply Z.mod_small. lia. Qed.

(** X9. Without zero removal, every integer written by [_num_to_ipv6], short or
    in full, is read back by [_ipv6_to_num] as its low 128 bits (as itself
    when it is within the IPv6 range), and the text is strictly valid. *)
Theorem ipv6_num_round_trip (num : Z) (shorten : bool) :
  _ipv6_to_num (_num_to_ipv6 num shorten false) = Ok (num mod 2 ^ 128) /\
  (IPV6_MIN_VALUE <= num <= IPV6_MAX_VALUE ->
   _ipv6_to_num (_num_to_ipv6 num shorten false) = Ok num) /\
  _ipv6_validator (VStr (_num_to_ipv6 num shorten false)) true = Ok true.
Proof.
  destruct (ipv6_of_num num shorten) as [Hnum Hvalid].
  split; [exact Hnum|]. split; [|exact Hvalid].
  intros Hr. now apply (low_bits_in_range num 128).
Qed.

Lemma ipv6_num_round_trip_witness :
  _ipv6_to_num (_num_to_ipv6 (2 ^ 127 + 5) false false) = Ok (2 ^ 127 + 5).
Proof.
  destruct (ipv6_num_round_trip (2 ^ 127 + 5) false) as (_ & H & _).
  apply H. unfold IPV6_MIN_VALUE, IPV6_MAX_VALUE. lia.
Defined.

(** ** Rendering and comparing address objects *)

Lemma clamp_port_valid (p : option pyint) :
  valid_port_or_none (optional_int (clamp_port p)) = clamp_port p /\
  clamp_port (clamp_port p) = clamp_port p.
Proof.
  destruct p as [i|]; [|split; reflexivity].
  unfold clamp_port, optional_int, valid_port_or_none, port_in_range, Py.max2, Py.min2,
    PORT_NUMBER_MIN_VALUE, PORT_NUMBER_MAX_VALUE.
  cbn [int_val].
  destruct (Z.ltb_spec 0 (int_val i)) as [H0|H0].
  - destruct (Z.ltb_spec 65535 (int_val i)) as [H1|H1]; cbn [int_val].
    + split; reflexivity.
    + destruct (Z.leb_spec 0 (int_val i)); [|lia].
      destruct (Z.leb_spec (int_val i) 65535); [|lia]. cbn [andb].
      destruct (Z.ltb_spec 0 (int_val i)); [|lia].
      destruct (Z.ltb_spec 65535 (int_val i)); [lia|]. split; reflexivity.
  - cbn [int_val]. split; reflexivity.
Qed.

(** The family views of an object, as [as_ipv4] and [as_ipv6] build them. *)
Lemma as_ipv4_value (self : object) :
  as_ipv4 self
  = Ok (mkFamily (_num_to_ipv4 (num self)) (num self mod 2 ^ 32) (port self)).
Proof.
  unfold as_ipv4, IPv4_init.
  destruct (num_to_ipv4_text (num self)) as (_ & Hall & Hlen & Hsplit).
  set (segments := rev (divmod_segments 4 256 (num self))) in *.
  assert (Hmap : map_result (fun seg => Py.int seg 10) (Py.split (_num_to_ipv4 (num self)) ".")
                 = Ok segments).
  { rewrite Hsplit. now apply read_octets. }
  destruct (four_integers_shape _ segments Hmap Hlen) as [_ Hcolon].
  rewrite Hcolon. cbn [bind Py.nonempty_list].
  rewrite (ipv4_to_num_of_num (num self)). cbn [bind].
  rewrite IPAddress_init_slots_spec. cbn [bind]. unfold port.
  now rewrite (proj1 (clamp_port_valid (_port self))).
Qed.

Lemma as_ipv6_value (self : object) :
  as_ipv6 self
  = Ok (mkFamily (_num_to_ipv6 (num self) true false) (num self mod 2 ^ 128) (port self)).
Proof.
  unfold as_ipv6, IPv6_init.
  pose proof (ipv6_of_num (num self) true) as (Hnum & _).
  assert (Hplain : Py.contains "]:" (_num_to_ipv6 (num self) true false) = false).
  { rewrite num_to_ipv6_text.
    apply (ipv6_to_num_rendered hextet_text (hextets_of_num (num self))).
    - apply divmod_segments_length.
    - apply divmod_segments_range. lia.
    - intros v Hv. now apply hextet_text_piece. }
  rewrite (split_no_sep "]:" _ Hplain). cbn [bind Py.nonempty_list].
  rewrite Hnum. cbn [bind]. rewrite IPAddress_init_slots_spec. cbn [bind]. unfold port.
  now rewrite (proj1 (clamp_port_valid (_port self))).
Qed.

Lemma family_str_port (address : string) (n : Z) (p : option pyint) :
  IPv4_str (mkFamily address n (clamp_port p))
  = match clamp_port p with
    | Some q => (address ++ ":" ++ Py.str (VNum q))%string
    | None => address
    end /\
  IPv6_str (mkFamily address n (clamp_port p))
  = match clamp_port p with
    | Some q => ("[" ++ address ++ "]:" ++ Py.str (VNum q))%string
    | None => address
    end.
Proof.
  unfold IPv4_str, IPv6_str. cbn [fam_port fam_address].
  now rewrite (proj2 (clamp_port_valid p)).
Qed.

Lemma generic_object_str (n : Z) (p : option pyint) :
  let self := Generic n p None None in
  (num self <= IPV4_MAX_VALUE ->
   fst (object_str self)
   = Ok match port self with
        | Some q => (_num_to_ipv4 (num self) ++ ":" ++ Py.str (VNum q))%string
        | None => _num_to_ipv4 (num self)
        end) /\
  (IPV4_MAX_VALUE < num self <= IPV6_MAX_VALUE ->
   fst (object_str self)
   = Ok match port self with
        | Some q => ("[" ++ _num_to_ipv6 (num self) true false ++ "]:" ++ Py.str (VNum q))%string
        | None => _num_to_ipv6 (num self) true false
        end).
Proof.
  intros self.
  assert (Hnn : 0 <= num self) by (unfold num; lia).
  change (object_str self) with (IPAddress_str self None None). unfold IPAddress_str.
  rewrite as_ipv4_value, as_ipv6_value.
  destruct (Z.leb_spec (num self) IPV4_MAX_VALUE) as [H4|H4].
  - replace (IPV4_MIN_VALUE <=? num self) with true
      by (symmetry; apply Z.leb_le; unfold IPV4_MIN_VALUE; lia).
    cbn [andb fst snd]. split.
    + intros _. f_equal. apply (family_str_port _ _ (_port self)).
    + intros [Hlt _]. lia.
  - rewrite andb_false_r.
    destruct (Z.ltb_spec IPV4_MAX_VALUE (num self)) as [_|]; [|lia].
    destruct (Z.leb_spec (num self) IPV6_MAX_VALUE) as [H6|H6]; cbn [andb fst snd].
    + split; [intros; lia|]. intros _. f_equal. apply (family_str_port _ _ (_port self)).
    + split; intros; lia.
Qed.

(** X10. The text of a generic address that has not been rendered yet: the IPv4
    text of [num] up to the IPv4 maximum, above it the short IPv6 text
    without zero removal, with the port (if any) after a colon, the IPv6
    text then in brackets. Rendering again gives the same text and changes
    nothing more. *)
Theorem generic_address_text (n : Z) (p : option pyint) :
  let self := Generic n p None None in
  (num self <= IPV4_MAX_VALUE ->
   fst (object_str self)
   = Ok match port self with
        | Some q => (_num_to_ipv4 (num self) ++ ":" ++ Py.str (VNum q))%string
        | None => _num_to_ipv4 (num self)
        end) /\
  (IPV4_MAX_VALUE < num self <= IPV6_MAX_VALUE ->
   fst (object_str self)
   = Ok match port self with
        | Some q => ("[" ++ _num_to_ipv6 (num self) true false ++ "]:" ++ Py.str (VNum q))%string
        | None => _num_to_ipv6 (num self) true false
        end) /\
  object_str (snd (object_str self)) = (fst (object_str self), snd (object_str self)).
Proof.
  intros self. destruct (generic_object_str n p) as [Hv4 Hv6]. fold self in Hv4, Hv6.
  split; [exact Hv4|]. split; [exact Hv6|]. clear Hv4 Hv6.
  assert (Hnn : 0 <= num self) by (unfold num; lia).
  change (object_str self) with (IPAddress_str self None None). unfold IPAddress_str.
  rewrite as_ipv4_value, as_ipv6_value.
  destruct (Z.leb_spec (num self) IPV4_MAX_VALUE) as [H4|H4].
  - replace (IPV4_MIN_VALUE <=? num self) with true
      by (symmetry; apply Z.leb_le; unfold IPV4_MIN_VALUE; lia).
    cbn [andb fst snd set_ipv4 self object_str]. unfold IPAddress_str.
    change (num (Generic n p (Some _) None)) with (num self).
    replace (IPV4_MIN_VALUE <=? num self) with true
      by (symmetry; apply Z.leb_le; unfold IPV4_MIN_VALUE; lia).
    replace (num self <=? IPV4_MAX_VALUE) with true by (symmetry; now apply Z.leb_le).
    reflexivity.
  - rewrite andb_false_r.
    destruct (Z.ltb_spec IPV4_MAX_VALUE (num self)) as [_|]; [|lia].
    destruct (Z.leb_spec (num self) IPV6_MAX_VALUE) as [H6|H6]; cbn [andb fst snd].
    + cbn [set_ipv6 self object_str]. unfold IPAddress_str.
      change (num (Generic n p None (Some _))) with (num self).
      replace (num self <=? IPV4_MAX_VALUE) with false by (symmetry; apply Z.leb_gt; lia).
      rewrite andb_false_r.
      replace (IPV4_MAX_VALUE <? num self) with true by (symmetry; apply Z.ltb_lt; lia).
      replace (num self <=? IPV6_MAX_VALUE) with true by (symmetry; now apply Z.leb_le).
      reflexivity.
    + change (object_str self) with (IPAddress_str self None None). unfold IPAddress_str.
      replace (num self <=? IPV4_MAX_VALUE) with false by (symmetry; apply Z.leb_gt; lia).
      rewrite andb_false_r.
      replace (num self <=? IPV6_MAX_VALUE) with false by (symmetry; apply Z.leb_gt; lia).
      rewrite andb_false_r. reflexivity.
Qed.

Lemma generic_address_text_witness :
  fst (object_str (Generic 3232235521 (Some (PInt 8080)) None None))
  = Ok "192.168.0.1:8080" /\
  fst (object_str (Generic (2 ^ 32) (Some (PInt 443)) None None))
  = Ok "[0:0:0:0:0:1:0:0]:443".
Proof.
  destruct (generic_address_text 3232235521 (Some (PInt 8080))) as (H4 & _ & _).
  destruct (generic_address_text (2 ^ 32) (Some (PInt 443))) as (_ & H6 & _).
  split.
  - apply H4. vm_compute. discriminate.
  - apply H6. vm_compute. split; [reflexivity | discriminate].
Defined.

(** X11. Once a generic address has been rendered, assigning another port does
    not change its text any more: [__str__] reads the view it kept. *)
Theorem rendered_text_ignores_port_setter (n : Z) (p : option pyint)
    (c4 c6 : option family_instance) (value : pyval) (text : string) :
  let self := Generic n p c4 c6 in
  fst (object_str self) = Ok text ->
  fst (object_str (snd (port_setter (snd (object_str self)) value))) = Ok text.
Proof.
  intros self H. change (object_str self) with (IPAddress_str self c4 c6) in *.
  unfold IPAddress_str in *.
  change (num self) with (Z.max 0 n) in *.
  assert (Hkeep : forall c4' c6',
            snd (port_setter (Generic n p c4' c6') value)
            = Generic n (_port (snd (port_setter (Generic n p c4' c6') value))) c4' c6').
  { intros c4' c6'. destruct value as [|i|s|t]; cbn [port_setter snd]; try reflexivity.
    destruct (port_in_range (int_val i)); reflexivity. }
  destruct ((IPV4_MIN_VALUE <=? Z.max 0 n) && (Z.max 0 n <=? IPV4_MAX_VALUE)) eqn:E4.
  - assert (Hc : exists c, snd (match c4 with
                                | Some c => (Ok (IPv4_str c), self)
                                | None => match as_ipv4 self with
                                          | Ok c => (Ok (IPv4_str c), set_ipv4 self c)
                                          | Raise e => (Raise e, self)
                                          end
                                end) = Generic n p (Some c) c6 /\ text = IPv4_str c).
    { destruct c4 as [c|].
      - cbn [fst] in H. injection H as <-. now exists c.
      - destruct (as_ipv4 self) as [c|e]; cbn [fst] in H; [|discriminate].
        injection H as <-. now exists c. }
    destruct Hc as (c & -> & ->). rewrite Hkeep. cbn [object_str]. unfold IPAddress_str.
    change (num (Generic n _ (Some c) c6)) with (Z.max 0 n). now rewrite E4.
  - destruct ((IPV4_MAX_VALUE <? Z.max 0 n) && (Z.max 0 n <=? IPV6_MAX_VALUE)) eqn:E6;
      [|discriminate H].
    assert (Hc : exists c, snd (match c6 with
                                | Some c => (Ok (IPv6_str c), self)
                                | None => match as_ipv6 self with
                                          | Ok c => (Ok (IPv6_str c), set_ipv6 self c)
                                          | Raise e => (Raise e, self)
                                          end
                                end) = Generic n p c4 (Some c) /\ text = IPv6_str c).
    { destruct c6 as [c|].
      - cbn [fst] in H. injection H as <-. now exists c.
      - destruct (as_ipv6 self) as [c|e]; cbn [fst] in H; [|discriminate].
        injection H as <-. now exists c. }
    destruct Hc as (c & -> & ->). rewrite Hkeep. cbn [object_str]. unfold IPAddress_str.
    change (num (Generic n _ c4 (Some c))) with (Z.max 0 n). now rewrite E4, E6.
Qed.

Lemma rendered_text_ignores_port_setter_witness :
  fst (object_str (snd (port_setter (snd (object_str (Generic 1 (Some (PInt 80)) None None)))
                                    (VNum (PInt 81)))))
  = Ok "0.0.0.1:80" /\
  port (snd (port_setter (snd (object_str (Generic 1 (Some (PInt 80)) None None)))
                         (VNum (PInt 81)))) = Some (PInt 81).
Proof.
  split; [|reflexivity].
  apply (rendered_text_ignores_port_setter 1 (Some (PInt 80)) None None (VNum (PInt 81))).
  reflexivity.
Defined.

(** ** Numerals *)

Lemma scan_digit_step (base : Z) (c : ascii) (t : string) (acc : Z) :
  Ascii.eqb c "_" = false ->
  (Py.digit_value c <? base) = true ->
  Py.scan_digits base false acc (String c t)
  = Py.scan_digits base false (acc * base + Py.digit_value c) t.
Proof. intros H1 H2. cbn [Py.scan_digits]. now rewrite H1, H2. Qed.

Ltac scan_one_digit IH :=
  rewrite scan_digit_step by reflexivity;
  match goal with
  | |- context [Py.digit_value ?c] =>
      let k := eval vm_compute in (Py.digit_value c) in
      change (Py.digit_value c) with k
  end;
  rewrite <- IH; f_equal; lia.

Lemma scan_decimal_acc (d : Decimal.uint) (acc : positive) :
  Py.scan_digits 10 false (Z.pos acc) (DecimalString.NilEmpty.string_of_uint d)
  = Some (Z.pos (Pos.of_uint_acc d acc), EmptyString).
Proof.
  revert acc.
  induction d as [|d IH|d IH|d IH|d IH|d IH|d IH|d IH|d IH|d IH|d IH]; intros acc;
    cbn [DecimalString.NilEmpty.string_of_uint Pos.of_uint_acc];
    [reflexivity | scan_one_digit IH ..].
Qed.

Lemma scan_decimal (d : Decimal.uint) :
  Py.scan_digits 10 false 0 (DecimalString.NilEmpty.string_of_uint d)
  = Some (Z.of_N (Pos.of_uint d), EmptyString).
Proof.
  induction d as [|d IH|d IH|d IH|d IH|d IH|d IH|d IH|d IH|d IH|d IH];
    cbn [DecimalString.NilEmpty.string_of_uint Pos.of_uint];
    [reflexivity | rewrite scan_digit_step by reflexivity; exact IH
     | rewrite scan_digit_step by reflexivity; apply scan_decimal_acc ..].
Qed.

(** The numeral of a positive number: its text starts with a digit and is
    read as the number. *)
Lemma decimal_numeral (p : positive) :
  let text := DecimalString.NilZero.string_of_uint (Pos.to_uint p) in
  Py.scan_digits 10 false 0 text = Some (Z.pos p, EmptyString) /\
  exists c rest, text = String c rest /\ (Py.digit_value c <? 10) = true /\
                 Py.is_space c = false /\ Ascii.eqb c "+" = false /\ Ascii.eqb c "-" = false.
Proof.
  intros text. unfold text.
  pose proof (DecimalPos.Unsigned.of_to p) as Hof.
  pose proof (DecimalPos.Unsigned.to_uint_nonnil p) as Hnn.
  destruct (Pos.to_uint p) as [|d|d|d|d|d|d|d|d|d|d] eqn:E; [congruence|..];
    unfold DecimalString.NilZero.string_of_uint; cbv beta iota;
    (split; [rewrite scan_decimal, Hof; reflexivity
            | cbn [DecimalString.NilEmpty.string_of_uint];
              eexists _, _; repeat split ]).
Qed.

(** [int(str(n)) == n] for every integer. *)
Lemma int_str_int (n : Z) : Py.int (Py.str_int n) 10 = Ok n.
Proof.
  unfold Py.str_int, Z.to_int. destruct n as [|p|p].
  - reflexivity.
  - cbn [DecimalString.NilZero.string_of_int].
    destruct (decimal_numeral p) as (Hscan & c & rest & Htext & Hd & Hs & Hp & Hm).
    unfold Py.int. rewrite Htext in *. cbn [Py.lstrip]. rewrite Hs.
    unfold Py.split_sign. rewrite Hp, Hm.
    assert (Hskip : Py.skip_radix_prefix 10 (String c rest) = String c rest).
    { unfold Py.skip_radix_prefix. destruct rest; reflexivity. }
    rewrite Hskip, Hd, Hscan. reflexivity.
  - cbn [DecimalString.NilZero.string_of_int].
    destruct (decimal_numeral p) as (Hscan & c & rest & Htext & Hd & Hs & Hp & Hm).
    unfold Py.int. cbn [Py.lstrip]. change (Py.is_space "-") with false. cbv iota.
    unfold Py.split_sign. change (Ascii.eqb "-" "+") with false.
    change (Ascii.eqb "-" "-") with true. cbv iota. rewrite Htext in *.
    assert (Hskip : Py.skip_radix_prefix 10 (String c rest) = String c rest).
    { unfold Py.skip_radix_prefix. destruct rest; reflexivity. }
    rewrite Hskip, Hd, Hscan. reflexivity.
Qed.

Ltac scan_one_hex_digit IH :=
  match goal with
  | |- context [Py.upper_char ?c] =>
      let c' := eval vm_compute in (Py.upper_char c) in
      change (Py.upper_char c) with c'
  end;
  scan_one_digit IH.

Lemma scan_hex_acc (d : Hexadecimal.uint) (acc : positive) :
  Py.scan_digits 16 false (Z.pos acc)
    (Py.upper (HexadecimalString.NilEmpty.string_of_uint d))
  = Some (Z.pos (Pos.of_hex_uint_acc d acc), EmptyString).
Proof.
  revert acc.
  induction d as [|d IH|d IH|d IH|d IH|d IH|d IH|d IH|d IH|d IH|d IH
                  |d IH|d IH|d IH|d IH|d IH|d IH]; intros acc;
    cbn [HexadecimalString.NilEmpty.string_of_uint Pos.of_hex_uint_acc Py.upper];
    [reflexivity | scan_one_hex_digit IH ..].
Qed.

Lemma scan_hex (d : Hexadecimal.uint) :
  Py.scan_digits 16 false 0 (Py.upper (HexadecimalString.NilEmpty.string_of_uint d))
  = Some (Z.of_N (Pos.of_hex_uint d), EmptyString).
Proof.
  induction d as [|d IH|d IH|d IH|d IH|d IH|d IH|d IH|d IH|d IH|d IH
                  |d IH|d IH|d IH|d IH|d IH|d IH];
    cbn [HexadecimalString.NilEmpty.string_of_uint Pos.of_hex_uint Py.upper];
    [reflexivity | ..];
    match goal with
    | |- context [Py.upper_char ?c] =>
        let c' := eval vm_compute in (Py.upper_char c) in
        change (Py.upper_char c) with c'
    end;
    rewrite scan_digit_step by reflexivity;
    [exact IH | apply scan_hex_acc ..].
Qed.

(** The upper-case hexadecimal digits of a natural number: the text starts
    with a digit other than an underscore and is read as the number. *)
Lemma hex_numeral (n : N) :
  let text := Py.upper (HexadecimalString.NilZero.string_of_uint (N.to_hex_uint n)) in
  Py.scan_digits 16 false 0 text = Some (Z.of_N n, EmptyString) /\
  exists c rest, text = String c rest /\ (Py.digit_value c <? 16) = true /\
                 Ascii.eqb c "_" = false.
Proof.
  intros text. unfold text.
  pose proof (HexadecimalN.Unsigned.of_to n) as Hof. unfold N.of_hex_uint in Hof.
  assert (Hnn : N.to_hex_uint n <> Hexadecimal.Nil).
  { destruct n as [|p]; [discriminate | apply HexadecimalPos.Unsigned.to_uint_nonnil]. }
  destruct (N.to_hex_uint n) as [|d|d|d|d|d|d|d|d|d|d|d|d|d|d|d|d] eqn:E; [congruence|..];
    unfold HexadecimalString.NilZero.string_of_uint; cbv beta iota;
    (split; [rewrite scan_hex, Hof; reflexivity
            | cbn [HexadecimalString.NilEmpty.string_of_uint Py.upper];
              eexists _, _; repeat split ]).
Qed.

(** X12. The text of [as_hex] is read back by [int(..., 16)] as [num]. *)
Theorem as_hex_round_trip (self : object) : Py.int (as_hex self) 16 = Ok (num self).
Proof.
  unfold as_hex, format_X.
  assert (Hnn : 0 <= num self) by (unfold num; lia).
  destruct (Z.ltb_spec (num self) 0) as [|_]; [lia|].
  destruct (hex_numeral (Z.abs_N (num self))) as (Hscan & c & rest & Htext & Hd & Hu).
  cbn [append]. rewrite Htext in *.
  unfold Py.int. cbn [Py.lstrip]. change (Py.is_space "0") with false. cbv iota.
  unfold Py.split_sign. change (Ascii.eqb "0" "+") with false.
  change (Ascii.eqb "0" "-") with false. cbv iota.
  unfold Py.skip_radix_prefix. change (16 =? 16) with true.
  change (Ascii.eqb "0" "0") with true. change (Ascii.eqb "x" "x") with true.
  cbn [andb orb]. cbv iota. rewrite Hu, Hd, Hscan. cbn [Py.all_space].
  f_equal. rewrite N2Z.inj_abs_N. lia.
Qed.

(** ** Equality between address objects *)

Lemma ne_outcome_spec (self : object) (other : operand) :
  ne_outcome self other = (b <- eq_outcome self other ;; Ok (negb b)).
Proof.
  unfold ne_outcome, eq_outcome, PureAddress_ne.
  now destruct (PureAddress_eq self other) as [[r self'] other'].
Qed.

Lemma port_eqb_sym (a b : option pyint) : port_eqb a b = port_eqb b a.
Proof. destruct a, b; cbn [port_eqb]; try reflexivity. apply Z.eqb_sym. Qed.

(** X13. On address objects whose [num] is within the IPv6 range, [==] never
    raises, every object equals itself, the order of the operands does not
    matter, and [!=] is the opposite of [==]. *)
Theorem equality_is_reflexive_and_symmetric (a b : object) :
  num a <= IPV6_MAX_VALUE ->
  num b <= IPV6_MAX_VALUE ->
  eq_outcome a (OObj a) = Ok true /\
  (exists r, eq_outcome a (OObj b) = Ok r /\
             eq_outcome b (OObj a) = Ok r /\
             ne_outcome a (OObj b) = Ok (negb r)).
Proof.
  intros Ha Hb.
  destruct (object_str_total a Ha) as [sa Hsa]. destruct (object_str_total b Hb) as [sb Hsb].
  split.
  - rewrite (eq_outcome_objects a a sa sa Hsa Hsa). now rewrite String.eqb_refl.
  - eexists. split; [apply (eq_outcome_objects a b sa sb Hsa Hsb)|]. split.
    + rewrite (eq_outcome_objects b a sb sa Hsb Hsa).
      now rewrite String.eqb_sym, Z.eqb_sym, port_eqb_sym.
    + rewrite ne_outcome_spec, (eq_outcome_objects a b sa sb Hsa Hsb). reflexivity.
Qed.

Lemma equality_is_reflexive_and_symmetric_witness :
  eq_outcome (V4 (mkFamily "010.0.0.1" 167772161 None)) (OObj (V4 (mkFamily "010.0.0.1" 167772161 None)))
  = Ok true /\
  (exists r, eq_outcome (V4 (mkFamily "010.0.0.1" 167772161 None))
                        (OObj (Generic 167772161 None None None)) = Ok r /\
             eq_outcome (Generic 167772161 None None None)
                        (OObj (V4 (mkFamily "010.0.0.1" 167772161 None))) = Ok r /\
             ne_outcome (V4 (mkFamily "010.0.0.1" 167772161 None))
                        (OObj (Generic 167772161 None None None)) = Ok (negb r)).
Proof.
  apply (equality_is_reflexive_and_symmetric
           (V4 (mkFamily "010.0.0.1" 167772161 None)) (Generic 167772161 None None None));
    vm_compute; discriminate.
Defined.

(** X14. The generic constructor takes any integer. Above the IPv6 maximum the
    object is built, but [str()], [repr()], [==] and [!=] on it raise
    [ValueError]; below zero [num] reads 0, [as_hex] is "0x0" and the text
    of the object starts with "0.0.0.0". *)
Theorem generic_address_outside_the_range (n : Z) (port_num : pyval) :
  exists self,
    IPAddress_new CIPAddress (AInt n) port_num = Ok self /\
    _num self = n /\
    (IPV6_MAX_VALUE < n ->
     fst (object_str self) = Raise ValueError /\
     fst (IPAddress_repr self) = Raise ValueError /\
     forall other, eq_outcome self other = Raise ValueError /\
                   ne_outcome self other = Raise ValueError) /\
    (n < 0 ->
     num self = 0 /\ as_hex self = "0x0" /\
     exists text, fst (object_str self) = Ok text /\ prefix "0.0.0.0" text = true).
Proof.
  exists (Generic n (valid_port_or_none port_num) None None).
  split.
  { unfold IPAddress_new, IPAddress_init. rewrite IPAddress_init_slots_spec. reflexivity. }
  split; [reflexivity|]. split.
  - intros Hn.
    pose proof (object_str_out_of_range n (valid_port_or_none port_num) None None Hn) as Hs.
    split; [exact Hs|]. split.
    + unfold IPAddress_repr. destruct (object_str _) as [r self']. cbn [fst] in *. now subst r.
    + intros other.
      assert (He : eq_outcome (Generic n (valid_port_or_none port_num) None None) other
                   = Raise ValueError).
      { unfold eq_outcome, PureAddress_eq. destruct (object_str _) as [r self'].
        cbn [fst] in Hs. now subst r. }
      split; [exact He|]. now rewrite ne_outcome_spec, He.
  - intros Hn.
    assert (Hnum : num (Generic n (valid_port_or_none port_num) None None) = 0)
      by (unfold num; cbn [_num]; lia).
    split; [exact Hnum|]. split.
    + unfold as_hex. now rewrite Hnum.
    + destruct (generic_object_str n (valid_port_or_none port_num)) as (H4 & _).
      cbv zeta in H4. rewrite Hnum in H4. rewrite H4 by (vm_compute; discriminate).
      eexists. split; [reflexivity|]. now destruct (port _).
Qed.

Lemma generic_address_outside_the_range_witness :
  (exists self,
      IPAddress_new CIPAddress (AInt (2 ^ 128)) VNone = Ok self /\
      fst (object_str self) = Raise ValueError) /\
  (exists self,
      IPAddress_new CIPAddress (AInt (-5)) VNone = Ok self /\
      num self = 0 /\ as_hex self = "0x0").
Proof.
  split.
  - destruct (generic_address_outside_the_range (2 ^ 128) VNone)
      as (self & Hnew & _ & Hbig & _).
    exists self. split; [exact Hnew|]. apply Hbig. vm_compute. reflexivity.
  - destruct (generic_address_outside_the_range (-5) VNone)
      as (self & Hnew & _ & _ & Hneg).
    exists self. split; [exact Hnew|]. split; apply Hneg; lia.
Defined.

(** X15. A family object built from a text without a port keeps that text as it
    is: it renders as the very text it was given, and equals it. *)
Theorem family_text_is_kept (s : string) (f : family_instance) :
  (has_char ":" s = false -> IPv4_init (Some s) VNone = Ok f ->
   fam_address f = s /\ fam_port f = None /\
   fst (object_str (V4 f)) = Ok s /\ eq_outcome (V4 f) (OVal (VStr s)) = Ok true) /\
  (Py.contains "]:" s = false -> IPv6_init (Some s) VNone = Ok f ->
   fam_address f = s /\ fam_port f = None /\
   fst (object_str (V6 f)) = Ok s /\ eq_outcome (V6 f) (OVal (VStr s)) = Ok true).
Proof.
  split.
  - intros Hc H. unfold IPv4_init in H.
    rewrite (split_no_sep ":" s) in H by (now rewrite contains_char).
    cbn [bind Py.nonempty_list] in H. step_bind H.
    rewrite IPAddress_init_slots_spec in H. cbn [bind] in H. injection H as <-.
    repeat split. unfold eq_outcome. cbn. now rewrite String.eqb_refl.
  - intros Hc H. unfold IPv6_init in H. rewrite (split_no_sep "]:" s Hc) in H.
    cbn [bind Py.nonempty_list] in H. step_bind H.
    rewrite IPAddress_init_slots_spec in H. cbn [bind] in H. injection H as <-.
    repeat split. unfold eq_outcome. cbn. now rewrite String.eqb_refl.
Qed.

Lemma family_text_is_kept_witness :
  (fam_address (mkFamily "001.2.3.4" 16909060 None) = "001.2.3.4" /\
   fam_port (mkFamily "001.2.3.4" 16909060 None) = None /\
   fst (object_str (V4 (mkFamily "001.2.3.4" 16909060 None))) = Ok "001.2.3.4" /\
   eq_outcome (V4 (mkFamily "001.2.3.4" 16909060 None)) (OVal (VStr "001.2.3.4")) = Ok true) /\
  (fam_address (mkFamily "::0Ff" 255 None) = "::0Ff" /\
   fam_port (mkFamily "::0Ff" 255 None) = None /\
   fst (object_str (V6 (mkFamily "::0Ff" 255 None))) = Ok "::0Ff" /\
   eq_outcome (V6 (mkFamily "::0Ff" 255 None)) (OVal (VStr "::0Ff")) = Ok true).
Proof.
  split.
  - apply (proj1 (family_text_is_kept "001.2.3.4" _)); reflexivity.
  - apply (proj2 (family_text_is_kept "::0Ff" _)); reflexivity.
Defined.

(** ** From an object to its text and back *)

(** An integer literal holds no foreign character. *)
Lemma numeral_has_no_foreign (c : ascii) (s : string) (base v : Z) :
  foreign c = true -> base <= 36 -> Py.int s base = Ok v -> has_char c s = false.
Proof.
  intros Hf Hb Hi. destruct (has_char c s) eqn:E; [|reflexivity].
  rewrite (int_foreign c Hf s base Hb E) in Hi. discriminate.
Qed.

Lemma prefix_app (s b : string) : prefix s (s ++ b) = true.
Proof.
  induction s as [|c s IH]; [now destruct b|].
  cbn [append prefix]. destruct (ascii_dec c c); [exact IH | congruence].
Qed.

Lemma split_bracket (a b : string) :
  has_char "]" a = false ->
  has_char "]" b = false ->
  Py.split (a ++ "]:" ++ b) "]:" = [a; b].
Proof.
  intros Ha Hb. unfold Py.split. induction a as [|c a IH].
  - change ("" ++ "]:" ++ b)%string with (String "]" (String ":" b)).
    cbn [Py.split_from]. change (String "]" (String ":" b)) with ("]:" ++ b)%string.
    rewrite prefix_app. cbn [String.length Nat.sub append Py.split_from]. f_equal.
    apply (split_no_sep "]:" b). now apply contains_first_char.
  - cbn [has_char] in Ha. apply orb_false_iff in Ha as [Hc Ha].
    change (String c a ++ "]:" ++ b)%string with (String c (a ++ "]:" ++ b)).
    cbn [Py.split_from].
    assert (Hp : prefix "]:" (String c (a ++ "]:" ++ b)) = false).
    { cbn [prefix]. destruct (ascii_dec "]" c) as [<-|]; [discriminate Hc | reflexivity]. }
    rewrite Hp, (IH Ha). reflexivity.
Qed.

Lemma num_to_ipv4_chars (m : Z) :
  has_char ":" (_num_to_ipv4 m) = false /\ Py.contains "." (_num_to_ipv4 m) = true.
Proof.
  destruct (num_to_ipv4_text m) as (Htext & Hall & Hlen & Hsplit).
  set (segments := rev (divmod_segments 4 256 m)) in *. split.
  - rewrite Htext. apply has_char_join; [reflexivity|].
    apply Forall_forall. intros g Hg. apply in_map_iff in Hg as (x & <- & Hx).
    rewrite Forall_forall in Hall. specialize (Hall x Hx). apply octet_text. lia.
  - apply (four_integers_shape _ segments); [|exact Hlen].
    rewrite Hsplit. now apply read_octets.
Qed.

Lemma num_to_ipv6_chars (m : Z) :
  has_char "]" (_num_to_ipv6 m true false) = false /\
  has_char "." (_num_to_ipv6 m true false) = false.
Proof.
  rewrite num_to_ipv6_text.
  assert (Hvs : Forall (fun v => 0 <= v < 65536) (hextets_of_num m)).
  { apply divmod_segments_range. lia. }
  split; apply has_char_join; try reflexivity; apply Forall_forall; intros g Hg;
    apply in_rev in Hg; apply in_map_iff in Hg as (x & <- & Hx);
    rewrite Forall_forall in Hvs; specialize (Hvs x Hx).
  - now apply hextet_render.
  - apply (numeral_has_no_foreign "." _ 16 x); [reflexivity | lia | now apply hextet_render].
Qed.

Lemma port_text_chars (q : Z) :
  has_char ":" (Py.str_int q) = false /\ has_char "]" (Py.str_int q) = false /\
  has_char "." (Py.str_int q) = false.
Proof.
  repeat split; apply (numeral_has_no_foreign _ _ 10 q); try reflexivity; try lia;
    apply int_str_int.
Qed.

Lemma ipv4_text_split (m x : Z) :
  Py.split (_num_to_ipv4 m ++ ":" ++ Py.str_int x) ":" = [_num_to_ipv4 m; Py.str_int x].
Proof.
  destruct (num_to_ipv4_chars m) as [Hcolon _]. destruct (port_text_chars x) as (Hpc & _ & _).
  change (":" ++ Py.str_int x)%string with (String ":" (Py.str_int x)).
  rewrite (split_char_app ":" _ _ Hcolon). f_equal.
  apply split_no_sep. now rewrite contains_char.
Qed.

Lemma ipv4_text_alone (m : Z) : Py.split (_num_to_ipv4 m) ":" = [_num_to_ipv4 m].
Proof.
  destruct (num_to_ipv4_chars m) as [Hcolon _].
  apply split_no_sep. now rewrite contains_char.
Qed.

Lemma clamp_port_of_valid (x : Z) :
  port_in_range x = true -> clamp_port (Some (PInt x)) = Some (PInt x).
Proof.
  intros Hrange. pose proof (clamp_port_in_range (PInt x) Hrange) as Hc.
  destruct (clamp_port (Some (PInt x))) as [[z|b]|] eqn:E; cbn [port_eqb int_val] in Hc;
    try discriminate Hc.
  - apply Z.eqb_eq in Hc. now subst z.
  - unfold clamp_port, Py.max2, Py.min2 in E. cbn [int_val] in E.
    destruct (_ <? x) in E; cbn [int_val] in E; destruct (_ <? _) in E; discriminate E.
Qed.

(** The IPv4 text of an integer, with a port or not, as the constructor
    reads it and as the object writes it. *)
Lemma ipv4_init_of_text (m : Z) (q : option Z) :
  IPV4_MIN_VALUE <= m <= IPV4_MAX_VALUE ->
  (forall x, q = Some x -> PORT_NUMBER_MIN_VALUE <= x <= PORT_NUMBER_MAX_VALUE) ->
  let text := match q with
              | Some x => (_num_to_ipv4 m ++ ":" ++ Py.str_int x)%string
              | None => _num_to_ipv4 m
              end in
  IPv4_init (Some text) VNone = Ok (mkFamily (_num_to_ipv4 m) m (option_map PInt q)) /\
  IPv4_str (mkFamily (_num_to_ipv4 m) m (option_map PInt q)) = text /\
  Py.contains "." text = true.
Proof.
  intros Hm Hq text.
  destruct (num_to_ipv4_chars m) as [_ Hdot].
  assert (Hnum : _ipv4_to_num (_num_to_ipv4 m) = Ok m).
  { apply (low_bits_in_range m 32); [exact Hm | apply ipv4_to_num_of_num]. }
  destruct q as [x|]; unfold text.
  - specialize (Hq x eq_refl).
    assert (Hrange : port_in_range x = true) by now apply port_in_range_iff.
    split; [|split].
    + unfold IPv4_init. rewrite ipv4_text_split, int_str_int. cbn [bind Py.nonempty_list].
      rewrite Hnum. cbn [bind]. rewrite IPAddress_init_slots_spec.
      cbn [bind valid_port_or_none int_val option_map]. now rewrite Hrange.
    + unfold IPv4_str. cbn [fam_port fam_address option_map].
      now rewrite (clamp_port_of_valid x Hrange).
    + rewrite contains_char, has_char_app. rewrite contains_char in Hdot. now rewrite Hdot.
  - split; [|split]; [|reflexivity|exact Hdot].
    unfold IPv4_init. rewrite ipv4_text_alone. cbn [bind Py.nonempty_list].
    rewrite Hnum. cbn [bind]. rewrite IPAddress_init_slots_spec. reflexivity.
Qed.

(** X16. The IPv4 text of an integer within the IPv4 range, followed or not by
    a port within the port bounds, constructs an object with that integer
    and that port which renders as the same text; the strict validator
    accepts the text. *)
Theorem ipv4_text_with_port_round_trip (m : Z) (q : option Z) :
  IPV4_MIN_VALUE <= m <= IPV4_MAX_VALUE ->
  (forall x, q = Some x -> PORT_NUMBER_MIN_VALUE <= x <= PORT_NUMBER_MAX_VALUE) ->
  let text := match q with
              | Some x => (_num_to_ipv4 m ++ ":" ++ Py.str_int x)%string
              | None => _num_to_ipv4 m
              end in
  IPv4_init (Some text) VNone = Ok (mkFamily (_num_to_ipv4 m) m (option_map PInt q)) /\
  IPv4_str (mkFamily (_num_to_ipv4 m) m (option_map PInt q)) = text /\
  Py.contains "." text = true /\
  _ipv4_validator (VStr text) true = Ok true.
Proof.
  intros Hm Hq text.
  destruct (ipv4_init_of_text m q Hm Hq) as (Hinit & Hstr & Hd). fold text in Hinit, Hstr, Hd.
  split; [exact Hinit|]. split; [exact Hstr|]. split; [exact Hd|].
  pose proof (ipv4_validator_of_num m) as Hvalid.
  destruct q as [x|]; [|exact Hvalid]. unfold text in *.
  specialize (Hq x eq_refl).
  assert (Hrange : port_in_range x = true) by now apply port_in_range_iff.
  destruct (num_to_ipv4_chars m) as [_ Hdot].
  cbn [_ipv4_validator]. rewrite Hd, ipv4_text_split. cbn [negb validate_port_part].
  rewrite int_str_int. cbn [try_ValueError andb]. rewrite Hrange. cbn [negb].
  cbn [_ipv4_validator] in Hvalid. rewrite Hdot, ipv4_text_alone in Hvalid.
  cbn [negb validate_port_part] in Hvalid. exact Hvalid.
Qed.

Lemma ipv4_text_with_port_round_trip_witness :
  IPv4_init (Some "192.168.0.1:8080") VNone
    = Ok (mkFamily "192.168.0.1" 3232235521 (Some (PInt 8080))) /\
  IPv4_str (mkFamily "192.168.0.1" 3232235521 (Some (PInt 8080))) = "192.168.0.1:8080" /\
  Py.contains "." "192.168.0.1:8080" = true /\
  _ipv4_validator (VStr "192.168.0.1:8080") true = Ok true.
Proof.
  apply (ipv4_text_with_port_round_trip 3232235521 (Some 8080)).
  - vm_compute. split; discriminate.
  - intros x Hx. injection Hx as <-. vm_compute. split; discriminate.
Defined.

Lemma ipv6_text_split (m x : Z) :
  Py.split ("[" ++ _num_to_ipv6 m true false ++ "]:" ++ Py.str_int x) "]:"
  = [("[" ++ _num_to_ipv6 m true false)%string; Py.str_int x].
Proof.
  destruct (num_to_ipv6_chars m) as [Hbr _]. destruct (port_text_chars x) as (_ & Hpb & _).
  change ("[" ++ _num_to_ipv6 m true false ++ "]:" ++ Py.str_int x)%string
    with (("[" ++ _num_to_ipv6 m true false) ++ "]:" ++ Py.str_int x)%string.
  apply split_bracket; [|exact Hpb]. cbn [append has_char]. exact Hbr.
Qed.

Lemma ipv6_text_alone (m : Z) : Py.contains "]:" (_num_to_ipv6 m true false) = false.
Proof. destruct (num_to_ipv6_chars m) as [Hbr _]. now apply contains_first_char. Qed.

(** The short IPv6 text of an integer, with a port or not, as the
    constructor reads it and as the object writes it. *)
Lemma ipv6_init_of_text (m : Z) (q : option Z) :
  IPV6_MIN_VALUE <= m <= IPV6_MAX_VALUE ->
  (forall x, q = Some x -> PORT_NUMBER_MIN_VALUE <= x <= PORT_NUMBER_MAX_VALUE) ->
  let address := _num_to_ipv6 m true false in
  let text := match q with
              | Some x => ("[" ++ address ++ "]:" ++ Py.str_int x)%string
              | None => address
              end in
  IPv6_init (Some text) VNone = Ok (mkFamily address m (option_map PInt q)) /\
  IPv6_str (mkFamily address m (option_map PInt q)) = text /\
  Py.contains "." text = false.
Proof.
  intros Hm Hq address text.
  destruct (num_to_ipv6_chars m) as [_ Hdot]. fold address in Hdot.
  assert (Hnum : _ipv6_to_num address = Ok m).
  { apply (low_bits_in_range m 128); [exact Hm | apply ipv6_of_num]. }
  destruct q as [x|]; unfold text.
  - specialize (Hq x eq_refl). destruct (port_text_chars x) as (_ & _ & Hpd).
    assert (Hrange : port_in_range x = true) by now apply port_in_range_iff.
    split; [|split].
    + unfold IPv6_init, address. rewrite ipv6_text_split, int_str_int.
      cbn [bind Py.nonempty_list append Py.drop_first]. fold address.
      rewrite Hnum. cbn [bind]. rewrite IPAddress_init_slots_spec.
      cbn [bind valid_port_or_none int_val option_map]. now rewrite Hrange.
    + unfold IPv6_str. cbn [fam_port fam_address option_map].
      now rewrite (clamp_port_of_valid x Hrange).
    + rewrite contains_char. cbn [append has_char]. rewrite !has_char_app.
      cbn [has_char]. now rewrite Hdot, Hpd.
  - split; [|split]; [|reflexivity|now rewrite contains_char].
    unfold IPv6_init. rewrite (split_no_sep "]:" address (ipv6_text_alone m)).
    cbn [bind Py.nonempty_list]. rewrite Hnum. cbn [bind].
    rewrite IPAddress_init_slots_spec. reflexivity.
Qed.

(** X17. The short IPv6 text of an integer within the IPv6 range, alone or in
    brackets with a port within the port bounds after it, constructs an
    object with that integer and that port which renders as the same text;
    the strict validator accepts the text. *)
Theorem ipv6_text_with_port_round_trip (m : Z) (q : option Z) :
  IPV6_MIN_VALUE <= m <= IPV6_MAX_VALUE ->
  (forall x, q = Some x -> PORT_NUMBER_MIN_VALUE <= x <= PORT_NUMBER_MAX_VALUE) ->
  let address := _num_to_ipv6 m true false in
  let text := match q with
              | Some x => ("[" ++ address ++ "]:" ++ Py.str_int x)%string
              | None => address
              end in
  IPv6_init (Some text) VNone = Ok (mkFamily address m (option_map PInt q)) /\
  IPv6_str (mkFamily address m (option_map PInt q)) = text /\
  Py.contains "." text = false /\
  _ipv6_validator (VStr text) true = Ok true.
Proof.
  intros Hm Hq address text.
  destruct (ipv6_init_of_text m q Hm Hq) as (Hinit & Hstr & Hd).
  fold address in Hinit, Hstr, Hd. fold text in Hinit, Hstr, Hd.
  split; [exact Hinit|]. split; [exact Hstr|]. split; [exact Hd|].
  destruct (ipv6_of_num m true) as [_ Hvalid]. fold address in Hvalid.
  destruct q as [x|]; [|exact Hvalid]. unfold text in *.
  specialize (Hq x eq_refl).
  assert (Hrange : port_in_range x = true) by now apply port_in_range_iff.
  cbn [_ipv6_validator]. unfold address. rewrite ipv6_text_split. fold address.
  cbn [Py.nonempty_list append Py.drop_first].
  cbn [validate_port_part]. rewrite int_str_int. cbn [try_ValueError andb].
  rewrite Hrange. cbn [negb].
  rewrite (ipv6_validator_plain address true (ipv6_text_alone m)) in Hvalid. exact Hvalid.
Qed.

Lemma ipv6_text_with_port_round_trip_witness :
  IPv6_init (Some "[0:0:0:0:0:0:0:1]:443") VNone
    = Ok (mkFamily "0:0:0:0:0:0:0:1" 1 (Some (PInt 443))) /\
  IPv6_str (mkFamily "0:0:0:0:0:0:0:1" 1 (Some (PInt 443))) = "[0:0:0:0:0:0:0:1]:443" /\
  Py.contains "." "[0:0:0:0:0:0:0:1]:443" = false /\
  _ipv6_validator (VStr "[0:0:0:0:0:0:0:1]:443") true = Ok true.
Proof.
  apply (ipv6_text_with_port_round_trip 1 (Some 443)).
  - vm_compute. split; discriminate.
  - intros x Hx. injection Hx as <-. vm_compute. split; discriminate.
Defined.

Lemma clamp_port_int (x : Z) :
  clamp_port (Some (PInt x)) = Some (PInt (Z.min (Z.max 0 x) 65535)).
Proof.
  unfold clamp_port, Py.max2, Py.min2, PORT_NUMBER_MIN_VALUE, PORT_NUMBER_MAX_VALUE.
  cbn [int_val].
  destruct (Z.ltb_spec 0 x); cbn [int_val].
  - destruct (Z.ltb_spec 65535 x); do 2 f_equal; lia.
  - destruct (Z.ltb_spec 65535 0); [lia|]. do 2 f_equal. lia.
Qed.

(** X18. The text of a generic address (with an integer port or none) can be
    given back to any of the three classes: the object constructed has the
    same [num] and [port], renders as the same text, and equals the
    original. *)
Theorem text_of_generic_address_constructs (n : Z) (p : option Z) (cls : class) :
  let self := Generic n (option_map PInt p) None None in
  num self <= IPV6_MAX_VALUE ->
  exists text other,
    fst (object_str self) = Ok text /\
    IPAddress_new cls (AStr text) VNone = Ok other /\
    fst (object_str other) = Ok text /\
    num other = num self /\ port other = port self /\
    eq_outcome self (OObj other) = Ok true.
Proof.
  intros self Hmax.
  assert (Hnn : 0 <= num self) by (unfold num; lia).
  set (q := option_map (fun x => Z.min (Z.max 0 x) 65535) p).
  assert (Hport : port self = option_map PInt q).
  { unfold port, self, q. cbn [_port]. destruct p as [x|]; [apply clamp_port_int | reflexivity]. }
  assert (Hq : forall x, q = Some x -> PORT_NUMBER_MIN_VALUE <= x <= PORT_NUMBER_MAX_VALUE).
  { unfold q, PORT_NUMBER_MIN_VALUE, PORT_NUMBER_MAX_VALUE. destruct p as [y|]; [|discriminate].
    intros x Hx. injection Hx as <-. lia. }
  assert (Hclamp : clamp_port (option_map PInt q) = option_map PInt q).
  { rewrite <- Hport. unfold port. apply clamp_port_valid. }
  destruct (generic_object_str n (option_map PInt p)) as (H4 & H6).
  fold self in H4, H6.
  assert (Heq : forall text other,
            fst (object_str self) = Ok text -> fst (object_str other) = Ok text ->
            eq_outcome self (OObj other) = Ok true).
  { intros text other Hs Ho. rewrite (eq_outcome_objects self other text text Hs Ho).
    now rewrite String.eqb_refl. }
  destruct (Z.leb_spec (num self) IPV4_MAX_VALUE) as [Hle|Hgt].
  - specialize (H4 Hle). rewrite Hport in H4.
    destruct (ipv4_init_of_text (num self) q) as (Hinit & Hstr & Hdot);
      [unfold IPV4_MIN_VALUE; lia | exact Hq |].
    set (f := mkFamily (_num_to_ipv4 (num self)) (num self) (option_map PInt q)) in *.
    assert (Htext : fst (object_str self) = Ok (IPv4_str f)).
    { rewrite H4, Hstr. now destruct q. }
    exists (IPv4_str f), (V4 f). split; [exact Htext|]. split.
    + unfold IPAddress_new. rewrite Hstr, Hdot. rewrite <- Hstr at 1. rewrite Hstr, Hinit.
      reflexivity.
    + split; [reflexivity|]. split; [unfold num; cbn [_num f fam_num]; fold (num self); lia|].
      split; [unfold port at 1; cbn [_port f fam_port]; now rewrite Hclamp, Hport|].
      now apply (Heq (IPv4_str f)).
  - specialize (H6 (conj Hgt Hmax)). rewrite Hport in H6.
    destruct (ipv6_init_of_text (num self) q) as (Hinit & Hstr & Hdot);
      [unfold IPV6_MIN_VALUE; lia | exact Hq |].
    set (f := mkFamily (_num_to_ipv6 (num self) true false) (num self) (option_map PInt q)) in *.
    assert (Htext : fst (object_str self) = Ok (IPv6_str f)).
    { rewrite H6, Hstr. now destruct q. }
    exists (IPv6_str f), (V6 f). split; [exact Htext|]. split.
    + unfold IPAddress_new. rewrite Hstr, Hdot, Hinit. reflexivity.
    + split; [reflexivity|]. split; [unfold num; cbn [_num f fam_num]; fold (num self); lia|].
      split; [unfold port at 1; cbn [_port f fam_port]; now rewrite Hclamp, Hport|].
      now apply (Heq (IPv6_str f)).
Qed.

Lemma text_of_generic_address_constructs_witness :
  exists text other,
    fst (object_str (Generic 3232235521 (Some (PInt 8080)) None None)) = Ok text /\
    IPAddress_new CIPv6 (AStr text) VNone = Ok other /\
    fst (object_str other) = Ok text /\
    num other = num (Generic 3232235521 (Some (PInt 8080)) None None) /\
    port other = port (Generic 3232235521 (Some (PInt 8080)) None None) /\
    eq_outcome (Generic 3232235521 (Some (PInt 8080)) None None) (OObj other) = Ok true.
Proof.
  apply (text_of_generic_address_constructs 3232235521 (Some 8080) CIPv6).
  vm_compute. discriminate.
Defined.

Lemma append_assoc_string (a b c : string) : (a ++ (b ++ c))%string = ((a ++ b) ++ c)%string.
Proof. induction a as [|x a IH]; [reflexivity|]. cbn [append]. now rewrite IH. Qed.

(** ** The zero-skip *)

Lemma split_double_colon_head (g t : string) :
  has_char ":" g = false ->
  Py.split_from "::" 0 (g ++ t)
  = match Py.split_from "::" 0 t with
    | piece :: rest => (g ++ piece)%string :: rest
    | [] => [g]
    end.
Proof.
  intros Hg. induction g as [|c g IH].
  - cbn [append]. destruct (Py.split_from "::" 0 t) eqn:E; [|reflexivity].
    now apply split_from_not_nil in E.
  - cbn [has_char] in Hg. apply orb_false_iff in Hg as [Hc Hg].
    change (String c g ++ t)%string with (String c (g ++ t)).
    cbn [Py.split_from]. rewrite prefix_colons, Hc, (IH Hg). cbn [andb].
    now destruct (Py.split_from "::" 0 t).
Qed.

Lemma split_double_colon_single (t : string) :
  prefix ":" t = false ->
  Py.split_from "::" 0 (String ":" t)
  = match Py.split_from "::" 0 t with
    | piece :: rest => String ":" piece :: rest
    | [] => [":"]
    end.
Proof.
  intros Hp. cbn [Py.split_from]. now rewrite prefix_colons, Hp, andb_false_r.
Qed.

Lemma split_double_colon_skip (b : string) :
  Py.contains "::" b = false -> Py.split_from "::" 0 ("::" ++ b) = [""; b].
Proof.
  intros Hb. change ("::" ++ b)%string with (String ":" (String ":" b)).
  cbn [Py.split_from]. change (String ":" (String ":" b)) with ("::" ++ b)%string.
  rewrite prefix_app. cbn [String.length Nat.sub append Py.split_from]. f_equal.
  apply (split_no_sep "::" b Hb).
Qed.

Lemma plain_pieces_forall (pieces : list string) :
  Forall plain_piece pieces ->
  Forall (fun g => has_char ":" g = false) pieces /\
  Forall (fun g => has_char ":" g = false /\ Py.nonempty g = true) pieces.
Proof.
  intros H. split; [|exact H]. apply Forall_forall. intros g Hg.
  rewrite Forall_forall in H. now apply H.
Qed.

(** Splitting on the zero-skip a text that has plain pieces on its left. *)
Lemma split_zero_skip (left : list string) (b : string) :
  Forall plain_piece left ->
  Py.contains "::" b = false ->
  Py.split (Py.join ":" left ++ "::" ++ b) "::" = [Py.join ":" left; b].
Proof.
  intros Hl Hb. unfold Py.split. induction left as [|g [|g2 r] IH].
  - now apply split_double_colon_skip.
  - inversion Hl as [|? ? [Hg _] _]; subst. cbn [Py.join String.concat].
    rewrite (split_double_colon_head g _ Hg), (split_double_colon_skip b Hb).
    now rewrite append_nil_r_string.
  - inversion Hl as [|? ? [Hg _] Hr]; subst.
    change (Py.join ":" (g :: g2 :: r))
      with (g ++ String ":" (Py.join ":" (g2 :: r)))%string.
    replace ((g ++ String ":" (Py.join ":" (g2 :: r))) ++ "::" ++ b)%string
      with (g ++ String ":" (Py.join ":" (g2 :: r) ++ "::" ++ b))%string.
    2:{ clear. induction g as [|c g IH]; [reflexivity|]. cbn [append]. f_equal. exact IH. }
    rewrite (split_double_colon_head g _ Hg).
    rewrite split_double_colon_single.
    + now rewrite (IH Hr).
    + inversion Hr as [|? ? [Hg2 Hn2] _]; subst.
      destruct r as [|g3 r].
      * cbn [Py.join String.concat]. now apply prefix_colon_app.
      * change (Py.join ":" (g2 :: g3 :: r))
          with (g2 ++ String ":" (Py.join ":" (g3 :: r)))%string.
        rewrite <- append_assoc_string. now apply prefix_colon_app.
Qed.

Lemma join_nonempty (pieces : list string) :
  Forall plain_piece pieces ->
  Py.nonempty (Py.join ":" pieces) = Py.nonempty_list pieces.
Proof.
  intros H. destruct pieces as [|g r]; [reflexivity|].
  inversion H as [|? ? [_ Hg] _]; subst.
  destruct g as [|c g]; [discriminate|]. now destruct r.
Qed.

Lemma split_colon_side (pieces : list string) :
  Forall plain_piece pieces ->
  Py.split (Py.join ":" pieces) ":" = if Py.nonempty_list pieces then pieces else [""].
Proof.
  intros H. destruct pieces as [|g r]; [reflexivity|].
  apply (split_join_char ":" (g :: r)); [discriminate|].
  now apply plain_pieces_forall.
Qed.

Lemma join_side_no_skip (pieces : list string) :
  Forall plain_piece pieces -> Py.contains "::" (Py.join ":" pieces) = false.
Proof.
  intros H. destruct pieces as [|g r]; [reflexivity|].
  now apply join_no_double_colon.
Qed.

Lemma zero_skip_segments_expanded (left right : list string) :
  Forall plain_piece left -> Forall plain_piece right ->
  zero_skip_segments (Py.join ":" left ++ "::" ++ Py.join ":" right)
  = Some (expanded left right).
Proof.
  intros Hl Hr. unfold zero_skip_segments.
  rewrite (split_zero_skip left _ Hl (join_side_no_skip right Hr)).
  cbv beta iota zeta.
  rewrite !split_colon_side, !join_nonempty by assumption.
  unfold expanded, IPV6_MAX_SEGMENT_COUNT. rewrite <- app_assoc.
  assert (E : Z.to_nat
                (8 - Z.of_nat
                       (length (if Py.nonempty_list left then left else [""]) +
                        length (if Py.nonempty_list right then right else [""])))
              = (8 - Nat.max 1 (length left) - Nat.max 1 (length right))%nat).
  { destruct left, right; cbn [Py.nonempty_list length]; lia. }
  rewrite E. now destruct left, right.
Qed.

(** X19. The zero-skip stands for as many "0000" as it takes to reach eight
    segments, and for one more on a side that has no piece; the result never
    has fewer than eight segments. *)
Theorem zero_skip_expansion (left right : list string) :
  Forall plain_piece left -> Forall plain_piece right ->
  zero_skip_segments (Py.join ":" left ++ "::" ++ Py.join ":" right)
  = Some (expanded left right) /\
  length (expanded left right)
  = Nat.max 8 (Nat.max 1 (length left) + Nat.max 1 (length right)).
Proof.
  intros Hl Hr. split; [now apply zero_skip_segments_expanded|].
  unfold expanded. rewrite !length_app, repeat_length.
  destruct left, right; cbn [Py.nonempty_list length]; lia.
Qed.

Lemma zero_skip_expansion_witness :
  zero_skip_segments "1:2::3"
  = Some ["1"; "2"; "0000"; "0000"; "0000"; "0000"; "0000"; "3"] /\
  zero_skip_segments "1:2:3:4:5:6:7::8"
  = Some ["1"; "2"; "3"; "4"; "5"; "6"; "7"; "8"] /\
  zero_skip_segments "1:2:3:4:5:6:7:8::"
  = Some ["1"; "2"; "3"; "4"; "5"; "6"; "7"; "8"; "0000"].
Proof.
  split; [|split].
  - destruct (zero_skip_expansion ["1"; "2"] ["3"]) as [H _];
      [repeat constructor.. | exact H].
  - destruct (zero_skip_expansion ["1"; "2"; "3"; "4"; "5"; "6"; "7"] ["8"]) as [H _];
      [repeat constructor.. | exact H].
  - destruct (zero_skip_expansion ["1"; "2"; "3"; "4"; "5"; "6"; "7"; "8"] []) as [H _];
      [repeat constructor.. | exact H].
Defined.

Lemma split_side_length (h : string) :
  length (if Py.nonempty h then Py.split h ":" else ["0000"]) = length (Py.split h ":") /\
  (1 <= length (Py.split h ":"))%nat.
Proof.
  destruct h as [|c h]; [split; reflexivity|]. cbn [Py.nonempty]. split; [reflexivity|].
  pose proof (split_not_nil (String c h) ":") as H.
  destruct (Py.split (String c h) ":"); [contradiction|]. cbn [length]. lia.
Qed.

(** X20. Whatever stands on the two sides of a single zero-skip, the segments
    it expands to are eight when the sides have at most eight pieces between
    them, and as many as the sides have otherwise: never fewer than eight. *)
Theorem zero_skip_never_short (address half0 half1 : string) :
  Py.split address "::" = [half0; half1] ->
  exists segments,
    zero_skip_segments address = Some segments /\
    length segments
    = Nat.max 8 (length (Py.split half0 ":") + length (Py.split half1 ":")).
Proof.
  intros H. unfold zero_skip_segments. rewrite H. cbv beta iota zeta.
  eexists. split; [reflexivity|].
  rewrite !length_app, repeat_length.
  destruct (split_side_length half0) as [-> H0], (split_side_length half1) as [-> H1].
  unfold IPV6_MAX_SEGMENT_COUNT. lia.
Qed.

Lemma zero_skip_never_short_witness :
  exists segments,
    zero_skip_segments "::" = Some segments /\ length segments = 8%nat.
Proof. apply (zero_skip_never_short "::" "" ""). reflexivity. Defined.

(** ** The scan for the longest run of zeroes *)



Lemma zero_scan_loop_snoc (st : zero_scan) (idx : nat) (l : list string) (x : string) :
  zero_scan_loop st idx (l ++ [x])
  = zero_scan_step (zero_scan_loop st idx l) (idx + length l) x.
Proof.
  revert st idx. induction l as [|y l IH]; intros st idx; cbn [app zero_scan_loop length].
  - now rewrite Nat.add_0_r.
  - rewrite IH. f_equal. lia.
Qed.

Lemma nth_error_snoc_new (l : list string) (x : string) :
  nth_error (l ++ [x]) (length l) = Some x.
Proof. rewrite nth_error_app2, Nat.sub_diag by lia. reflexivity. Qed.

Lemma zero_run_snoc_old (l : list string) (x : string) (j k : nat) :
  (j + k <= length l)%nat -> zero_run (l ++ [x]) j k <-> zero_run l j k.
Proof.
  intros H. split; intros R m Hm.
  - rewrite <- (R m Hm). symmetry. apply nth_error_app1. lia.
  - rewrite <- (R m Hm). apply nth_error_app1. lia.
Qed.

Lemma zero_run_snoc_new (l : list string) (x : string) (j k : nat) :
  (j + k = length l + 1)%nat -> (0 < k)%nat ->
  zero_run (l ++ [x]) j k <-> x = "0" /\ zero_run l j (length l - j).
Proof.
  intros H Hk. split.
  - intros R. split.
    + specialize (R (length l) ltac:(lia)). rewrite nth_error_snoc_new in R. congruence.
    + intros m Hm. rewrite <- (R m ltac:(lia)). symmetry. apply nth_error_app1. lia.
  - intros [-> R] m Hm. destruct (Nat.eq_dec m (length l)) as [->|Hne].
    + apply nth_error_snoc_new.
    + rewrite nth_error_app1 by lia. apply R. lia.
Qed.

Lemma zero_run_empty (l : list string) (j : nat) : zero_run l j 0.
Proof. intros m Hm. lia. Qed.

Lemma scan_inv_step (l : list string) (st : zero_scan) (x : string) :
  scan_inv l st -> scan_inv (l ++ [x]) (zero_scan_step st (length l) x).
Proof.
  intros (Hc & Hcz & Hsuf & Hl & Hlz & Hmax).
  assert (Hcl : (current st <= longest st)%nat).
  { destruct (Nat.eq_dec (current st) 0) as [E|E]; [lia|].
    apply (Hmax (current_idx st) (current st)); [specialize (Hc ltac:(lia)); lia|exact Hcz]. }
  unfold zero_scan_step, scan_inv. rewrite length_app. cbn [length].
  destruct (String.eqb_spec x "0") as [->|Hx].
  - set (start := if (current st =? 0)%nat then length l else current_idx st).
    assert (Hend : (start + S (current st) = length l + 1)%nat).
    { subst start. destruct (Nat.eqb_spec (current st) 0) as [E|E]; [lia|].
      specialize (Hc ltac:(lia)). lia. }
    assert (Hrun : zero_run (l ++ ["0"]) start (S (current st))).
    { apply zero_run_snoc_new; [exact Hend|lia|]. split; [reflexivity|].
      replace (length l - start)%nat with (current st) by lia.
      subst start. destruct (Nat.eqb_spec (current st) 0) as [E|E].
      - rewrite E. apply zero_run_empty.
      - exact Hcz. }
    assert (Hsuf' : forall j, (j <= length l + 1)%nat ->
                      zero_run (l ++ ["0"]) j (length l + 1 - j) ->
                      (length l + 1 - j <= S (current st))%nat).
    { intros j Hj R. destruct (Nat.eq_dec j (length l + 1)) as [->|Hne]; [lia|].
      apply zero_run_snoc_new in R as [_ R]; [|lia|lia].
      specialize (Hsuf j ltac:(lia) R). lia. }
    destruct (Nat.ltb_spec (longest st) (S (current st))) as [Hlt|Hge];
      cbn [longest longest_idx current current_idx];
      (split; [intros _; exact Hend|]); (split; [exact Hrun|]);
      (split; [exact Hsuf'|]).
    + split; [lia|]. split; [exact Hrun|].
      intros j k Hjk R. destruct (Nat.eq_dec k 0) as [->|Hk0]; [split; lia|].
      destruct (Nat.le_gt_cases (j + k) (length l)) as [Hin|Hout].
      * apply zero_run_snoc_old in R; [|exact Hin].
        destruct (Hmax j k Hin R) as [Hk _]. split; lia.
      * assert (Hk : (0 < k)%nat) by lia.
        apply zero_run_snoc_new in R as [_ R]; [|lia|exact Hk].
        specialize (Hsuf j ltac:(lia) R). split; lia.
    + split; [lia|]. split; [apply zero_run_snoc_old; [lia|exact Hlz]|].
      intros j k Hjk R. destruct (Nat.eq_dec k 0) as [->|Hk0]; [split; lia|].
      destruct (Nat.le_gt_cases (j + k) (length l)) as [Hin|Hout].
      * apply zero_run_snoc_old in R; [|exact Hin]. exact (Hmax j k Hin R).
      * assert (Hk : (0 < k)%nat) by lia.
        apply zero_run_snoc_new in R as [_ R]; [|lia|exact Hk].
        specialize (Hsuf j ltac:(lia) R). split; lia.
  - cbn [Nat.ltb Nat.leb longest longest_idx current current_idx].
    split; [lia|]. split; [apply zero_run_empty|].
    split.
    { intros j Hj R. destruct (Nat.eq_dec j (length l + 1)) as [->|Hne]; [lia|].
      apply zero_run_snoc_new in R as [E _]; [contradiction|lia|lia]. }
    split; [lia|]. split; [apply zero_run_snoc_old; [lia|exact Hlz]|].
    intros j k Hjk R. destruct (Nat.eq_dec k 0) as [->|Hk0]; [split; lia|].
    destruct (Nat.le_gt_cases (j + k) (length l)) as [Hin|Hout].
    + apply zero_run_snoc_old in R; [|exact Hin]. exact (Hmax j k Hin R).
    + apply zero_run_snoc_new in R as [E _]; [contradiction|lia|lia].
Qed.

Lemma scan_inv_all (l : list string) :
  scan_inv l (zero_scan_loop (mkScan 0 0 0 0) 0 l).
Proof.
  induction l as [|x l IH] using rev_ind.
  - unfold scan_inv. cbn.
    split; [lia|]. split; [apply zero_run_empty|]. split; [intros; lia|].
    split; [lia|]. split; [apply zero_run_empty|]. intros j k Hjk _. split; lia.
  - rewrite zero_scan_loop_snoc. now apply scan_inv_step.
Qed.

(** X21. The scan records the first of the longest runs of "0" segments. *)
Theorem zero_scan_finds_first_longest_run (segments : list string) :
  let st := zero_scan_loop (mkScan 0 0 0 0) 0 segments in
  (longest_idx st + longest st <= length segments)%nat /\
  zero_run segments (longest_idx st) (longest st) /\
  (forall start len, (start + len <= length segments)%nat ->
     zero_run segments start len ->
     (len <= longest st)%nat /\
     (len = longest st -> (0 < len)%nat -> (longest_idx st <= start)%nat)) /\
  (existsb (String.eqb "0") segments = true -> (1 <= longest st)%nat).
Proof.
  intros st. destruct (scan_inv_all segments) as (_ & _ & _ & Hl & Hlz & Hmax).
  fold st in Hl, Hlz, Hmax. split; [exact Hl|]. split; [exact Hlz|]. split; [exact Hmax|].
  intros He. apply existsb_exists in He as (x & Hin & Hx).
  apply String.eqb_eq in Hx. subst x.
  apply In_nth_error in Hin as [j Hj].
  assert (Hlen : (j < length segments)%nat).
  { apply nth_error_Some. congruence. }
  apply (Hmax j 1%nat); [lia|]. intros m Hm. now replace m with j by lia.
Qed.

Lemma zero_scan_finds_first_longest_run_witness :
  (2 <= longest (zero_scan_loop (mkScan 0 0 0 0) 0
                   ["0"; "1"; "0"; "0"; "2"; "0"; "0"; "1"]))%nat.
Proof.
  destruct (zero_scan_finds_first_longest_run ["0"; "1"; "0"; "0"; "2"; "0"; "0"; "1"])
    as (_ & _ & Hmax & _).
  apply (Hmax 5 2)%nat; [cbn [length]; lia|].
  intros j Hj. assert (E : j = 5%nat \/ j = 6%nat) by lia.
  destruct E as [-> | ->]; reflexivity.
Defined.

(** ** Rendering with the longest run of zeroes removed *)


Lemma hextet_text_zero (v : Z) :
  0 <= v < 65536 -> hextet_text v = "0" -> v = 0.
Proof.
  intros Hv E. destruct (hextet_render v Hv) as (_ & _ & Hint & _).
  rewrite E in Hint. vm_compute in Hint. congruence.
Qed.

Lemma zero_run_values (vs : list Z) (i len : nat) :
  Forall (fun v => 0 <= v < 65536) vs ->
  (i + len <= length vs)%nat ->
  zero_run (map hextet_text vs) i len ->
  vs = firstn i vs ++ repeat 0 len ++ skipn (i + len) vs.
Proof.
  intros Hr Hlen R.
  assert (E : firstn len (skipn i vs) = repeat 0 len).
  { apply nth_error_ext. intros n. rewrite nth_error_firstn.
    destruct (Nat.ltb_spec n len) as [Hn|Hn].
    - rewrite nth_error_skipn, nth_error_repeat by exact Hn.
      specialize (R (i + n)%nat ltac:(lia)). rewrite nth_error_map in R.
      destruct (nth_error vs (i + n)) as [v|] eqn:Ev; [|discriminate].
      cbn [option_map] in R. injection R as R. f_equal.
      apply hextet_text_zero; [|exact R].
      rewrite Forall_forall in Hr. apply Hr. eapply nth_error_In. exact Ev.
    - symmetry. apply nth_error_None. now rewrite repeat_length. }
  rewrite <- E, Nat.add_comm, <- skipn_skipn, firstn_skipn, firstn_skipn. reflexivity.
Qed.

Lemma remove_zero_run_frame (ts : list string) :
  length ts = 8%nat ->
  let st := zero_scan_loop (mkScan 0 0 0 0) 0 ts in
  (1 <= longest st)%nat ->
  (longest_idx st + longest st <= 8)%nat ->
  longest_idx st <> 7%nat ->
  remove_zero_run ts
  = or_blank (firstn (longest_idx st) ts) ++ [""]
    ++ or_blank (skipn (longest_idx st + longest st) ts).
Proof.
  intros Hts st H1 H8 H7. unfold remove_zero_run. fold st.
  cbv beta zeta. unfold IPV6_MIN_SEGMENT_COUNT, IPV6_MAX_SEGMENT_COUNT.
  destruct ts as [|t ts]; [discriminate|].
  f_equal; [|f_equal].
  - destruct (longest_idx st) as [|i] eqn:Ei; [reflexivity|].
    replace ((0 <? Z.of_nat (S i)) && (Z.of_nat (S i) <? 8 - 1)) with true; [reflexivity|].
    symmetry. apply andb_true_iff. split; apply Z.ltb_lt; lia.
  - destruct (Nat.eq_dec (longest_idx st + longest st) 8) as [E|E].
    + rewrite E. cbn [Z.of_nat]. rewrite skipn_all2 by lia.
      now rewrite andb_false_r.
    + replace ((0 <? Z.of_nat (longest_idx st + longest st))
               && (Z.of_nat (longest_idx st + longest st) <? 8)) with true.
      2:{ symmetry. apply andb_true_iff. split; apply Z.ltb_lt; lia. }
      destruct (skipn (longest_idx st + longest st) (t :: ts)) eqn:Es; [|reflexivity].
      apply skipn_all_iff in Es. lia.
Qed.

Lemma or_blank_rev (side : list string) : rev (or_blank side) = or_blank (rev side).
Proof.
  destruct side as [|x side]; [reflexivity|]. unfold or_blank. cbn [Py.nonempty_list].
  destruct (rev (x :: side)) eqn:E; [|reflexivity].
  apply (f_equal (@length string)) in E. rewrite length_rev in E. discriminate.
Qed.

Lemma join_or_blank (side : list string) :
  Py.join ":" (or_blank side) = Py.join ":" side.
Proof. now destruct side. Qed.

Lemma or_blank_not_nil (side : list string) : or_blank side <> [].
Proof. now destruct side. Qed.

Lemma join_app (sep : string) (a b : list string) :
  a <> [] -> b <> [] ->
  Py.join sep (a ++ b) = (Py.join sep a ++ sep ++ Py.join sep b)%string.
Proof.
  intros Ha Hb. induction a as [|x a IH]; [contradiction|].
  destruct a as [|y a].
  - destruct b; [contradiction|]. reflexivity.
  - change (Py.join sep ((x :: y :: a) ++ b))
      with (x ++ sep ++ Py.join sep ((y :: a) ++ b))%string.
    rewrite IH by discriminate.
    change (Py.join sep (x :: y :: a)) with (x ++ sep ++ Py.join sep (y :: a))%string.
    now rewrite <- !append_assoc_string.
Qed.

(** The text of the segments around a removed run: the higher side, the
    zero-skip, the lower side. *)
Lemma join_around_blank (low high : list string) :
  Py.join ":" (rev (or_blank low ++ [""] ++ or_blank high))
  = (Py.join ":" (rev high) ++ "::" ++ Py.join ":" (rev low))%string.
Proof.
  rewrite !rev_app_distr, !or_blank_rev. cbn [rev app].
  rewrite <- app_assoc.
  rewrite join_app; [|apply or_blank_not_nil|discriminate].
  change ([""] ++ or_blank (rev low)) with ("" :: or_blank (rev low)).
  rewrite join_or_blank.
  destruct (or_blank (rev low)) as [|x r] eqn:E; [now apply or_blank_not_nil in E|].
  change (Py.join ":" ("" :: x :: r)) with ("" ++ ":" ++ Py.join ":" (x :: r))%string.
  now rewrite <- E, join_or_blank.
Qed.

Section Rendered.

Variable render : Z -> string.
Hypothesis render_piece :
  forall v, 0 <= v < 65536 ->
    plain_piece (render v) /\ has_char "]" (render v) = false /\
    parse_hextet (render v) = Ok v.

Lemma read_rendered (vs : list Z) :
  Forall (fun v => 0 <= v < 65536) vs ->
  map_result parse_hextet (map render vs) = Ok vs.
Proof.
  induction 1 as [|v vs Hv _ IH]; [reflexivity|].
  cbn [map map_result]. destruct (render_piece v Hv) as (_ & _ & ->).
  cbn [bind]. now rewrite IH.
Qed.

Lemma rendered_pieces (vs : list Z) :
  Forall (fun v => 0 <= v < 65536) vs -> Forall plain_piece (map render vs).
Proof.
  intros H. apply Forall_map. eapply Forall_impl; [|exact H].
  intros v Hv. now apply render_piece.
Qed.

Lemma read_zero_fill (k : nat) :
  map_result parse_hextet (repeat "0000" k) = Ok (repeat 0 k).
Proof.
  induction k as [|k IH]; [reflexivity|].
  cbn [repeat map_result]. rewrite IH. reflexivity.
Qed.

Lemma fill_zero (high low : list Z) (len : nat) :
  (1 <= len)%nat -> (length high + len + length low = 8)%nat ->
  (if Py.nonempty_list high then high else [0])
  ++ repeat 0 (8 - Nat.max 1 (length high) - Nat.max 1 (length low))
  ++ (if Py.nonempty_list low then low else [0])
  = high ++ repeat 0 len ++ low.
Proof.
  intros H1 H8. destruct high as [|x high], low as [|y low];
    cbn [Py.nonempty_list length] in *.
  - replace len with 8%nat by lia. reflexivity.
  - replace len with (S (8 - 1 - S (length low)))%nat by lia. reflexivity.
  - replace len with ((8 - S (length high) - 1) + 1)%nat by lia.
    rewrite repeat_app. cbn [Nat.max repeat]. now rewrite app_nil_r.
  - do 2 f_equal. f_equal. lia.
Qed.

(** Reading back a text with a zero-skip between rendered hextets. *)
Lemma read_around_skip (high low : list Z) (len : nat) :
  Forall (fun v => 0 <= v < 65536) high ->
  Forall (fun v => 0 <= v < 65536) low ->
  (1 <= len)%nat -> (length high + len + length low = 8)%nat ->
  hextets (Py.join ":" (map render high) ++ "::" ++ Py.join ":" (map render low))
  = Some (high ++ repeat 0 len ++ low).
Proof.
  intros Hh Hl H1 H8. unfold hextets.
  rewrite (zero_skip_segments_expanded (map render high) (map render low))
    by now apply rendered_pieces.
  unfold expanded. rewrite !length_map.
  rewrite !map_result_app, read_zero_fill.
  replace (map_result parse_hextet
             (if Py.nonempty_list (map render high) then map render high else ["0000"]))
    with (Ok (if Py.nonempty_list high then high else [0])).
  2:{ destruct high; [reflexivity|]. symmetry. now apply read_rendered. }
  replace (map_result parse_hextet
             (if Py.nonempty_list (map render low) then map render low else ["0000"]))
    with (Ok (if Py.nonempty_list low then low else [0])).
  2:{ destruct low; [reflexivity|]. symmetry. now apply read_rendered. }
  cbn [bind]. now rewrite (fill_zero high low len H1 H8).
Qed.

End Rendered.


Lemma zero_scan_finds_zero (segments : list string) :
  existsb (String.eqb "0") segments = true ->
  (1 <= longest (zero_scan_loop (mkScan 0 0 0 0) 0 segments))%nat.
Proof.
  intros He. destruct (scan_inv_all segments) as (_ & _ & _ & _ & _ & Hmax).
  apply existsb_exists in He as (x & Hin & Hx).
  apply String.eqb_eq in Hx. subst x.
  apply In_nth_error in Hin as [j Hj].
  assert (Hlen : (j < length segments)%nat).
  { apply nth_error_Some. congruence. }
  apply (Hmax j 1%nat); [lia|]. intros m Hm. now replace m with j by lia.
Qed.

Lemma hextets_of_num_facts (num : Z) :
  Forall (fun v => 0 <= v < 65536) (hextets_of_num num) /\
  length (hextets_of_num num) = 8%nat /\
  weighted_total 16 0 (hextets_of_num num) 0 = num mod 2 ^ 128.
Proof.
  split; [apply divmod_segments_range; lia|].
  split; [apply divmod_segments_length|]. apply (weighted_divmod 16 8). lia.
Qed.

Lemma pad_rendered (vs : list Z) :
  Forall (fun v => 0 <= v < 65536) vs ->
  map (fun seg : string => if Py.nonempty seg then Py.zfill seg 4 else "")
      (or_blank (map hextet_text vs))
  = or_blank (map four_digits vs).
Proof.
  intros H.
  assert (E : map (fun seg : string => if Py.nonempty seg then Py.zfill seg 4 else "")
                  (map hextet_text vs) = map four_digits vs).
  { rewrite map_map. apply map_ext_in. intros x Hx. rewrite Forall_forall in H.
    now destruct (hextet_render x (H x Hx)) as (-> & -> & _). }
  destruct vs as [|v vs]; [reflexivity|]. exact E.
Qed.

Lemma num_to_ipv6_removed (num : Z) (shorten : bool) :
  let vs := hextets_of_num num in
  let st := zero_scan_of num in
  let render := if shorten then hextet_text else four_digits in
  existsb (String.eqb "0") (map hextet_text vs) = true ->
  longest_idx st <> 7%nat ->
  exists low high,
    vs = low ++ repeat 0 (longest st) ++ high /\
    (1 <= longest st)%nat /\
    _num_to_ipv6 num shorten true
    = (Py.join ":" (map render (rev high)) ++ "::"
       ++ Py.join ":" (map render (rev low)))%string.
Proof.
  intros vs st render Hz H7.
  destruct (hextets_of_num_facts num) as (Hvs & Hlen & _). fold vs in Hvs, Hlen.
  pose proof (scan_inv_all (map hextet_text vs)) as Hscan.
  pose proof (zero_scan_finds_zero (map hextet_text vs) Hz) as H1.
  change (zero_scan_loop (mkScan 0 0 0 0) 0 (map hextet_text vs)) with st in Hscan, H1.
  destruct Hscan as (_ & _ & _ & Hin & Hrun & _).
  rewrite length_map, Hlen in Hin.
  assert (E : vs = firstn (longest_idx st) vs ++ repeat 0 (longest st)
                   ++ skipn (longest_idx st + longest st) vs).
  { apply zero_run_values; [exact Hvs|lia|exact Hrun]. }
  exists (firstn (longest_idx st) vs), (skipn (longest_idx st + longest st) vs).
  split; [exact E|]. split; [exact H1|].
  assert (Hlow : Forall (fun v => 0 <= v < 65536) (firstn (longest_idx st) vs) /\
                 Forall (fun v => 0 <= v < 65536)
                        (skipn (longest_idx st + longest st) vs)).
  { rewrite E in Hvs. apply Forall_app in Hvs as [Hl Hvs].
    apply Forall_app in Hvs as [_ Hh]. now split. }
  destruct Hlow as [Hl Hh].
  unfold _num_to_ipv6.
  change (Z.to_nat IPV6_MAX_SEGMENT_COUNT) with 8%nat.
  change (IPV6_MAX_SEGMENT_VALUE + 1) with 65536.
  change (Z.to_nat (IPV6_SEGMENT_BIT_COUNT / IPV6_NUMBER_BIT_COUNT)) with 4%nat.
  change (divmod_segments 8 65536 num) with vs.
  cbv zeta. rewrite Hz. cbn [andb].
  rewrite (remove_zero_run_frame (map hextet_text vs));
    [|now rewrite length_map|exact H1|exact Hin|exact H7].
  change (zero_scan_loop (mkScan 0 0 0 0) 0 (map hextet_text vs)) with st.
  rewrite firstn_map, skipn_map, !map_rev.
  destruct shorten; cbn [negb]; subst render; cbv iota.
  - now rewrite join_around_blank.
  - rewrite !map_app, !pad_rendered by assumption.
    cbn [map Py.nonempty]. now rewrite join_around_blank.
Qed.

Lemma zero_scan_loop_no_zero (l : list string) (idx : nat) :
  existsb (String.eqb "0") l = false ->
  zero_scan_loop (mkScan 0 0 0 0) idx l = mkScan 0 0 0 0.
Proof.
  revert idx. induction l as [|x l IH]; intros idx H; [reflexivity|].
  cbn [existsb] in H. apply orb_false_iff in H as [Hx Hl].
  cbn [zero_scan_loop]. unfold zero_scan_step.
  rewrite String.eqb_sym in Hx. rewrite Hx. cbn. now apply IH.
Qed.

Lemma no_zero_text (vs : list Z) :
  Forall (fun v => 0 <= v < 65536) vs ->
  existsb (String.eqb "0") (map hextet_text vs) = false <-> Forall (fun v => v <> 0) vs.
Proof.
  intros Hr. split.
  - intros He. apply Forall_forall. intros v Hv ->.
    assert (Ht : existsb (String.eqb "0") (map hextet_text vs) = true); [|congruence].
    apply existsb_exists. exists "0". split; [|reflexivity].
    apply in_map_iff. now exists 0.
  - intros Hn. destruct (existsb (String.eqb "0") (map hextet_text vs)) eqn:He; [|reflexivity].
    apply existsb_exists in He as (x & Hin & Hx). apply String.eqb_eq in Hx. subst x.
    apply in_map_iff in Hin as (v & Ev & Hv).
    rewrite Forall_forall in Hr, Hn. specialize (Hr v Hv). specialize (Hn v Hv).
    now apply hextet_text_zero in Ev.
Qed.

(** The scan stops on the last segment exactly when the highest hextet is
    the only zero. *)
Lemma lone_first_zero_scan (num : Z) :
  lone_first_zero num <->
  existsb (String.eqb "0") (map hextet_text (hextets_of_num num)) = true /\
  longest_idx (zero_scan_of num) = 7%nat.
Proof.
  destruct (hextets_of_num_facts num) as (Hvs & Hlen & _).
  split.
  - intros (low & E & Hlow). unfold zero_scan_of. rewrite E in *.
    rewrite length_app in Hlen. cbn [length] in Hlen.
    apply Forall_app in Hvs as [Hr _].
    apply (no_zero_text low Hr) in Hlow.
    rewrite map_app. change (map hextet_text [0]) with ["0"].
    rewrite existsb_app, zero_scan_loop_snoc, length_map.
    rewrite (zero_scan_loop_no_zero _ 0 Hlow).
    replace (length low) with 7%nat by lia.
    split; [now rewrite orb_true_r | reflexivity].
  - intros [Hz H7].
    pose proof (scan_inv_all (map hextet_text (hextets_of_num num))) as Hscan.
    pose proof (zero_scan_finds_zero _ Hz) as H1.
    change (zero_scan_loop (mkScan 0 0 0 0) 0 (map hextet_text (hextets_of_num num)))
      with (zero_scan_of num) in Hscan, H1.
    destruct Hscan as (_ & _ & _ & Hin & Hrun & Hmax).
    rewrite length_map, Hlen in Hin, Hmax.
    set (vs := hextets_of_num num) in *.
    assert (E : vs = firstn 7 vs ++ repeat 0 (longest (zero_scan_of num)) ++ skipn (7 + longest (zero_scan_of num)) vs).
    { rewrite <- H7. apply zero_run_values; [exact Hvs|lia|exact Hrun]. }
    replace (longest (zero_scan_of num)) with 1%nat in E by lia.
    rewrite skipn_all2 in E by lia. cbn [repeat app] in E.
    exists (firstn 7 vs). split; [exact E|].
    assert (Hr : Forall (fun v => 0 <= v < 65536) (firstn 7 vs)).
    { rewrite E in Hvs. now apply Forall_app in Hvs. }
    apply (no_zero_text _ Hr).
    destruct (existsb (String.eqb "0") (map hextet_text (firstn 7 vs))) eqn:He; [|reflexivity].
    apply existsb_exists in He as (x & Hx & Ex). apply String.eqb_eq in Ex. subst x.
    apply In_nth_error in Hx as [j Hj].
    assert (Hj7 : (j < 7)%nat).
    { assert (Hl : (j < length (map hextet_text (firstn 7 vs)))%nat).
      { apply nth_error_Some. congruence. }
      rewrite length_map, length_firstn in Hl. lia. }
    rewrite <- firstn_map, nth_error_firstn in Hj.
    destruct (Nat.ltb_spec j 7) as [_|]; [|lia].
    destruct (Hmax j 1%nat) as [_ Hfirst]; [lia| |].
    + intros m Hm. now replace m with j by lia.
    + specialize (Hfirst ltac:(lia) ltac:(lia)). lia.
Qed.

(** X22. Except when the highest hextet is the only zero, an integer written
    with its longest run of zero hextets removed is read back as its low 128
    bits, and the text is strictly valid. *)
Theorem remove_zeroes_round_trip (num : Z) (shorten : bool) :
  ~ lone_first_zero num ->
  _ipv6_to_num (_num_to_ipv6 num shorten true) = Ok (num mod 2 ^ 128) /\
  (IPV6_MIN_VALUE <= num <= IPV6_MAX_VALUE ->
   _ipv6_to_num (_num_to_ipv6 num shorten true) = Ok num) /\
  _ipv6_validator (VStr (_num_to_ipv6 num shorten true)) true = Ok true.
Proof.
  intros Hnot.
  destruct (existsb (String.eqb "0") (map hextet_text (hextets_of_num num))) eqn:Hz.
  - assert (H7 : longest_idx (zero_scan_of num) <> 7%nat).
    { intros H7. apply Hnot. now apply lone_first_zero_scan. }
    destruct (num_to_ipv6_removed num shorten Hz H7) as (low & high & E & H1 & ->).
    destruct (hextets_of_num_facts num) as (Hvs & Hlen & Hval).
    set (len := longest (zero_scan_of num)) in *.
    set (render := if shorten then hextet_text else four_digits).
    assert (Hrender : forall v, 0 <= v < 65536 ->
              plain_piece (render v) /\ has_char "]" (render v) = false /\
              parse_hextet (render v) = Ok v).
    { intros v Hv. subst render.
      destruct shorten; [now apply hextet_text_piece | now apply four_digits_piece]. }
    assert (Hparts : Forall (fun v => 0 <= v < 65536) (rev high) /\
                     Forall (fun v => 0 <= v < 65536) (rev low) /\
                     (length (rev high) + len + length (rev low) = 8)%nat).
    { rewrite E in Hvs, Hlen. apply Forall_app in Hvs as [Hl Hvs].
      apply Forall_app in Hvs as [_ Hh].
      rewrite !length_app, repeat_length in Hlen. rewrite !length_rev.
      split; [now apply Forall_rev|]. split; [now apply Forall_rev|lia]. }
    destruct Hparts as (Hh & Hl & H8).
    pose proof (read_around_skip render Hrender (rev high) (rev low) len Hh Hl H1 H8) as Hread.
    replace (rev high ++ repeat 0 len ++ rev low) with (rev (hextets_of_num num)) in Hread.
    2:{ rewrite E, !rev_app_distr, rev_repeat. now rewrite app_assoc. }
    assert (Hnum : _ipv6_to_num
                     (Py.join ":" (map render (rev high)) ++ "::"
                      ++ Py.join ":" (map render (rev low)))
                   = Ok (num mod 2 ^ 128)).
    { rewrite (ipv6_to_num_eight _ _ Hread).
      - now rewrite rev_involutive, Hval.
      - now rewrite length_rev.
      - apply Forall_rev. exact Hvs. }
    split; [exact Hnum|]. split.
    + intros Hr. now apply (low_bits_in_range num 128).
    + eapply ipv6_validator_accepts_eight;
        [|exact Hread|now rewrite length_rev|exact Hnum].
      * apply contains_first_char. rewrite !has_char_app.
        assert (Hside : forall side, Forall (fun v => 0 <= v < 65536) side ->
                  has_char "]" (Py.join ":" (map render side)) = false).
        { intros side Hs. apply has_char_join; [reflexivity|].
          apply Forall_map. eapply Forall_impl; [|exact Hs].
          intros v Hv. now apply Hrender. }
        now rewrite !Hside.
  - assert (E : _num_to_ipv6 num shorten true = _num_to_ipv6 num shorten false).
    { unfold _num_to_ipv6. unfold hextets_of_num in Hz.
      change (Z.to_nat IPV6_MAX_SEGMENT_COUNT) with 8%nat.
      change (IPV6_MAX_SEGMENT_VALUE + 1) with 65536.
      cbv zeta. now rewrite Hz. }
    rewrite E. destruct (ipv6_of_num num shorten) as [Hnum Hvalid].
    split; [exact Hnum|]. split; [|exact Hvalid].
    intros Hr. now apply (low_bits_in_range num 128).
Qed.

Lemma remove_zeroes_round_trip_witness :
  _ipv6_to_num (_num_to_ipv6 (2 ^ 64 + 1) true true) = Ok (2 ^ 64 + 1).
Proof.
  assert (Hnot : ~ lone_first_zero (2 ^ 64 + 1)).
  { intros H. apply lone_first_zero_scan in H as [_ H7]. vm_compute in H7. discriminate. }
  destruct (remove_zeroes_round_trip (2 ^ 64 + 1) true Hnot) as (_ & H & _).
  apply H. unfold IPV6_MIN_VALUE, IPV6_MAX_VALUE. lia.
Defined.

(** X23. When the highest hextet of an integer is its only zero, the text
    with zero removal is "::" whatever the other seven hextets are; it reads
    back as 0, which is not the integer. *)
Theorem lone_first_zero_is_erased (num : Z) (shorten : bool) :
  lone_first_zero num ->
  _num_to_ipv6 num shorten true = "::" /\
  _ipv6_to_num (_num_to_ipv6 num shorten true) = Ok 0 /\
  num mod 2 ^ 128 <> 0.
Proof.
  intros Hlone.
  assert (Htext : _num_to_ipv6 num shorten true = "::").
  { destruct (hextets_of_num_facts num) as (Hvs & Hlen & _).
    destruct Hlone as (low & E & Hlow).
    unfold _num_to_ipv6.
    change (Z.to_nat IPV6_MAX_SEGMENT_COUNT) with 8%nat.
    change (IPV6_MAX_SEGMENT_VALUE + 1) with 65536.
    change (divmod_segments 8 65536 num) with (hextets_of_num num).
    rewrite E in *. rewrite length_app in Hlen. cbn [length] in Hlen.
    apply Forall_app in Hvs as [Hr _]. apply (no_zero_text low Hr) in Hlow.
    cbv zeta. rewrite map_app. change (map hextet_text [0]) with ["0"].
    rewrite existsb_app, orb_true_r. cbn [andb].
    unfold remove_zero_run.
    rewrite zero_scan_loop_snoc, length_map, (zero_scan_loop_no_zero _ 0 Hlow).
    replace (length low) with 7%nat by lia.
    now destruct shorten. }
  split; [exact Htext|]. split; [now rewrite Htext|].
  destruct Hlone as (low & E & Hlow).
  pose proof (divmod_segments_length 8 65536 num) as Hlen.
  fold (hextets_of_num num) in Hlen. rewrite E, length_app in Hlen. cbn [length] in Hlen.
  destruct low as [|v low]; [discriminate|].
  inversion Hlow as [|? ? Hv _]; subst.
  unfold hextets_of_num in E. cbn [divmod_segments app] in E.
  injection E as Ev _. intros Hmod. apply Hv. rewrite <- Ev.
  change (2 ^ 128) with (65536 * 2 ^ 112) in Hmod.
  pose proof (Z.mod_pos_bound num 65536 ltac:(lia)) as Hb.
  pose proof (Z.div_mod num 65536 ltac:(lia)) as Hd.
  pose proof (Z.div_mod num (65536 * 2 ^ 112) ltac:(lia)) as Hd2.
  rewrite Hmod in Hd2. lia.
Qed.

Lemma lone_first_zero_is_erased_witness :
  _num_to_ipv6 (1 + 2 * 2 ^ 16 + 3 * 2 ^ 32 + 4 * 2 ^ 48 + 5 * 2 ^ 64 + 6 * 2 ^ 80 + 7 * 2 ^ 96) false true = "::".
Proof.
  apply (lone_first_zero_is_erased (1 + 2 * 2 ^ 16 + 3 * 2 ^ 32 + 4 * 2 ^ 48 + 5 * 2 ^ 64 + 6 * 2 ^ 80 + 7 * 2 ^ 96) false).
  apply lone_first_zero_scan. split; vm_compute; reflexivity.
Defined.

(** ** The IPv4 constructor checks neither the count nor the range *)

Lemma read_integers (zs : list Z) :
  map_result (fun seg => Py.int seg 10) (map Py.str_int zs) = Ok zs.
Proof.
  induction zs as [|z zs IH]; [reflexivity|].
  cbn [map map_result]. rewrite int_str_int. cbn [bind]. now rewrite IH.
Qed.

Lemma str_int_chars (z : Z) :
  has_char ":" (Py.str_int z) = false /\ has_char "." (Py.str_int z) = false.
Proof.
  split; apply (numeral_has_no_foreign _ _ 10 z); try reflexivity; try lia;
    apply int_str_int.
Qed.

Lemma dotted_integers_shape (zs : list Z) :
  (2 <= length zs)%nat ->
  let text := Py.join "." (map Py.str_int zs) in
  Py.contains "." text = true /\
  Py.split text ":" = [text] /\
  Py.split text "." = map Py.str_int zs.
Proof.
  intros Hlen text. split; [|split].
  - destruct zs as [|a [|b zs]]; cbn [length] in Hlen; try lia.
    subst text. cbn [map].
    change (Py.join "." (Py.str_int a :: Py.str_int b :: map Py.str_int zs))
      with (Py.str_int a ++ String "." (Py.join "." (Py.str_int b :: map Py.str_int zs)))%string.
    rewrite contains_char, has_char_app. cbn [has_char].
    rewrite Ascii.eqb_refl. cbn [orb]. apply orb_true_r.
  - apply split_no_sep. rewrite contains_char. apply has_char_join; [reflexivity|].
    apply Forall_map, Forall_forall. intros z _. apply str_int_chars.
  - apply (split_join_char "." (map Py.str_int zs)).
    + destruct zs; [cbn [length] in Hlen; lia | discriminate].
    + apply Forall_map, Forall_forall. intros z _. apply str_int_chars.
Qed.

Lemma small_within_digit_limit (z : Z) : Z.abs z < 10 ^ 5 -> within_digit_limit z.
Proof.
  intros H. unfold within_digit_limit.
  apply Z.lt_le_trans with (10 ^ 5); [exact H|]. apply Z.pow_le_mono_r; lia.
Qed.

(** X24. A dotted text of two or more integers, each of at most 4300 digits
    (beyond that the interpreter's [int()] refuses the numeral), constructs
    an [IPv4], whatever class is called: the constructor checks neither how
    many segments there are nor their range, and [num] is their weighted sum.
    The lenient validator accepts such a text exactly when it has four
    segments, the strict one when moreover each is within 0..255. *)
Theorem ipv4_constructor_checks_no_segment (zs : list Z) :
  (2 <= length zs)%nat ->
  Forall within_digit_limit zs ->
  let text := Py.join "." (map Py.str_int zs) in
  (forall cls,
     IPAddress_new cls (AStr text) VNone
     = Ok (V4 (mkFamily text (weighted_total 8 0 (rev zs) 0) None))) /\
  _ipv4_validator (VStr text) false = Ok (Z.of_nat (length zs) =? 4) /\
  _ipv4_validator (VStr text) true
  = Ok ((Z.of_nat (length zs) =? 4) && forallb ipv4_segment_in_range zs).
Proof.
  intros Hlen _ text. destruct (dotted_integers_shape zs Hlen) as (Hdot & Hcolon & Hsplit).
  fold text in Hdot, Hcolon, Hsplit. split; [|split].
  - intros cls. unfold IPAddress_new. rewrite Hdot. unfold IPv4_init.
    rewrite Hcolon. cbn [bind Py.nonempty_list]. unfold _ipv4_to_num.
    rewrite Hsplit, read_integers. cbn [bind].
    rewrite IPAddress_init_slots_spec. reflexivity.
  - cbn [_ipv4_validator]. rewrite Hdot, Hcolon. cbn [negb validate_port_part].
    rewrite Hsplit, read_integers. cbn [try_ValueError andb].
    unfold IPV4_MAX_SEGMENT_COUNT. now destruct (Z.of_nat (length zs) =? 4).
  - cbn [_ipv4_validator]. rewrite Hdot, Hcolon. cbn [negb validate_port_part].
    rewrite Hsplit, read_integers. cbn [try_ValueError andb].
    unfold IPV4_MAX_SEGMENT_COUNT.
    destruct (Z.of_nat (length zs) =? 4); cbn [negb andb]; [|reflexivity].
    now destruct (forallb ipv4_segment_in_range zs).
Qed.

Lemma ipv4_constructor_checks_no_segment_witness :
  IPAddress_new CIPAddress (AStr "256.-1.70000") VNone
  = Ok (V4 (mkFamily "256.-1.70000" 16846960 None)) /\
  _ipv4_validator (VStr "256.-1.70000") false = Ok false.
Proof.
  destruct (ipv4_constructor_checks_no_segment [256; -1; 70000]) as (Hnew & Hlenient & _).
  - cbn [length]. lia.
  - repeat constructor; apply small_within_digit_limit; cbn [Z.abs]; lia.
  - split; [exact (Hnew CIPAddress) | exact Hlenient].
Defined.
